(** * mixxxdb: a shallow embedding of the catalog maintenance tool

    The development follows the layout of the Python package:

    - [Py]       the fragment of Python values, exceptions and [os.path]
                 string functions the package relies on;
    - [Db]       [db.py]: column descriptors ([Field]), the per-class
                 [ModelMeta], row instances ([Model]) living in an object
                 heap, and the generic engine ([get_id], [update], [delete],
                 [bulk_delete], [list]);
    - [Models]   [models.py]: the six entity classes and their cascades;
    - [Schemas]  [schemas.py]: the second, attribute-based engine used by
                 the command line tools;
    - [Mixxxdb]  [mixxxdb.py]: moving files and the two orphan scans.

    The storage file is modelled as a record of tables and every
    statement the code sends is a constructor of [Sql.stmt].  Each
    operation of the package opens a connection of its own, executes one
    statement and closes the connection; nothing calls [commit], so a
    [DELETE] or [UPDATE] is rolled back when its connection is closed. *)

From Stdlib Require Import List String Ascii ZArith Bool Lia Arith DecimalString.
From Stdlib Require DecimalPos DecimalZ.
Import ListNotations.
Local Open Scope string_scope.

(* ================================================================== *)
(** ** Python values, exceptions, [os.path] *)

Module Py.

(** The values that reach a column: [None], [int], [bool], [str],
    [float] (named by its [repr], as in ["0.5"]), [bytes], [datetime]. *)
Inductive value : Type :=
| VNone
| VInt (z : Z)
| VBool (b : bool)
| VStr (s : string)
| VFloat (repr : string)
| VBytes (s : string)
| VDatetime (iso : string).

(** The native classes a descriptor can name in its [type] attribute. *)
Inductive pytype : Type := TStr | TInt | TFloat | TBytes | TDatetime | TBool.

(** [isinstance(v, t)].  In Python [bool] is a subclass of [int]. *)
Definition isinstance (v : value) (t : pytype) : bool :=
  match v, t with
  | VInt _, TInt => true
  | VBool _, TInt => true
  | VBool _, TBool => true
  | VStr _, TStr => true
  | VFloat _, TFloat => true
  | VBytes _, TBytes => true
  | VDatetime _, TDatetime => true
  | _, _ => false
  end.

(** [v is None] *)
Definition is_none (v : value) : bool :=
  match v with VNone => true | _ => false end.

(** [bool(v)] *)
Definition truthy (v : value) : bool :=
  match v with
  | VNone => false
  | VInt z => negb (Z.eqb z 0)
  | VBool b => b
  | VStr s => negb (String.eqb s "")
  | VFloat r => negb (String.eqb r "0.0" || String.eqb r "-0.0")
  | VBytes s => negb (String.eqb s "")
  | VDatetime _ => true
  end.

(** [a == b] on the values above ([True == 1] holds in Python). *)
Definition as_int (v : value) : option Z :=
  match v with
  | VInt z => Some z
  | VBool b => Some (if b then 1%Z else 0%Z)
  | _ => None
  end.

Definition eqb (a b : value) : bool :=
  match a, b with
  | VNone, VNone => true
  | VStr s, VStr t => String.eqb s t
  | VBytes s, VBytes t => String.eqb s t
  | VDatetime s, VDatetime t => String.eqb s t
  | VFloat r, VFloat r' => String.eqb r r'
  | _, _ =>
      match as_int a, as_int b with
      | Some x, Some y => Z.eqb x y
      | _, _ => false
      end
  end.

(** Why a [ValueError] was raised: the messages of the package. *)
Inductive value_error : Type :=
| IdIsNone (operation : string)          (* "Cannot do %s() on %s; id is None" *)
| IdColumnIsNone (operation : string)    (* "...; id_column is None" *)
| IllegalValue (cls field : string) (v : value)
| DoesNotExist (cls : string) (id : value)
| DestinationNotDirectory
| Bare.                                  (* [raise ValueError] *)

(** Exceptions, by class.  The text an exception carries names its
    cause; it is not the message Python prints. *)
Inductive exn : Type :=
| ValueError (why : value_error)
| AttributeError (obj attr : string)
| TypeError (what : string)
| KeyError (key : string)
| OperationalError (what : string)       (* sqlite3: malformed statement *)
| OSError (what : string)
| UnboundLocalError (name : string).

(** A computation that returns or raises. *)
Inductive result (A : Type) : Type :=
| Ok (a : A)
| Raise (e : exn).
Arguments Ok {A} a.
Arguments Raise {A} e.

Definition bind {A B} (r : result A) (k : A -> result B) : result B :=
  match r with
  | Ok a => k a
  | Raise e => Raise e
  end.

(** *** State and exceptions

    A computation over a state [S] that returns or raises; what was
    done to the state before an exception stays done. *)
Definition ST (S A : Type) : Type := S -> result A * S.

Definition ret {S A} (a : A) : ST S A := fun st => (Ok a, st).
Definition raise {S A} (e : exn) : ST S A := fun st => (Raise e, st).
Definition mbind {S A B} (m : ST S A) (k : A -> ST S B) : ST S B :=
  fun st => match m st with
            | (Ok a, st') => k a st'
            | (Raise e, st') => (Raise e, st')
            end.
Definition lift {S A} (r : result A) : ST S A := fun st => (r, st).

Notation "x <- m ;; k" := (mbind m (fun x => k))
  (at level 61, m at next level, right associativity).
Notation "m ;;; k" := (mbind m (fun _ => k))
  (at level 61, right associativity).

Fixpoint mmap {S A B} (f : A -> ST S B) (xs : list A) : ST S (list B) :=
  match xs with
  | [] => ret []
  | x :: rest => y <- f x ;; ys <- mmap f rest ;; ret (y :: ys)
  end.

Fixpoint mfor {S A} (f : A -> ST S unit) (xs : list A) : ST S unit :=
  match xs with
  | [] => ret tt
  | x :: rest => f x ;;; mfor f rest
  end.

(** A computation that leaves the state as it was. *)
Definition reads {S A} (m : ST S A) : Prop := forall st, snd (m st) = st.

(** *** Strings *)

Definition slash : ascii := "/"%char.

(** [p.rfind("/") + 1]: length of the prefix that ends at the last slash. *)
Fixpoint after_last_slash (p : string) : nat :=
  match p with
  | EmptyString => 0
  | String c rest =>
      match after_last_slash rest with
      | 0 => if Ascii.eqb c slash then 1 else 0
      | S n => S (S n)
      end
  end.

Fixpoint all_slashes (s : string) : bool :=
  match s with
  | EmptyString => true
  | String c rest => Ascii.eqb c slash && all_slashes rest
  end.

(** [s.rstrip("/")] *)
Fixpoint rstrip_slash (s : string) : string :=
  match s with
  | EmptyString => EmptyString
  | String c rest =>
      match rstrip_slash rest with
      | EmptyString => if Ascii.eqb c slash then EmptyString else String c EmptyString
      | r => String c r
      end
  end.

(** [posixpath.dirname] *)
Definition dirname (p : string) : string :=
  let head := substring 0 (after_last_slash p) p in
  if negb (String.eqb head "") && negb (all_slashes head)
  then rstrip_slash head else head.

(** [posixpath.basename] *)
Definition basename (p : string) : string :=
  let i := after_last_slash p in
  substring i (String.length p - i) p.

(** [s.startswith(prefix)] *)
Definition startswith (pre s : string) : bool := String.prefix pre s.

(** [x in xs] for a list of strings *)
Definition str_in (x : string) (xs : list string) : bool :=
  existsb (String.eqb x) xs.

(** [x in xs] for a list of values *)
Definition val_in (x : value) (xs : list value) : bool :=
  existsb (eqb x) xs.

End Py.

(* ================================================================== *)
(** ** The storage file *)

Module Sql.
Import Py.

(** Column affinities of SQLite. *)
Inductive affinity : Type := AInteger | AText | AReal | ANumeric | ABlob.

Definition row : Type := list (string * value).

Record table : Type := mkTable {
  t_columns : list (string * affinity);
  t_rows : list row
}.

(** The catalog: the tables of the storage file, by name. *)
Definition catalog : Type := list (string * table).

(** A literal as it appears in the text of a statement. *)
Inductive lit : Type :=
| LNull                   (* NULL *)
| LInt (z : Z)            (* 42 *)
| LReal (repr : string)   (* 0.5 *)
| LText (s : string)      (* 'abc', quotes doubled *)
| LBare (s : string).     (* other text, which is not read as one literal *)

(** What [get_equals_expr] pastes after a column name. *)
Inductive frag : Type :=
| FIsNull                 (* " IS NULL" *)
| FEq (l : lit).          (* "=<literal>" *)

Inductive where_clause : Type :=
| WAll                                     (* no WHERE *)
| WFrag (col : string) (f : frag)          (* WHERE col<frag> *)
| WIn (col : string) (ls : list lit)       (* WHERE col IN (l1, ..., ln) *)
| WAndOr (cs : list (list (string * frag))).
       (* WHERE (c=a OR c=b) AND (d=e OR ...) ; [cs] is never empty *)

Inductive stmt : Type :=
| Select (cols : list string) (tbl : string) (w : where_clause)
| Delete (tbl : string) (w : where_clause)
| Update (tbl : string) (sets : list (string * frag)) (w : where_clause).

(** [str(z)] and its inverse on decimal numerals. *)
Definition dec (z : Z) : string := NilZero.string_of_int (Z.to_int z).
Definition undec (s : string) : option Z :=
  match NilZero.int_of_string s with
  | Some i => Some (Z.of_int i)
  | None => None
  end.

(** A statement with a NUL character is refused by [sqlite3] before
    SQLite sees it. *)
Fixpoint has_nul (s : string) : bool :=
  match s with
  | EmptyString => false
  | String c rest => Ascii.eqb c Ascii.zero || has_nul rest
  end.

(** The literal for the text [s], written with its quotes doubled. *)
Definition text_lit (s : string) : lit :=
  if has_nul s then LBare s else LText s.

Definition numeric (a : affinity) : bool :=
  match a with AInteger | AReal | ANumeric => true | _ => false end.

(** [stored = literal] under the affinity of the column, for stored
    integers and texts: a text literal compared with a numeric column
    is converted to a number when it is a numeral, an integer literal
    compared with a text column is converted to text.  NULL equals
    nothing.  (A stored real is compared with a literal of the same
    spelling only.) *)
Definition lit_eq (a : affinity) (stored : value) (l : lit) : bool :=
  match stored, l with
  | VInt z, LInt z' => Z.eqb z z'
  | VInt z, LText s =>
      if numeric a then
        match undec s with Some z' => Z.eqb z z' | None => false end
      else false
  | VStr s, LText s' => String.eqb s s'
  | VStr s, LInt z =>
      match a with AText => String.eqb s (dec z) | _ => false end
  | VFloat r, LReal r' => String.eqb r r'
  | VBytes s, LText s' => false
  | _, _ => false
  end.

Definition lookup {A} (k : string) (m : list (string * A)) : option A :=
  match find (fun kv => String.eqb (fst kv) k) m with
  | Some kv => Some (snd kv)
  | None => None
  end.

Fixpoint replace {A} (k : string) (v : A) (m : list (string * A)) : list (string * A) :=
  match m with
  | [] => []
  | (k', v') :: rest =>
      if String.eqb k' k then (k, v) :: rest else (k', v') :: replace k v rest
  end.

Definition cell (r : row) (col : string) : value :=
  match lookup col r with Some v => v | None => VNone end.

Definition is_bare (l : lit) : bool :=
  match l with LBare _ => true | _ => false end.

Definition frag_ok (f : frag) : bool :=
  match f with FIsNull => true | FEq l => negb (is_bare l) end.

Definition frag_holds (a : affinity) (stored : value) (f : frag) : bool :=
  match f with
  | FIsNull => is_none stored
  | FEq l => lit_eq a stored l
  end.

(** Columns a clause makes SQLite look up, and whether the clause
    parses: [()] (an empty disjunction, which [" OR ".join([])]
    produces) is a syntax error; an empty [IN ()] list is accepted by
    SQLite, which reads it as false without looking at the column.
    Text pasted in without quotes that is not a number is a name, a
    keyword or an expression to SQLite; the model does not follow that
    reading and keeps such a statement out by rejecting it. *)
Definition where_columns (w : where_clause) : list string :=
  match w with
  | WAll => []
  | WFrag c _ => [c]
  | WIn _ [] => []
  | WIn c (_ :: _) => [c]
  | WAndOr cs => map fst (List.concat cs)
  end.

Definition where_parses (w : where_clause) : bool :=
  match w with
  | WAll => true
  | WFrag _ f => frag_ok f
  | WIn _ ls => forallb (fun l => negb (is_bare l)) ls
  | WAndOr cs =>
      forallb (fun ors => negb (Nat.eqb (List.length ors) 0)
                          && forallb (fun cf => frag_ok (snd cf)) ors) cs
  end.

Definition affinity_of (t : table) (col : string) : affinity :=
  match lookup col (t_columns t) with Some a => a | None => ABlob end.

Definition has_column (t : table) (col : string) : bool :=
  match lookup col (t_columns t) with Some _ => true | None => false end.

Definition holds (t : table) (r : row) (cf : string * frag) : bool :=
  frag_holds (affinity_of t (fst cf)) (cell r (fst cf)) (snd cf).

Definition matches (t : table) (w : where_clause) (r : row) : bool :=
  match w with
  | WAll => true
  | WFrag c f => holds t r (c, f)
  | WIn c ls => existsb (lit_eq (affinity_of t c) (cell r c)) ls
  | WAndOr cs => forallb (fun ors => existsb (holds t r) ors) cs
  end.

(** [SET c=lit, ...]: [SET c IS NULL] is not an assignment. *)
Definition set_parses (sets : list (string * frag)) : bool :=
  negb (Nat.eqb (List.length sets) 0)
  && forallb (fun cf => match snd cf with
                        | FEq l => negb (is_bare l)
                        | FIsNull => false
                        end) sets.

Definition malformed : exn := OperationalError "syntax error".
Definition no_such_table : exn := OperationalError "no such table".
Definition no_such_column : exn := OperationalError "no such column".

(** [conn.execute(sql)] followed by [fetchall()]: the tuples of the
    result set, or the error of a statement that is rejected: a
    statement that does not parse is rejected before its table is
    looked up, and the table before its columns.  The
    statement runs in the transaction its connection opens; the package
    closes the connection without calling [commit], which rolls the
    transaction back: an accepted [DELETE] or [UPDATE] fetches nothing
    and leaves the storage file as it was. *)
Definition exec (s : stmt) (db : catalog) : result (list (list value)) :=
  match s with
  | Select cols tbl w =>
      if negb (where_parses w) || Nat.eqb (List.length cols) 0 then Raise malformed
      else
        match lookup tbl db with
        | None => Raise no_such_table
        | Some t =>
            if negb (forallb (has_column t) (cols ++ where_columns w))
            then Raise no_such_column
            else Ok (map (fun r => map (cell r) cols)
                         (filter (matches t w) (t_rows t)))
        end
  | Delete tbl w =>
      if negb (where_parses w) then Raise malformed
      else
        match lookup tbl db with
        | None => Raise no_such_table
        | Some t =>
            if negb (forallb (has_column t) (where_columns w))
            then Raise no_such_column
            else Ok []
        end
  | Update tbl sets w =>
      if negb (where_parses w && set_parses sets) then Raise malformed
      else
        match lookup tbl db with
        | None => Raise no_such_table
        | Some t =>
            if negb (forallb (has_column t) (map fst sets ++ where_columns w))
            then Raise no_such_column
            else Ok []
        end
  end.

(** The rows of a table ([[]] when the table is absent). *)
Definition rows_of (db : catalog) (tbl : string) : list row :=
  match lookup tbl db with Some t => t_rows t | None => [] end.

End Sql.

(* ================================================================== *)
(** ** [db.py]: column descriptors *)

Module Db.
Import Py Sql.

(** The descriptor classes.  [CharField] carries [max_length],
    [ForeignKeyField] the name of the class it points to. *)
Inductive kind : Type :=
| TextField
| CharField (max_length : nat)
| IntegerField
| FloatField
| BinaryField
| DatetimeField
| BooleanField
| ForeignKeyField (model : string).

(** A descriptor object: [nullable], [value], [default]. *)
Record Field : Type := mkField {
  f_kind : kind;
  nullable : bool;
  value_ : value;
  default : value
}.

(** [Field(nullable=True, value=None, default=None)] *)
Definition new_field (k : kind) (nullable : bool) (default : value) : Field :=
  mkField k nullable VNone default.

Definition set_value (f : Field) (v : value) : Field :=
  mkField (f_kind f) (nullable f) v (default f).

Definition class_name (k : kind) : string :=
  match k with
  | TextField => "TextField"
  | CharField _ => "CharField"
  | IntegerField => "IntegerField"
  | FloatField => "FloatField"
  | BinaryField => "BinaryField"
  | DatetimeField => "DatetimeField"
  | BooleanField => "BooleanField"
  | ForeignKeyField _ => "ForeignKeyField"
  end.

(** The class attribute [type].  [Field] only annotates it, every
    subclass but [ForeignKeyField] assigns it. *)
Definition type_of (k : kind) : option pytype :=
  match k with
  | TextField | CharField _ => Some TStr
  | IntegerField => Some TInt
  | FloatField => Some TFloat
  | BinaryField => Some TBytes
  | DatetimeField => Some TDatetime
  | BooleanField => Some TBool
  | ForeignKeyField _ => None
  end.

(** [Field.check] *)
Definition check (f : Field) : result unit :=
  match type_of (f_kind f) with
  | None => Raise (AttributeError (class_name (f_kind f)) "type")
  | Some t =>
      if negb (isinstance (value_ f) t) then
        if negb (is_none (value_ f)) || negb (nullable f)
        then Raise (ValueError Bare)
        else Ok tt
      else Ok tt
  end.

(** [str(d)] of a [datetime]: its ISO form with a space for the [T] *)
Fixpoint space_sep (iso : string) : string :=
  match iso with
  | EmptyString => EmptyString
  | String c rest =>
      if Ascii.eqb c "T"%char then String " "%char rest
      else String c (space_sep rest)
  end.

(** [str(v)] ([bytes] of printable characters other than quotes) *)
Definition py_str (v : value) : string :=
  match v with
  | VNone => "None"
  | VInt z => dec z
  | VBool true => "True"
  | VBool false => "False"
  | VStr s => s
  | VFloat r => r
  | VBytes s => "b'" ++ s ++ "'"
  | VDatetime iso => space_sep iso
  end.

(** The literal that ["%s" % (v,)] leaves in a statement: a numeral
    for an [int] and for a text that spells one; [True] and [False],
    which SQLite (from 3.23 on) reads as 1 and 0; anything else is
    pasted in as it prints. *)
Definition pasted (v : value) : lit :=
  match v with
  | VInt z => LInt z
  | VBool b => LInt (if b then 1 else 0)
  | VStr s => match undec s with Some z => LInt z | None => LBare s end
  | VFloat r => LReal r
  | _ => LBare (py_str v)
  end.

(** [to_db_not_null], by class *)
Definition to_db_not_null (k : kind) (v : value) : result lit :=
  match k with
  | TextField | CharField _ => Ok (text_lit (py_str v))
  | DatetimeField =>
      match v with
      | VDatetime iso => Ok (LText iso)
      | _ => Raise (AttributeError "value" "isoformat")
      end
  | BooleanField => Ok (LInt (if truthy v then 1 else 0))
  | _ => Ok (pasted v)
  end.

(** [to_db]; [None] for [arg] is the sentinel [EMPTY] *)
Definition to_db (f : Field) (arg : option value) : result lit :=
  let real_value := match arg with None => value_ f | Some v => v end in
  if is_none real_value then Ok LNull else to_db_not_null (f_kind f) real_value.

(** [Field.get_equals_expr] *)
Definition get_equals_expr (f : Field) (arg : option value) : result frag :=
  let real_value := match arg with None => value_ f | Some v => v end in
  if is_none real_value then Ok FIsNull
  else bind (to_db f (Some real_value)) (fun l => Ok (FEq l)).

(** [to_python], by class; [isoparse] is dateutil's parser, which
    takes a [str] or [bytes]. *)
Definition to_python (isoparse : string -> option string) (k : kind) (v : value)
  : result value :=
  match k with
  | DatetimeField =>
      match v with
      | VStr s | VBytes s =>
          match isoparse s with
          | Some iso => Ok (VDatetime iso)
          | None => Raise (ValueError Bare)
          end
      | _ => Raise (TypeError "isoparse: not a string")
      end
  | BooleanField => Ok (VBool (truthy v))
  | _ => Ok v
  end.

(** *** Objects

    Descriptors are mutable objects: they live in a heap and are named
    by their address.  A class owns one [ModelMeta]; a row instance owns
    the dictionary [_fields] from column names to descriptor objects. *)

Record ModelMeta : Type := mkMeta {
  base_fields : list (string * nat);
  table : option string;
  id_column : option string;
  id_field : option nat
}.

Record Model : Type := mkModel {
  class_of : string;
  _fields : list (string * nat)
}.

Record state : Type := mkState {
  heap : list Field;
  metas : list (string * ModelMeta);
  store : catalog
}.

Definition M (A : Type) : Type := ST state A.

(** Heap access *)
Definition alloc (f : Field) : M nat :=
  fun st => (Ok (List.length (heap st)),
             mkState (heap st ++ [f]) (metas st) (store st)).

Definition deref (a : nat) : M Field :=
  fun st => match nth_error (heap st) a with
            | Some f => (Ok f, st)
            | None => (Raise (KeyError "no such object"), st)
            end.

Fixpoint set_nth {A} (n : nat) (x : A) (l : list A) : list A :=
  match l, n with
  | [], _ => []
  | _ :: rest, 0 => x :: rest
  | y :: rest, S n' => y :: set_nth n' x rest
  end.

(** [obj.value = v] on the descriptor at address [a] *)
Definition assign_value (a : nat) (v : value) : M unit :=
  f <- deref a ;;
  fun st => (Ok tt, mkState (set_nth a (set_value f v) (heap st)) (metas st) (store st)).

Definition meta_of (cls : string) : M ModelMeta :=
  fun st => match lookup cls (metas st) with
            | Some m => (Ok m, st)
            | None => (Raise (AttributeError cls "_meta"), st)
            end.

Definition set_meta (cls : string) (m : ModelMeta) : M unit :=
  fun st => (Ok tt, mkState (heap st) (replace cls m (metas st)) (store st)).

(** [with db_connection(...) as conn: conn.execute(sql)]: the
    connection is closed without [commit], the storage file stays as it
    was. *)
Definition execute (s : stmt) : M (list (list value)) :=
  fun st => (exec s (store st), st).

(** The attributes of [ModelMeta] that [__init__] sets only when the
    [Meta] class gives them. *)
Definition meta_table (cls : string) : M string :=
  m <- meta_of cls ;;
  match table m with
  | Some t => ret t
  | None => raise (AttributeError "ModelMeta" "table")
  end.

Definition meta_id_column (cls : string) : M string :=
  m <- meta_of cls ;;
  match id_column m with
  | Some c => ret c
  | None => raise (AttributeError "ModelMeta" "id_column")
  end.

Definition meta_id_field (cls : string) : M nat :=
  m <- meta_of cls ;;
  match id_field m with
  | Some a => ret a
  | None => raise (AttributeError "ModelMeta" "id_field")
  end.

(** [ModelBase.__new__] with [ModelMeta.__init__]: the class statement.
    The descriptors written in the class body become [base_fields]. *)
Definition declare (cls : string) (tbl idc : option string)
    (body : list (string * Field)) : M unit :=
  addrs <- mmap (fun nf => a <- alloc (snd nf) ;; ret (fst nf, a)) body ;;
  idf <- match idc with
         | Some c =>
             match lookup c addrs with
             | Some a => ret (Some a)
             | None => raise (KeyError c)
             end
         | None => ret None
         end ;;
  fun st => (Ok tt, mkState (heap st)
                      (metas st ++ [(cls, mkMeta addrs tbl idc idf)]) (store st)).

(** *** [Model] *)

Section Engine.

(** dateutil's [isoparse], used by [DatetimeField.to_python] *)
Variable isoparse : string -> option string.

(** [Model.__init__] with keyword arguments [kwargs].  Every template descriptor is copied,
    then [self._meta.id_field] (an attribute of the object shared by the
    whole class) is pointed at the copy this instance owns.  Resolving
    the target class of a foreign key by name touches no value and is
    left out. *)
Definition init (cls : string) (kwargs : list (string * value)) : M Model :=
  m <- meta_of cls ;;
  fields <- mmap (fun na => f <- deref (snd na) ;; a <- alloc f ;; ret (fst na, a))
                 (base_fields m) ;;
  idc <- meta_id_column cls ;;
  match lookup idc fields with
  | None => raise (KeyError idc)
  | Some ida =>
      set_meta cls (mkMeta (base_fields m) (table m) (id_column m) (Some ida)) ;;;
      mfor (fun na =>
              f <- deref (snd na) ;;
              match lookup (fst na) kwargs with
              | Some v =>
                  v' <- lift (to_python isoparse (f_kind f) v) ;;
                  assign_value (snd na) v'
              | None => assign_value (snd na) VNone
              end) fields ;;;
      ret (mkModel cls fields)
  end.

(** [Model.__getattribute__] for the name of a column *)
Definition getattr (self : Model) (name : string) : M value :=
  match lookup name (_fields self) with
  | Some a => f <- deref a ;; ret (value_ f)
  | None => raise (AttributeError (class_of self) name)
  end.

(** [Model.__setattr__]; other names become plain attributes, which
    nothing below reads *)
Definition setattr (self : Model) (name : string) (v : value) : M unit :=
  match lookup name (_fields self) with
  | Some a => assign_value a v
  | None => ret tt
  end.

(** [Model._check] *)
Definition _check (self : Model) : M unit :=
  mfor (fun na =>
          f <- deref (snd na) ;;
          match check f with
          | Raise (ValueError _) =>
              raise (ValueError (IllegalValue (class_of self) (fst na) (value_ f)))
          | r => lift r
          end) (_fields self).

(** [Model.get_equals_expr(field_name)] *)
Definition model_equals_expr (self : Model) (field_name : string) : M (string * frag) :=
  match lookup field_name (_fields self) with
  | None => raise (KeyError field_name)
  | Some a =>
      f <- deref a ;;
      fr <- lift (get_equals_expr f None) ;;
      ret (field_name, fr)
  end.

(** [Model.get_id]: the value of [self._meta.id_field] *)
Definition get_id (self : Model) : M value :=
  a <- meta_id_field (class_of self) ;;
  f <- deref a ;;
  ret (value_ f).

(** [Model.bulk_delete] on the objects [objs] *)
Definition bulk_delete (cls : string) (objs : list Model) : M unit :=
  tbl <- meta_table cls ;;
  idc <- meta_id_column cls ;;
  ids <- mmap get_id objs ;;
  execute (Delete tbl (WIn idc (map pasted ids))) ;;;
  ret tt.

(** [Model.delete] *)
Definition delete (self : Model) : M unit :=
  id <- get_id self ;;
  if is_none id then raise (ValueError (IdIsNone "delete"))
  else
    tbl <- meta_table (class_of self) ;;
    idc <- meta_id_column (class_of self) ;;
    w <- model_equals_expr self idc ;;
    execute (Delete tbl (WFrag (fst w) (snd w))) ;;;
    ret tt.

(** ["UPDATE %s SET %s WHERE %s" % (a, b, c, d)]: three places for
    four arguments. *)
Definition format_error : exn :=
  TypeError "not all arguments converted during string formatting".

(** [Model.update].  The list of assignments and the four arguments of
    the format are evaluated, in that order; formatting them then
    raises, so that no statement is ever sent. *)
Definition update (self : Model) : M unit :=
  id <- get_id self ;;
  if is_none id then raise (ValueError (IdIsNone "update"))
  else
    _check self ;;;
    match _fields self with
    | [] => ret []
    | _ :: _ =>
        idc <- meta_id_column (class_of self) ;;
        mmap (model_equals_expr self)
             (filter (fun n => negb (String.eqb n idc)) (map fst (_fields self)))
    end ;;;
    meta_table (class_of self) ;;;
    idc <- meta_id_column (class_of self) ;;
    model_equals_expr self idc ;;;
    raise format_error.

(** A keyword argument of [list]: one value, or a sequence of values *)
Inductive cond_arg : Type :=
| One (v : value)
| Many (vs : list value).

(** [[vseq]] unless [vseq] is a sequence other than a [str]; a [bytes]
    is a sequence of integers. *)
Definition as_sequence (c : cond_arg) : list value :=
  match c with
  | One (VBytes s) =>
      map (fun c => VInt (Z.of_nat (nat_of_ascii c))) (list_ascii_of_string s)
  | One v => [v]
  | Many vs => vs
  end.

(** the instance built from a fetched tuple: column [idx] of the
    tuple under the name [field_names[idx]] *)
Definition from_tuple (cls : string) (field_names : list string) (tuple : list value)
  : M Model :=
  init cls (combine field_names tuple).

(** [Model.list] with the keyword arguments [conds] *)
Definition list_ (cls : string) (conds : list (string * cond_arg)) : M (list Model) :=
  m <- meta_of cls ;;
  let field_names := map fst (base_fields m) in
  db_conds <- mmap (fun kv =>
                      match lookup (fst kv) (base_fields m) with
                      | None => raise (KeyError (fst kv))
                      | Some a =>
                          f <- deref a ;;
                          mmap (fun v => fr <- lift (get_equals_expr f (Some v)) ;;
                                         ret (fst kv, fr))
                               (as_sequence (snd kv))
                      end)
                   (filter (fun kv => str_in (fst kv) field_names) conds) ;;
  tbl <- meta_table cls ;;
  tuples <- execute (Select field_names tbl
                       (match db_conds with [] => WAll | _ => WAndOr db_conds end)) ;;
  mmap (from_tuple cls field_names) tuples.

(** [Model.get(id)] *)
Definition get (cls : string) (id : value) : M Model :=
  m <- meta_of cls ;;
  let field_names := map fst (base_fields m) in
  tbl <- meta_table cls ;;
  idc <- meta_id_column cls ;;
  ida <- meta_id_field cls ;;
  idf <- deref ida ;;
  fr <- lift (get_equals_expr idf (Some id)) ;;
  tuples <- execute (Select field_names tbl (WFrag idc fr)) ;;
  match tuples with
  | [] => raise (ValueError (DoesNotExist cls id))
  | tuple :: _ => from_tuple cls field_names tuple
  end.

End Engine.

(** The value [__init__] binds to a column: the keyword argument under
    its name, converted by [to_python], or [None]. *)
Definition bound (isoparse : string -> option string) (kwargs : list (string * value))
    (name : string) (k : kind) : result value :=
  match lookup name kwargs with
  | Some v => to_python isoparse k v
  | None => Ok VNone
  end.

(** Every descriptor of the instance is an object of the heap. *)
Definition owned (self : Model) (st : state) : Prop :=
  forall n a, In (n, a) (_fields self) -> a < List.length (heap st).

(** The class as it was declared: its columns, table and identity
    column stay, whichever instance [id_field] points at. *)
Definition same_class (cls : string) (m : ModelMeta) (st : state) : Prop :=
  exists idf, lookup cls (metas st)
              = Some (mkMeta (base_fields m) (table m) (id_column m) idf).

(** A computation that leaves the storage file as it was. *)
Definition keeps_store {A} (m : M A) : Prop :=
  forall st, store (snd (m st)) = store st.

End Db.

(* ================================================================== *)
(** ** The directory scan shared by both [list_orphans] *)

Module Os.
Import Py.

(** What [os.listdir(d)] does: the entries, [FileNotFoundError], or
    another exception (not a directory, permission denied). *)
Inductive listing : Type :=
| Entries (names : list string)
| FileNotFound
| Failed (e : exn).

(** A path as [os.path] takes it: [str] or [bytes]. *)
Inductive path : Type :=
| Text (s : string)
| Bytes (s : string).

Definition chars (p : path) : string :=
  match p with Text s => s | Bytes s => s end.

(** [p == q]: a [str] never equals a [bytes] *)
Definition path_eqb (p q : path) : bool :=
  match p, q with
  | Text a, Text b => String.eqb a b
  | Bytes a, Bytes b => String.eqb a b
  | _, _ => false
  end.

(** The argument [os.path.dirname] accepts. *)
Definition as_path (v : value) : result path :=
  match v with
  | VStr s => Ok (Text s)
  | VBytes s => Ok (Bytes s)
  | _ => Raise (TypeError "expected str, bytes or os.PathLike object")
  end.

(** [os.path.dirname], which answers in the type of its argument *)
Definition parent (p : path) : path :=
  match p with
  | Text s => Text (dirname s)
  | Bytes s => Bytes (dirname s)
  end.

(** [set(xs)], iterated in order of first occurrence.  (The order in
    which Python iterates a set is not fixed; it shows only in which of
    two failing listings raises first.) *)
Fixpoint distinct (xs : list string) : list string :=
  match xs with
  | [] => []
  | x :: rest => x :: filter (fun y => negb (String.eqb y x)) (distinct rest)
  end.

Fixpoint distinct_paths (xs : list path) : list path :=
  match xs with
  | [] => []
  | x :: rest => x :: filter (fun y => negb (path_eqb y x)) (distinct_paths rest)
  end.

(** The first loop of [list_orphans]: the dictionary [dirs], with one
    [os.listdir] call, in this order, for each of [dirnames].  Listing a
    [bytes] path gives the names as [bytes]. *)
Fixpoint list_dirs (listdir : string -> listing) (dirnames : list path)
  : result (list (path * list string)) :=
  match dirnames with
  | [] => Ok []
  | d :: rest =>
      match listdir (chars d) with
      | Entries names => bind (list_dirs listdir rest) (fun ds => Ok ((d, names) :: ds))
      | FileNotFound => bind (list_dirs listdir rest) (fun ds => Ok ((d, []) :: ds))
      | Failed e => Raise e
      end
  end.

(** [dirs[dirname]] *)
Definition listed (d : path) (dirs : list (path * list string)) : option (list string) :=
  match find (fun kv => path_eqb (fst kv) d) dirs with
  | Some kv => Some (snd kv)
  | None => None
  end.

(** [filename not in entries] for the entries of a [str] directory;
    [filename] is whatever the column holds, and only a string can
    equal such an entry. *)
Definition absent (filename : value) (entries : list string) : bool :=
  match filename with
  | VStr f => negb (str_in f entries)
  | _ => true
  end.

(** [filename not in dirs[dirname]]: the entries of a [bytes]
    directory are [bytes]. *)
Definition absent_in (d : path) (filename : value) (entries : list string) : bool :=
  match d with
  | Text _ => absent filename entries
  | Bytes _ =>
      match filename with
      | VBytes f => negb (str_in f entries)
      | _ => true
      end
  end.

(** The second loop: the rows whose file name is not in the listing of
    their directory.  [A] is the type of row objects. *)
Fixpoint keep_orphans {A} (location : A -> path) (filename : A -> value)
    (dirs : list (path * list string)) (locations : list A) : result (list A) :=
  match locations with
  | [] => Ok []
  | l :: rest =>
      match listed (parent (location l)) dirs with
      | None => Raise (KeyError (chars (parent (location l))))
      | Some entries =>
          bind (keep_orphans location filename dirs rest)
               (fun orphans =>
                  Ok (if absent_in (parent (location l)) (filename l) entries
                      then l :: orphans else orphans))
      end
  end.

(** Both loops, as [list_orphans] runs them on the fetched rows: the
    orphans, and the directories that were listed, in the order of the
    [os.listdir] calls. *)
Definition scan {A} (listdir : string -> listing)
    (location : A -> path) (filename : A -> value) (locations : list A)
  : result (list A * list path) :=
  bind (list_dirs listdir (distinct_paths (map (fun l => parent (location l)) locations)))
       (fun dirs =>
          bind (keep_orphans location filename dirs locations)
               (fun orphans => Ok (orphans, map fst dirs))).

(** The listing the scan works with. *)
Definition entries (l : listing) : list string :=
  match l with
  | Entries names => names
  | FileNotFound => []
  | Failed _ => []
  end.

Definition fails (l : listing) : bool :=
  match l with Failed _ => true | _ => false end.

End Os.

(* ================================================================== *)
(** ** [models.py]: the entity classes *)

Module Models.
Import Py Sql Db.

Definition Integer (nullable : bool) (default : value) := new_field IntegerField nullable default.
Definition Char (n : nat) (default : value) := new_field (CharField n) true default.
Definition Text (nullable : bool) (default : value) := new_field TextField nullable default.
Definition Float (default : value) := new_field FloatField true default.
Definition Binary := new_field BinaryField true VNone.
Definition Datetime := new_field DatetimeField true VNone.
Definition Boolean (default : value) := new_field BooleanField true default.
Definition ForeignKey (model : string) (nullable : bool) :=
  new_field (ForeignKeyField model) nullable VNone.

Definition TrackLocation_body : list (string * Field) :=
  [ ("id", Integer false VNone);
    ("location", Char 512 VNone);
    ("directory", Char 512 VNone);
    ("filename", Char 512 VNone);
    ("filesize", Integer true VNone);
    ("fs_deleted", Boolean VNone);
    ("needs_verification", Boolean VNone) ].

Definition Track_body : list (string * Field) :=
  [ ("id", Integer false VNone);
    ("artist", Char 64 VNone);
    ("title", Char 64 VNone);
    ("album", Char 64 VNone);
    ("year", Char 16 VNone);
    ("genre", Char 64 VNone);
    ("tracknumber", Char 3 VNone);
    ("location", ForeignKey "TrackLocation" true);
    ("comment", Char 256 VNone);
    ("url", Char 256 VNone);
    ("duration", Integer true VNone);
    ("bitrate", Integer true VNone);
    ("samplerate", Integer true VNone);
    ("cuepoint", Integer true VNone);
    ("bpm", Float VNone);
    ("wavesummaryhex", Binary);
    ("channels", Integer true VNone);
    ("datetime_added", Datetime);
    ("mixxx_deleted", Boolean VNone);
    ("played", Boolean VNone);
    ("header_parsed", Boolean (VBool false));
    ("filetype", Char 8 (VStr "?"));
    ("replaygain", Float (VFloat "0.0"));
    ("timesplayed", Integer true (VInt 0));
    ("rating", Integer true (VInt 0));
    ("key", Char 8 (VStr ""));
    ("beats", Binary);
    ("beats_version", Text true VNone);
    ("composer", Char 64 (VStr ""));
    ("bpm_lock", Boolean (VBool false));
    ("beats_sub_version", Text true (VStr ""));
    ("keys", Binary);
    ("keys_version", Text true VNone);
    ("keys_sub_version", Text true VNone);
    ("key_id", Integer true (VInt 0));
    ("grouping", Text true (VStr ""));
    ("album_artist", Text true (VStr ""));
    ("coverart_source", Integer true (VInt 0));
    ("coverart_type", Integer true (VInt 0));
    ("coverart_location", Text true (VStr ""));
    ("coverart_hash", Integer true (VInt 0));
    ("replaygain_peak", Float (VFloat "-1.0"));
    ("tracktotal", Text true (VStr "//"));
    ("color", Integer true VNone) ].

Definition TrackAnalysis_body : list (string * Field) :=
  [ ("id", Integer false VNone);
    ("track_id", ForeignKey "TrackLocation" false);
    ("type", Char 512 VNone);
    ("description", Char 1024 VNone);
    ("version", Char 512 VNone);
    ("created", Datetime);
    ("data_checksum", Char 512 VNone) ].

Definition Cue_body : list (string * Field) :=
  [ ("id", Integer false VNone);
    ("track_id", ForeignKey "Track" false);
    ("type", Integer false (VInt 0));
    ("position", Integer false (VInt (-1)));
    ("length", Integer false (VInt 0));
    ("hotcue", Integer false (VInt (-1)));
    ("label", Text false (VStr ""));
    ("color", Integer false (VInt 4294901760)) ].

Definition CrateTrack_body : list (string * Field) :=
  [ ("crate_id", Integer false VNone);
    ("track_id", ForeignKey "Track" false) ].

Definition PlaylistTrack_body : list (string * Field) :=
  [ ("id", Integer false VNone);
    ("playlist_id", Integer true VNone);
    ("track_id", ForeignKey "Track" true);
    ("position", Integer true VNone);
    ("pl_datetime_added", Datetime) ].

(** Importing the module runs the six class statements. *)
Definition import_models : M unit :=
  declare "TrackLocation" (Some "track_locations") (Some "id") TrackLocation_body ;;;
  declare "Track" (Some "library") (Some "id") Track_body ;;;
  declare "TrackAnalysis" (Some "track_analysis") (Some "id") TrackAnalysis_body ;;;
  declare "Cue" (Some "cues") (Some "id") Cue_body ;;;
  declare "CrateTrack" (Some "crate_tracks") None CrateTrack_body ;;;
  declare "PlaylistTrack" (Some "PlaylistTracks") (Some "id") PlaylistTrack_body.

Section Cascades.

Variable isoparse : string -> option string.

(** [[obj.id for obj in objs]] *)
Definition ids_of (objs : list Model) : M (list value) :=
  mmap (fun obj => getattr obj "id") objs.

(** [Track.bulk_delete] *)
Definition Track_bulk_delete (objs : list Model) : M unit :=
  ids <- ids_of objs ;;
  bulk_delete "Track" objs ;;;
  cues <- list_ isoparse "Cue" [("track_id", Many ids)] ;;
  bulk_delete "Cue" cues ;;;
  (* TODO: How to handle model with composite key?
     CrateTrack.bulk_delete(CrateTrack.list(track_id=ids)) *)
  playlist_tracks <- list_ isoparse "PlaylistTrack" [("track_id", Many ids)] ;;
  bulk_delete "PlaylistTrack" playlist_tracks.

(** [TrackLocation.bulk_delete] *)
Definition TrackLocation_bulk_delete (objs : list Model) : M unit :=
  ids <- ids_of objs ;;
  bulk_delete "TrackLocation" objs ;;;
  analyses <- list_ isoparse "TrackAnalysis" [("track_id", Many ids)] ;;
  bulk_delete "TrackAnalysis" analyses ;;;
  tracks <- list_ isoparse "Track" [("location", Many ids)] ;;
  Track_bulk_delete tracks.

(** [TrackLocation.delete] *)
Definition TrackLocation_delete (self : Model) : M unit :=
  delete self ;;;
  id <- getattr self "id" ;;
  tracks <- list_ isoparse "Track" [("location", One id)] ;;
  Track_bulk_delete tracks.

(** The other classes inherit [bulk_delete] and [delete]. *)
Definition bulk_delete_of (cls : string) (objs : list Model) : M unit :=
  if String.eqb cls "TrackLocation" then TrackLocation_bulk_delete objs
  else if String.eqb cls "Track" then Track_bulk_delete objs
  else bulk_delete cls objs.

Definition delete_of (self : Model) : M unit :=
  if String.eqb (class_of self) "TrackLocation" then TrackLocation_delete self
  else delete self.

(** [TrackLocation.list_orphans] *)
Definition TrackLocation_list_orphans (listdir : string -> Os.listing)
  : M (list Model) :=
  fetched <- list_ isoparse "TrackLocation" [] ;;
  seen <- mmap (fun l => loc <- getattr l "location" ;;
                         name <- getattr l "filename" ;;
                         ret (l, loc, name)) fetched ;;
  locations <- mmap (fun t => path <- lift (Os.as_path (snd (fst t))) ;;
                              ret (fst (fst t), path, snd t))
                    (filter (fun t => negb (is_none (snd (fst t)))) seen) ;;
  found <- lift (Os.scan listdir (fun t => snd (fst t)) (fun t => snd t) locations) ;;
  ret (map (fun t => fst (fst t)) (fst found)).

End Cascades.

(** *** Running a program against a storage file *)

(** The state once the package is imported. *)
Definition start (db : catalog) : state := snd (import_models (mkState [] [] db)).

(** The tables of the Mixxx storage file, without rows. *)
Definition affinity_for (f : Field) : affinity :=
  match f_kind f with
  | TextField | CharField _ => AText
  | IntegerField | BooleanField | ForeignKeyField _ => AInteger
  | FloatField => AReal
  | BinaryField => ABlob
  | DatetimeField => ANumeric
  end.

Definition table_for (body : list (string * Field)) (rows : list row) : Sql.table :=
  mkTable (map (fun nf => (fst nf, affinity_for (snd nf))) body) rows.

End Models.

(* ================================================================== *)
(** ** [schemas.py]: the attribute-based engine *)

Module Schemas.
Import Py Sql.

(** A schema class: [columns], [id_column], [table]. *)
Record schema : Type := mkSchema {
  name : string;
  columns : list string;
  id_column : option string;
  table : string
}.

Definition TrackLocation : schema :=
  mkSchema "TrackLocation"
    ["id"; "location"; "filename"; "directory"; "filesize"; "fs_deleted";
     "needs_verification"]
    (Some "id") "track_locations".

Definition PlaylistTrack : schema :=
  mkSchema "PlaylistTrack"
    ["id"; "playlist_id"; "track_id"; "position"; "pl_datetime_added"]
    (Some "id") "PlaylistTracks".

Definition CrateTrack : schema :=
  mkSchema "CrateTrack" ["crate_id"; "track_id"] None "crate_tracks".

Definition Cue : schema :=
  mkSchema "Cue"
    ["id"; "track_id"; "type"; "position"; "length"; "hotcue"; "label"; "color"]
    (Some "id") "cues".

Definition TrackAnalysis : schema :=
  mkSchema "TrackAnalysis"
    ["id"; "track_id"; "type"; "description"; "version"; "created"; "data_checksum"]
    (Some "id") "track_analysis".

Definition Track : schema :=
  mkSchema "Track"
    ["id"; "artist"; "title"; "album"; "year"; "genre"; "tracknumber"; "location";
     "comment"; "url"; "duration"; "bitrate"; "samplerate"; "cuepoint"; "bpm";
     "wavesummaryhex"; "channels"; "datetime_added"; "mixxx_deleted"; "played";
     "header_parsed"; "filetype"; "replaygain"; "timesplayed"; "rating"; "key";
     "beats"; "beats_version"; "composer"; "bpm_lock"; "beats_sub_version"; "keys";
     "keys_version"; "keys_sub_version"; "key_id"; "grouping"; "album_artist";
     "coverart_source"; "coverart_type"; "coverart_location"; "coverart_hash";
     "replaygain_peak"; "tracktotal"; "color"]
    (Some "id") "library".

(** A row object: its class and the attributes [__init__] has set. *)
Record obj : Type := mkObj {
  cls : schema;
  attrs : list (string * value)
}.

(** [BaseSchema.__init__] with keyword arguments [values] *)
Definition init (c : schema) (values : list (string * value)) : obj :=
  mkObj c values.

(** [getattr(self, column)] for a column name: the classes only
    annotate their columns, so a column that [__init__] was not given
    is not found.  (The other names a class defines, [table], [columns],
    [id_column] and the methods, are not asked for through this.) *)
Definition getattr (self : obj) (column : string) : result value :=
  match lookup column (attrs self) with
  | Some v => Ok v
  | None => Raise (AttributeError (name (cls self)) column)
  end.

(** [setattr(self, column, v)] *)
Definition setattr (self : obj) (column : string) (v : value) : obj :=
  mkObj (cls self)
        (match lookup column (attrs self) with
         | Some _ => replace column v (attrs self)
         | None => attrs self ++ [(column, v)]
         end).

(** Computations over the storage file. *)
Definition DB (A : Type) : Type := ST catalog A.

(** [with db_connection(db_filename) as conn: conn.execute(sql)];
    nothing is committed before the connection is closed. *)
Definition execute (s : stmt) : DB (list (list value)) :=
  fun db => (exec s db, db).

(** The body of a string literal as SQLite reads it: [''] is one quote.
    A single quote ends the literal too early, and what follows it is
    read as SQL; the model does not follow that reading and has no
    literal for such a body, nor for one with a NUL character. *)
Fixpoint sql_unquote (s : string) : option string :=
  match s with
  | EmptyString => Some EmptyString
  | String c rest =>
      if Ascii.eqb c "'"%char then
        match rest with
        | String c' rest' =>
            if Ascii.eqb c' "'"%char then
              match sql_unquote rest' with
              | Some t => Some (String c t)
              | None => None
              end
            else None
        | EmptyString => None
        end
      else if Ascii.eqb c Ascii.zero then None
      else
        match sql_unquote rest with
        | Some t => Some (String c t)
        | None => None
        end
  end.

(** The literal that ["'%s'" % (v,)] leaves in a statement *)
Definition quoted (v : value) : lit :=
  match sql_unquote (Db.py_str v) with
  | Some t => LText t
  | None => LBare ("'" ++ Db.py_str v ++ "'")
  end.

(** [try: cur = ... finally: cur.close()]: when the body raises before
    [cur] is bound, closing the cursor raises in its turn, and that is
    the exception the caller sees. *)
Definition before_cursor {A} (m : DB A) : DB A :=
  fun db => match m db with
            | (Raise _, db') => (Raise (UnboundLocalError "cur"), db')
            | out => out
            end.

(** [db_fetchall]: one dictionary for each fetched tuple *)
Definition db_fetchall (tbl : string) (cols : list string)
  : DB (list (list (string * value))) :=
  tuples <- before_cursor (execute (Select cols tbl WAll)) ;;
  ret (map (combine cols) tuples).

(** [BaseSchema.update] *)
Definition update (self : obj) : DB unit :=
  match id_column (cls self) with
  | None => raise (ValueError (IdColumnIsNone "update"))
  | Some idc =>
      updates <- mmap (fun column => v <- lift (getattr self column) ;;
                                     ret (column, FEq (quoted v)))
                      (filter (fun column => negb (String.eqb column idc))
                              (columns (cls self))) ;;
      id <- lift (getattr self idc) ;;
      execute (Update (table (cls self)) updates (WFrag idc (FEq (quoted id)))) ;;;
      ret tt
  end.

(** [BaseSchema.delete] *)
Definition delete (self : obj) : DB unit :=
  match id_column (cls self) with
  | None => raise (ValueError (IdColumnIsNone "delete"))
  | Some idc =>
      id <- lift (getattr self idc) ;;
      execute (Delete (table (cls self)) (WFrag idc (FEq (quoted id)))) ;;;
      ret tt
  end.

(** [BaseSchema.list] *)
Definition list_ (c : schema) : DB (list obj) :=
  lst <- db_fetchall (table c) (columns c) ;;
  ret (map (init c) lst).

(** [BaseSchema.bulk_delete] *)
Definition bulk_delete (c : schema) (objs : list obj) : DB unit :=
  match id_column c with
  | None => raise (ValueError (IdColumnIsNone "delete"))
  | Some idc =>
      ids <- mmap (fun o => lift (getattr o idc)) objs ;;
      execute (Delete (table c) (WIn idc (map Db.pasted ids))) ;;;
      ret tt
  end.

(** [HasTrackForeignKey.delete_by_track_id] *)
Definition delete_by_track_id (c : schema) (track_ids : list value) : DB unit :=
  execute (Delete (table c) (WIn "track_id" (map Db.pasted track_ids))) ;;;
  ret tt.

(** [Track.list_by_locations].  The cursor yields tuples, and a tuple
    cannot follow the double star of the call that builds the row
    object: the comprehension raises at the first fetched tuple. *)
Definition list_by_locations (locations : list obj) : DB (list obj) :=
  lst <- before_cursor
           (ids <- mmap (fun l => lift (getattr l "id")) locations ;;
            execute (Select (columns Track) (table Track)
                       (WIn "location" (map Db.pasted ids)))) ;;
  match lst with
  | [] => ret []
  | _ :: _ => raise (TypeError "argument after ** must be a mapping, not tuple")
  end.

(** [Track.bulk_delete] *)
Definition Track_bulk_delete (objs : list obj) : DB unit :=
  track_ids <- mmap (fun o => lift (getattr o "id")) objs ;;
  delete_by_track_id PlaylistTrack track_ids ;;;
  delete_by_track_id CrateTrack track_ids ;;;
  delete_by_track_id Cue track_ids ;;;
  delete_by_track_id TrackAnalysis track_ids ;;;
  bulk_delete Track objs.

(** [TrackLocation.bulk_delete] *)
Definition TrackLocation_bulk_delete (objs : list obj) : DB unit :=
  tracks <- list_by_locations objs ;;
  Track_bulk_delete tracks ;;;
  bulk_delete TrackLocation objs.

(** [bulk_delete] as the class [c] resolves it *)
Definition bulk_delete_of (c : schema) (objs : list obj) : DB unit :=
  if String.eqb (name c) "TrackLocation" then TrackLocation_bulk_delete objs
  else if String.eqb (name c) "Track" then Track_bulk_delete objs
  else bulk_delete c objs.

Definition filename_of (l : obj) : value :=
  match lookup "filename" (attrs l) with Some v => v | None => VNone end.

(** The body of [TrackLocation.list_orphans]: the orphans, and the
    directories it has listed. *)
Definition scan_orphans (listdir : string -> Os.listing)
  : DB (list obj * list Os.path) :=
  locations <- list_ TrackLocation ;;
  located <- mmap (fun l => v <- lift (getattr l "location") ;;
                            path <- lift (Os.as_path v) ;;
                            ret (l, path)) locations ;;
  found <- lift (Os.scan listdir snd (fun lp => filename_of (fst lp)) located) ;;
  ret (map fst (fst found), snd found).

(** [TrackLocation.list_orphans] *)
Definition list_orphans (listdir : string -> Os.listing) : DB (list obj) :=
  found <- scan_orphans listdir ;;
  ret (fst found).

(** A storage file that has the table of a class, with its columns;
    a Mixxx storage file has the tables of all six. *)
Definition has_table (db : catalog) (c : schema) : bool :=
  match lookup (table c) db with
  | Some t => forallb (has_column t) (columns c)
  | None => false
  end.

Definition entity_types : list schema :=
  [TrackLocation; Track; Cue; CrateTrack; PlaylistTrack; TrackAnalysis].

Definition mixxx_file (db : catalog) : bool := forallb (has_table db) entity_types.

(** The classes of [models.py] that have an identity column, with the
    class of the same table here. *)
Definition keyed_models : list (string * schema) :=
  [ ("TrackLocation", TrackLocation); ("Track", Track);
    ("TrackAnalysis", TrackAnalysis); ("Cue", Cue);
    ("PlaylistTrack", PlaylistTrack) ].

(** The classes of [models.py] that have an identity column and
    inherit [bulk_delete] from [Model] as it is. *)
Definition inheriting_models : list (string * schema) :=
  [ ("TrackAnalysis", TrackAnalysis); ("Cue", Cue);
    ("PlaylistTrack", PlaylistTrack) ].

(** The object [list] builds for a stored row, and the rows the
    catalog-side scan is meant to report: those whose recorded file name
    is not listed in the parent directory of their recorded path. *)
Definition fetched (c : schema) (r : row) : obj :=
  init c (combine (columns c) (map (cell r) (columns c))).

Definition orphaned (listdir : string -> Os.listing) (r : row) : bool :=
  match cell r "location" with
  | VStr p => Os.absent (cell r "filename") (Os.entries (listdir (dirname p)))
  | _ => false
  end.

Definition path_at (r : row) : string :=
  match cell r "location" with VStr p => p | _ => "" end.

(** The directory names the scan lists, in the order it lists them. *)
Definition scanned_dirs (rows : list row) : list string :=
  Os.distinct
    (flat_map (fun r => match cell r "location" with
                        | VStr p => [dirname p]
                        | _ => []
                        end) rows).

End Schemas.

(* ================================================================== *)
(** ** [mixxxdb.py]: moving files *)

Module Mixxxdb.
Import Py Sql.

(** What a path names. *)
Inductive node : Type := File | Dir.

(** What the tool writes: a line on standard output or standard error. *)
Inductive line : Type :=
| RenameError (src dst : string)           (* "Error when renaming ..." *)
| UpdateError (src : string)               (* "Error when updating DB ..." *)
| MovedUpdated (src dst : string)          (* "... moved to ...; DB updated." *)
| MovedUntracked (src dst : string)        (* "...; no DB entry found." *)
| Orphan (path : string).                  (* a reported path *)

(** The world the tool acts on: the file tree (by resolved path), the
    storage file, and the lines written so far.  A symbolic link is
    not a node of the tree: it shows only in what [resolve] answers. *)
Record world : Type := mkWorld {
  nodes : list (string * node);
  db : catalog;
  written : list line
}.

Section Filesystem.

(** [Path.resolve]: the absolute path with links followed. *)
Variable resolve : string -> string.

(** Directories in which the process may not create or remove entries. *)
Variable read_only : string -> bool.

Definition node_at (fs : list (string * node)) (p : string) : option node :=
  lookup (resolve p) fs.

(** [Path.is_file], [Path.is_dir] *)
Definition is_file (fs : list (string * node)) (p : string) : bool :=
  match node_at fs p with Some File => true | _ => false end.

Definition is_dir (fs : list (string * node)) (p : string) : bool :=
  match node_at fs p with Some Dir => true | _ => false end.

Definition unlink (p : string) (fs : list (string * node)) : list (string * node) :=
  filter (fun kv => negb (String.eqb (fst kv) p)) fs.

(** [Path.rename] of a source that is not itself a symbolic link: the
    source must exist, the target must not be a directory, and both
    parent directories must be writable; a file at the target is
    replaced.  (Renaming a link moves the link and not the node it
    points to; the tree has no node for that.) *)
Definition rename (src dst : string) (fs : list (string * node))
  : result (list (string * node)) :=
  match node_at fs src with
  | None => Raise (OSError "No such file or directory")
  | Some n =>
      if is_dir fs dst then Raise (OSError "Is a directory")
      else if read_only (dirname (resolve src)) || read_only (dirname (resolve dst))
      then Raise (OSError "Permission denied")
      else if String.eqb (resolve src) (resolve dst) then Ok fs
      else Ok ((resolve dst, n) :: unlink (resolve dst) (unlink (resolve src) fs))
  end.

(** The parts [pathlib] keeps of the text of a path: what stands
    between slashes, but for empty parts and single dots. *)
Fixpoint pieces (s : string) (piece : string) : list string :=
  match s with
  | EmptyString => [piece]
  | String c rest =>
      if Ascii.eqb c slash then piece :: pieces rest EmptyString
      else pieces rest (piece ++ String c EmptyString)
  end.

Definition parts (p : string) : list string :=
  filter (fun piece => negb (String.eqb piece "" || String.eqb piece "."))
         (pieces p EmptyString).

(** The root: one slash, or two when the text starts with exactly two *)
Definition root (p : string) : string :=
  match p with
  | String a (String b (String c _)) =>
      if Ascii.eqb a slash
      then if Ascii.eqb b slash && negb (Ascii.eqb c slash) then "//" else "/"
      else ""
  | String a (String b EmptyString) =>
      if Ascii.eqb a slash then if Ascii.eqb b slash then "//" else "/" else ""
  | String a EmptyString => if Ascii.eqb a slash then "/" else ""
  | EmptyString => ""
  end.

(** [str(Path(p))] *)
Definition path_text (p : string) : string :=
  match root p ++ String.concat "/" (parts p) with
  | EmptyString => "."
  | text => text
  end.

(** [Path.name] and [Path.joinpath] *)
Definition path_name (p : string) : string := last (parts p) "".

Definition joinpath (d n : string) : string :=
  if all_slashes d then d ++ n else d ++ "/" ++ n.

(** [l.location == str(srcpath.resolve())]; a row fetched by [list]
    carries every column *)
Definition located_at (l : Schemas.obj) (p : string) : bool :=
  match Schemas.getattr l "location" with
  | Ok v => Py.eqb v (VStr p)
  | Raise _ => false
  end.

(** [location.location = str(destpath)] and
    [location.directory = str(destpath.parent)] *)
Definition retarget (l : Schemas.obj) (dest : string) : Schemas.obj :=
  Schemas.setattr (Schemas.setattr l "location" (VStr dest))
                  "directory" (VStr (dirname dest)).

(** The inner function [update_db], on the rows fetched when
    [move_files] was entered.  The row objects are changed in place
    before their statement is sent, and stay changed when it fails. *)
Fixpoint update_db (src dest : string) (locations : list Schemas.obj)
    (db : catalog) (db_updated : bool)
  : result bool * list Schemas.obj * catalog :=
  match locations with
  | [] => (Ok db_updated, [], db)
  | l :: rest =>
      if located_at l src then
        let l' := retarget l dest in
        match Schemas.update l' db with
        | (Ok _, db') =>
            let '(r, rest', db'') := update_db src dest rest db' true in
            (r, l' :: rest', db'')
        | (Raise e, db') => (Raise e, l' :: rest, db')
        end
      else
        let '(r, rest', db'') := update_db src dest rest db db_updated in
        (r, l :: rest', db'')
  end.

Definition say (l : line) (w : world) : world :=
  mkWorld (nodes w) (db w) (written w ++ [l]).

(** One turn of the loop over [sources].  [update_db] resolves the
    source path once the file has been renamed away; for a source that
    is not a symbolic link that is the path it resolved to before. *)
Definition move_one (destdir : string) (source : string)
    (locations : list Schemas.obj) (w : world)
  : result unit * list Schemas.obj * world :=
  if is_file (nodes w) source then
    let destpath := joinpath destdir (path_name source) in
    match rename source destpath (nodes w) with
    | Raise e => (Ok tt, locations, say (RenameError (path_text source) destpath) w)
    | Ok fs' =>
        match update_db (resolve source) destpath locations (db w) false with
        | (Raise e, locations', db') =>
            let w' := say (UpdateError (path_text source)) (mkWorld fs' db' (written w)) in
            match rename destpath source fs' with
            | Ok fs'' => (Ok tt, locations', mkWorld fs'' (db w') (written w'))
            | Raise e' => (Raise e', locations', w')
            end
        | (Ok db_updated, locations', db') =>
            (Ok tt, locations',
             say (if db_updated then MovedUpdated (path_text source) destpath
                  else MovedUntracked (path_text source) destpath)
                 (mkWorld fs' db' (written w)))
        end
    end
  else (Ok tt, locations, w).

Fixpoint move_each (destdir : string) (sources : list string)
    (locations : list Schemas.obj) (w : world) : result unit * world :=
  match sources with
  | [] => (Ok tt, w)
  | source :: rest =>
      match move_one destdir source locations w with
      | (Ok _, locations', w') => move_each destdir rest locations' w'
      | (Raise e, _, w') => (Raise e, w')
      end
  end.

(** [move_files] *)
Definition move_files (sources : list string) (destination : string) (w : world)
  : result unit * world :=
  match Schemas.list_ Schemas.TrackLocation (db w) with
  | (Raise e, _) => (Raise e, w)
  | (Ok locations, _) =>
      let destdir := resolve destination in
      if negb (is_dir (nodes w) destdir)
      then (Raise (ValueError DestinationNotDirectory), w)
      else move_each destdir sources locations w
  end.

(** *** The orphan scans *)

(** [Path(source).glob(pattern)], in the order the walk yields *)
Variable glob : string -> string -> list string.

(** [mimetypes.guess_type(path)[0]] *)
Variable guess_type : string -> option string.

Definition looks_like_audio (path : string) : bool :=
  match guess_type path with
  | Some mimetype => negb (String.eqb mimetype "") && startswith "audio/" mimetype
  | None => false
  end.

(** [list_orphan_files] *)
Definition list_orphan_files (source : string) (recursive : bool) (w : world)
  : result unit * world :=
  let paths := if recursive then glob source "**/*" else glob source "*" in
  match Schemas.list_ Schemas.TrackLocation (db w) with
  | (Raise e, _) => (Raise e, w)
  | (Ok ls, _) =>
      let locations := map (fun l => match Schemas.getattr l "location" with
                                     | Ok v => v
                                     | Raise _ => VNone
                                     end) ls in
      (Ok tt,
       fold_left
         (fun w' path =>
            if is_file (nodes w') path then
              if looks_like_audio path then
                if negb (val_in (VStr (resolve path)) locations)
                then say (Orphan path) w'
                else w'
              else w'
            else w')
         paths w)
  end.

(** [location.location + "\n"] *)
Definition concat_error (v : value) : exn :=
  match v with
  | VBytes _ => TypeError "can't concat str to bytes"
  | _ => TypeError "unsupported operand type(s) for +"
  end.

(** The loop of [list_orphan_locations] *)
Fixpoint print_locations (orphans : list Schemas.obj) (w : world)
  : result unit * world :=
  match orphans with
  | [] => (Ok tt, w)
  | location :: rest =>
      match Schemas.getattr location "location" with
      | Ok (VStr p) => print_locations rest (say (Orphan p) w)
      | Ok v => (Raise (concat_error v), w)
      | Raise e => (Raise e, w)
      end
  end.

(** [list_orphan_locations] *)
Definition list_orphan_locations (listdir : string -> Os.listing) (w : world)
  : result unit * world :=
  match Schemas.list_orphans listdir (db w) with
  | (Raise e, _) => (Raise e, w)
  | (Ok orphans, _) => print_locations orphans w
  end.

(** *** What the filesystem-side scan reports *)

(** The recorded locations, as stored. *)
Definition recorded (db : catalog) : list value :=
  map (fun r => cell r "location") (rows_of db "track_locations").

Definition pattern (recursive : bool) : string :=
  if recursive then "**/*" else "*".

(** The paths the code reports: audio files whose resolved path is not
    literally one of the recorded locations. *)
Definition unrecorded_audio (source : string) (recursive : bool) (w : world)
  : list string :=
  filter (fun path => is_file (nodes w) path
                      && looks_like_audio path
                      && negb (val_in (VStr (resolve path)) (recorded (db w))))
         (glob source (pattern recursive)).

(** The specification's wording: the recorded locations
    are resolved as well before the comparison. *)
Definition spec_unrecorded_audio (source : string) (recursive : bool) (w : world)
  : list string :=
  filter (fun path => is_file (nodes w) path
                      && looks_like_audio path
                      && negb (existsb (fun v => match v with
                                                 | VStr q => String.eqb (resolve q) (resolve path)
                                                 | _ => false
                                                 end) (recorded (db w))))
         (glob source (pattern recursive)).

End Filesystem.

End Mixxxdb.

(* ================================================================== *)
(** ** Example catalogs and programs *)

Module Examples.
Import Py Sql Db.

Definition isoparse (s : string) : option string := Some s.

Definition location_row (id : Z) (location directory filename : string) : row :=
  [ ("id", VInt id); ("location", VStr location); ("directory", VStr directory);
    ("filename", VStr filename); ("filesize", VInt 4096); ("fs_deleted", VInt 0);
    ("needs_verification", VInt 0) ].

(** A library row: everything null but the key, the location and the
    date it was added. *)
Definition track_row (id location : Z) : row :=
  map (fun nf =>
         (fst nf,
          if String.eqb (fst nf) "id" then VInt id
          else if String.eqb (fst nf) "location" then VInt location
          else if String.eqb (fst nf) "datetime_added" then VStr "2020-01-01T00:00:00"
          else VNone))
      Models.Track_body.

Definition cue_row (id track_id : Z) : row :=
  [ ("id", VInt id); ("track_id", VInt track_id); ("type", VInt 0);
    ("position", VInt 0); ("length", VInt 0); ("hotcue", VInt 0);
    ("label", VStr ""); ("color", VInt 0) ].

Definition crate_row (crate_id track_id : Z) : row :=
  [ ("crate_id", VInt crate_id); ("track_id", VInt track_id) ].

Definition analysis_row (id track_id : Z) : row :=
  [ ("id", VInt id); ("track_id", VInt track_id); ("type", VStr "beats");
    ("description", VStr ""); ("version", VStr "1");
    ("created", VStr "2020-01-01T00:00:00"); ("data_checksum", VStr "") ].

Definition mixxx (locations tracks analyses cues crates playlists : list row) : catalog :=
  [ ("track_locations", Models.table_for Models.TrackLocation_body locations);
    ("library", Models.table_for Models.Track_body tracks);
    ("track_analysis", Models.table_for Models.TrackAnalysis_body analyses);
    ("cues", Models.table_for Models.Cue_body cues);
    ("crate_tracks", Models.table_for Models.CrateTrack_body crates);
    ("PlaylistTracks", Models.table_for Models.PlaylistTrack_body playlists) ].

(** One file, one track on it, a cue, a crate membership and an
    analysis of that track. *)
Definition small : catalog :=
  mixxx [location_row 1 "/music/a.mp3" "/music" "a.mp3"]
        [track_row 10 1]
        [analysis_row 3 10]
        [cue_row 7 10]
        [crate_row 5 10]
        [].

(** The rows of the dependent tables that still point at one of the
    tracks [track_ids], and the library rows that still point at one of
    the locations [location_ids]. *)
Definition refers (col : string) (ids : list Z) (r : row) : bool :=
  match cell r col with
  | VInt z => existsb (Z.eqb z) ids
  | _ => false
  end.

Definition ids_in (rows : list row) : list Z :=
  flat_map (fun r => match cell r "id" with VInt z => [z] | _ => [] end) rows.

Definition left_behind (before after : catalog) (location_ids : list Z)
  : list (string * row) :=
  let track_ids :=
    ids_in (filter (refers "location" location_ids) (rows_of before "library")) in
  map (pair "library") (filter (refers "location" location_ids) (rows_of after "library"))
  ++ flat_map (fun tbl => map (pair tbl)
                            (filter (refers "track_id" track_ids) (rows_of after tbl)))
       ["cues"; "crate_tracks"; "PlaylistTracks"; "track_analysis"].

(** *** Programs over [models.py] *)

(** Two instances of one class; the identity of the first is asked
    before and after the second is built. *)
Definition two_instances (second : list (string * value))
  : M (value * value * value) :=
  a <- init isoparse "TrackLocation" [("id", VInt 1)] ;;
  before <- get_id a ;;
  _ <- init isoparse "TrackLocation" second ;;
  after <- get_id a ;;
  own <- getattr a "id" ;;
  ret (before, after, own).

(** A row is fetched, one of its columns is changed and the row is
    written back; [between] runs after the fetch. *)
Definition rename_and_update (between : M unit) : M unit :=
  a <- get isoparse "TrackLocation" (VInt 1) ;;
  setattr a "filename" (VStr "b.mp3") ;;;
  between ;;;
  update a.

Definition fetch_and_delete (between : M unit) : M unit :=
  a <- get isoparse "TrackLocation" (VInt 1) ;;
  between ;;;
  delete a.

Definition build_blank : M unit :=
  init isoparse "TrackLocation" [] ;;; ret tt.

(** An instance without identity is updated after another instance,
    which has one, was built. *)
Definition update_without_id : M unit :=
  a <- init isoparse "TrackLocation" [("location", VStr "/music/a.mp3")] ;;
  _ <- init isoparse "TrackLocation" [("id", VInt 1)] ;;
  update a.

(** Every location of the catalog is deleted in bulk. *)
Definition purge_locations : M unit :=
  locations <- list_ isoparse "TrackLocation" [] ;;
  Models.TrackLocation_bulk_delete isoparse locations.

(** Track 10 is deleted on its own. *)
Definition delete_track : M unit :=
  t <- get isoparse "Track" (VInt 10) ;;
  Models.delete_of isoparse t.

(** Location 1 is deleted on its own. *)
Definition delete_location : M unit :=
  l <- get isoparse "TrackLocation" (VInt 1) ;;
  Models.delete_of isoparse l.

Definition run {A} (prog : M A) (db : catalog) : result A * catalog :=
  let out := prog (Models.start db) in (fst out, store (snd out)).

(** *** A file tree *)

Definition nowhere (d : string) : Os.listing := Os.FileNotFound.

(** A music directory with one audio file and one text file, and a
    second name, [/link], for the same directory. *)
Definition tree : list (string * Mixxxdb.node) :=
  [ ("/music", Mixxxdb.Dir); ("/music/a.mp3", Mixxxdb.File);
    ("/music/b.txt", Mixxxdb.File); ("/dest", Mixxxdb.Dir) ].

Definition plain (p : string) : string := p.

Definition through_link (p : string) : string :=
  if startswith "/link/" p
  then "/music/" ++ substring 6 (String.length p - 6) p
  else p.

Definition unlocked (d : string) : bool := false.

Definition walk (source pat : string) : list string :=
  if String.eqb source "/music" then ["/music/a.mp3"; "/music/b.txt"] else [].

Definition by_suffix (path : string) : option string :=
  if String.eqb (substring (String.length path - 4) 4 path) ".mp3"
  then Some "audio/mpeg"
  else if String.eqb (substring (String.length path - 4) 4 path) ".txt"
  then Some "text/plain"
  else None.

(** The catalog records the file under the other name of its directory. *)
Definition linked : catalog :=
  mixxx [location_row 1 "/link/a.mp3" "/link" "a.mp3"] [track_row 10 1] [] [] [] [].

(** A catalog with a present file, an absent file and a file in a
    directory that is gone. *)
Definition shelf : catalog :=
  mixxx [ location_row 1 "/music/a.mp3" "/music" "a.mp3";
          location_row 2 "/music/c.mp3" "/music" "c.mp3";
          location_row 3 "/gone/d.mp3" "/gone" "d.mp3" ]
        [] [] [] [] [].

Definition music_only (d : string) : Os.listing :=
  if String.eqb d "/music" then Os.Entries ["a.mp3"; "b.txt"] else Os.FileNotFound.

(** The tree once [/music/a.mp3] was moved to [/dest]. *)
Definition moved : list (string * Mixxxdb.node) :=
  [ ("/dest/a.mp3", Mixxxdb.File); ("/music", Mixxxdb.Dir);
    ("/music/b.txt", Mixxxdb.File); ("/dest", Mixxxdb.Dir) ].

(** The shelf with one more row, which records no path. *)
Definition null_row (id : Z) : row :=
  [ ("id", VInt id); ("location", VNone); ("directory", VNone);
    ("filename", VNone); ("filesize", VNone); ("fs_deleted", VInt 0);
    ("needs_verification", VInt 0) ].

Definition shelf_with_null : catalog :=
  mixxx [ location_row 1 "/music/a.mp3" "/music" "a.mp3";
          null_row 4;
          location_row 2 "/music/c.mp3" "/music" "c.mp3";
          location_row 3 "/gone/d.mp3" "/gone" "d.mp3" ]
        [] [] [] [] [].

(** The catalog-side scan of [models.py], and the paths of what it
    returns. *)
Definition models_orphans : M (list value) :=
  orphans <- Models.TrackLocation_list_orphans isoparse music_only ;;
  mmap (fun l => getattr l "location") orphans.

(** The track of the small catalog, as [schemas.py] fetches it. *)
Definition track_10 : Schemas.obj := Schemas.fetched Schemas.Track (track_row 10 1).

Definition location_1 : Schemas.obj :=
  Schemas.fetched Schemas.TrackLocation (location_row 1 "/music/a.mp3" "/music" "a.mp3").


(** The column holds an integer or nothing. *)
Definition plain_key (col : string) (r : row) : bool :=
  match cell r col with
  | VInt _ | VNone => true
  | _ => false
  end.

(** The meta object of a class in a state. *)
Definition meta_in (st : state) (cls : string) : ModelMeta :=
  match lookup cls (metas st) with
  | Some m => m
  | None => mkMeta [] None None None
  end.

(** A first instance of [TrackLocation], and the state it lives in. *)
Definition first_built : result Model * state :=
  init isoparse "TrackLocation" [("id", VInt 1)] (Models.start small).

Definition first_self : Model :=
  match fst first_built with Ok self => self | Raise _ => mkModel "" [] end.

End Examples.

(* ================================================================== *)
(** * Properties *)

(** ** Column descriptors *)

Module DbFacts.
Import Py Sql Db.

Lemma check_typed (f : Field) (t : pytype) :
  type_of (f_kind f) = Some t ->
  check f = if isinstance (value_ f) t || (is_none (value_ f) && nullable f)
            then Ok tt else Raise (ValueError Bare).
Proof.
  intros Ht. unfold check. rewrite Ht.
  destruct (isinstance (value_ f) t), (is_none (value_ f)), (nullable f); reflexivity.
Qed.

Lemma check_typed_raises_iff (f : Field) (t : pytype) :
  type_of (f_kind f) = Some t ->
  (exists e, check f = Raise e) <->
  isinstance (value_ f) t = false /\ ~ (value_ f = VNone /\ nullable f = true).
Proof.
  intros Ht. rewrite (check_typed f t Ht).
  destruct (isinstance (value_ f) t); simpl.
  - split; [intros [e He]; discriminate | intros [H _]; discriminate].
  - destruct (value_ f) eqn:Hv, (nullable f) eqn:Hn; simpl; split;
      try (intros [e He]; discriminate);
      try (intros _; split; [reflexivity | intros [H1 H2]; congruence]);
      try (intros _; eexists; reflexivity);
      try (intros [_ H]; exfalso; apply H; split; reflexivity).
Qed.

(** C6: the pre-write check of a descriptor fails exactly when its value
    is neither an instance of the declared native type nor null on a
    nullable column; this holds for every descriptor class that assigns
    [type], and fails on [ForeignKeyField], which does not: there the
    check raises [AttributeError] whatever the value, also for null on
    the nullable column [Track.location]. *)
Theorem check_foreign_key :
  (forall f : Field,
      match type_of (f_kind f) with
      | Some t =>
          check f = if isinstance (value_ f) t || (is_none (value_ f) && nullable f)
                    then Ok tt else Raise (ValueError Bare)
      | None => check f = Raise (AttributeError "ForeignKeyField" "type")
      end)
  /\ check (Models.ForeignKey "TrackLocation" true)
     = Raise (AttributeError "ForeignKeyField" "type")
  /\ check (set_value (Models.ForeignKey "Track" false) (VInt 10))
     = Raise (AttributeError "ForeignKeyField" "type").
Proof.
  split; [| split; reflexivity].
  intros f. destruct (type_of (f_kind f)) eqn:Ht.
  - apply check_typed; assumption.
  - unfold check. rewrite Ht. destruct (f_kind f); try discriminate. reflexivity.
Qed.

End DbFacts.

(** ** Statements *)

Module SqlFacts.
Import Py Sql.

Lemma filter_all {A} (f : A -> bool) (l : list A) :
  (forall x, f x = true) -> filter f l = l.
Proof.
  intros H. induction l as [|x l IH]; simpl; [reflexivity|].
  rewrite H, IH. reflexivity.
Qed.

Lemma filter_none {A} (f : A -> bool) (l : list A) :
  (forall x, f x = false) -> filter f l = [].
Proof.
  intros H. induction l as [|x l IH]; simpl; [reflexivity|].
  rewrite H. exact IH.
Qed.

Lemma filter_none_in {A} (f : A -> bool) (l : list A) :
  (forall x, In x l -> f x = false) -> filter f l = [].
Proof.
  induction l as [|x l IH]; intros H; simpl; [reflexivity|].
  rewrite (H x (or_introl eq_refl)). apply IH. intros y Hy. apply H. right. exact Hy.
Qed.

Lemma lookup_cons {A} (k k' : string) (v : A) (m : list (string * A)) :
  lookup k ((k', v) :: m) = if String.eqb k' k then Some v else lookup k m.
Proof. unfold lookup. simpl. destruct (String.eqb k' k); reflexivity. Qed.

(** The column of an [IN] list is looked up at most. *)
Lemma in_columns_found (t : table) (col : string) (ls : list lit) :
  has_column t col = true ->
  forallb (has_column t) (where_columns (WIn col ls)) = true.
Proof.
  intros Hc. destruct ls; cbn [where_columns forallb]; [reflexivity|].
  rewrite Hc. reflexivity.
Qed.

(** [DELETE FROM tbl WHERE col IN ()] is accepted. *)
Lemma exec_delete_in_nil (db : catalog) (tbl col : string) (t : table) :
  lookup tbl db = Some t -> has_column t col = true ->
  exec (Delete tbl (WIn col [])) db = Ok [].
Proof.
  intros Ht _. unfold exec. cbn [where_parses where_columns forallb negb].
  rewrite Ht. reflexivity.
Qed.

(** [SELECT cols FROM tbl WHERE col IN ()] fetches nothing. *)
Lemma exec_select_in_nil (db : catalog) (tbl col : string) (cols : list string)
    (t : table) :
  lookup tbl db = Some t -> cols <> [] ->
  forallb (has_column t) cols = true -> has_column t col = true ->
  exec (Select cols tbl (WIn col [])) db = Ok [].
Proof.
  intros Ht Hne Hcols Hc.
  assert (Hlen : Nat.eqb (List.length cols) 0 = false)
    by (destruct cols; [congruence | reflexivity]).
  unfold exec.
  change (where_parses (WIn col [])) with true.
  change (where_columns (WIn col [])) with (@nil string).
  rewrite Hlen, app_nil_r. cbn [negb orb]. rewrite Ht, Hcols. cbn [negb].
  rewrite filter_none by reflexivity. reflexivity.
Qed.

(** [SELECT cols FROM tbl] fetches every row. *)
Lemma exec_select_all (db : catalog) (tbl : string) (cols : list string) (t : table) :
  lookup tbl db = Some t -> cols <> [] ->
  forallb (has_column t) cols = true ->
  exec (Select cols tbl WAll) db
  = Ok (map (fun r => map (cell r) cols) (t_rows t)).
Proof.
  intros Ht Hne Hcols.
  assert (Hlen : Nat.eqb (List.length cols) 0 = false)
    by (destruct cols; [congruence | reflexivity]).
  unfold exec.
  change (where_parses WAll) with true.
  change (where_columns WAll) with (@nil string).
  rewrite Hlen, app_nil_r. cbn [negb orb]. rewrite Ht, Hcols. cbn [negb].
  rewrite filter_all by reflexivity. reflexivity.
Qed.

Lemma lookup_replace_same {A} (k : string) (v v0 : A) (m : list (string * A)) :
  lookup k m = Some v0 -> lookup k (replace k v m) = Some v.
Proof.
  induction m as [|[k' v'] m IH]; simpl; [discriminate|].
  rewrite lookup_cons. destruct (String.eqb k' k) eqn:E; intros H.
  - rewrite lookup_cons, String.eqb_refl. reflexivity.
  - rewrite lookup_cons, E. apply IH. exact H.
Qed.

End SqlFacts.

(** ** The engine of [schemas.py] *)

Module SchemaFacts.
Import Py Sql Schemas SqlFacts.

Lemma has_table_inv (db : catalog) (c : schema) :
  has_table db c = true ->
  exists t, lookup (table c) db = Some t
            /\ forallb (has_column t) (columns c) = true.
Proof.
  unfold has_table. destruct (lookup (table c) db) as [t|]; [|discriminate].
  intros H. exists t. split; [reflexivity | exact H].
Qed.

Lemma has_column_in (t : Sql.table) (cols : list string) (col : string) :
  forallb (has_column t) cols = true -> In col cols -> has_column t col = true.
Proof. intros H Hin. rewrite forallb_forall in H. apply H. exact Hin. Qed.

Lemma mixxx_file_has (db : catalog) (c : schema) :
  mixxx_file db = true -> In c entity_types -> has_table db c = true.
Proof.
  unfold mixxx_file. intros H Hin. rewrite forallb_forall in H. apply H. exact Hin.
Qed.

Lemma execute_delete_in_nil (db : catalog) (tbl col : string) (t : Sql.table) :
  lookup tbl db = Some t -> has_column t col = true ->
  execute (Delete tbl (WIn col [])) db = (Ok [], db).
Proof.
  intros Ht Hc. unfold execute. rewrite (exec_delete_in_nil db tbl col t Ht Hc).
  reflexivity.
Qed.

Lemma bulk_delete_nil (db : catalog) (c : schema) (idc : string) :
  has_table db c = true -> id_column c = Some idc -> In idc (columns c) ->
  bulk_delete c [] db = (Ok tt, db).
Proof.
  intros Hc Hid Hin. destruct (has_table_inv db c Hc) as (t & Ht & Hcols).
  unfold bulk_delete. rewrite Hid. unfold mbind at 1. simpl mmap. unfold ret at 1.
  unfold mbind. simpl map.
  rewrite (execute_delete_in_nil db (table c) idc t Ht
             (has_column_in t (columns c) idc Hcols Hin)).
  reflexivity.
Qed.

Lemma delete_by_track_id_nil (db : catalog) (c : schema) :
  has_table db c = true -> In "track_id" (columns c) ->
  delete_by_track_id c [] db = (Ok tt, db).
Proof.
  intros Hc Hin. destruct (has_table_inv db c Hc) as (t & Ht & Hcols).
  unfold delete_by_track_id, mbind. simpl map.
  rewrite (execute_delete_in_nil db (table c) "track_id" t Ht
             (has_column_in t (columns c) "track_id" Hcols Hin)).
  reflexivity.
Qed.

Lemma Track_bulk_delete_nil (db : catalog) :
  mixxx_file db = true -> Track_bulk_delete [] db = (Ok tt, db).
Proof.
  intros H. unfold Track_bulk_delete. unfold mbind at 1. simpl mmap. unfold ret at 1.
  unfold mbind at 1.
  rewrite delete_by_track_id_nil
    by (try (apply mixxx_file_has; [exact H|]); simpl; tauto).
  unfold mbind at 1.
  rewrite delete_by_track_id_nil
    by (try (apply mixxx_file_has; [exact H|]); simpl; tauto).
  unfold mbind at 1.
  rewrite delete_by_track_id_nil
    by (try (apply mixxx_file_has; [exact H|]); simpl; tauto).
  unfold mbind at 1.
  rewrite delete_by_track_id_nil
    by (try (apply mixxx_file_has; [exact H|]); simpl; tauto).
  apply bulk_delete_nil with (idc := "id");
    try (apply mixxx_file_has; [exact H|]); simpl; tauto.
Qed.

Lemma list_by_locations_nil (db : catalog) :
  mixxx_file db = true -> list_by_locations [] db = (Ok [], db).
Proof.
  intros H.
  destruct (has_table_inv db Track (mixxx_file_has db Track H ltac:(simpl; tauto)))
    as (t & Ht & Hcols).
  unfold list_by_locations, before_cursor, mbind, execute. simpl mmap. unfold ret.
  simpl map.
  rewrite (exec_select_in_nil db (table Track) "location" (columns Track) t Ht).
  - reflexivity.
  - discriminate.
  - exact Hcols.
  - apply (has_column_in t (columns Track)); [exact Hcols | simpl; tauto].
Qed.

Lemma TrackLocation_bulk_delete_nil (db : catalog) :
  mixxx_file db = true -> TrackLocation_bulk_delete [] db = (Ok tt, db).
Proof.
  intros H. unfold TrackLocation_bulk_delete. unfold mbind at 1.
  rewrite list_by_locations_nil by exact H.
  unfold mbind at 1. rewrite Track_bulk_delete_nil by exact H.
  apply bulk_delete_nil with (idc := "id");
    try (apply mixxx_file_has; [exact H|]); simpl; tauto.
Qed.

End SchemaFacts.

(** ** Nothing is committed *)

Module StoreFacts.
Import Py Sql Db.

(** *** Computations that leave their state alone *)

Lemma reads_ret {S A} (a : A) : reads (@ret S A a).
Proof. intros st. reflexivity. Qed.

Lemma reads_raise {S A} (e : exn) : reads (@raise S A e).
Proof. intros st. reflexivity. Qed.

Lemma reads_lift {S A} (r : result A) : reads (@lift S A r).
Proof. intros st. reflexivity. Qed.

Lemma reads_bind {S A B} (m : ST S A) (k : A -> ST S B) :
  reads m -> (forall a, reads (k a)) -> reads (mbind m k).
Proof.
  intros Hm Hk st. unfold mbind. specialize (Hm st).
  destruct (m st) as [[a|e] st']; simpl in *; subst st'; [apply Hk | reflexivity].
Qed.

Lemma reads_mmap {S A B} (f : A -> ST S B) (xs : list A) :
  (forall x, reads (f x)) -> reads (mmap f xs).
Proof.
  intros Hf. induction xs as [|x xs IH]; simpl; [apply reads_ret|].
  apply reads_bind; [apply Hf|]. intros y. apply reads_bind; [exact IH|].
  intros ys. apply reads_ret.
Qed.

Lemma reads_mfor {S A} (f : A -> ST S unit) (xs : list A) :
  (forall x, reads (f x)) -> reads (mfor f xs).
Proof.
  intros Hf. induction xs as [|x xs IH]; simpl; [apply reads_ret|].
  apply reads_bind; [apply Hf|]. intros _. exact IH.
Qed.

(** *** [db.py]: the heap may change, the storage file does not *)

Lemma reads_keeps {A} (m : M A) : reads m -> keeps_store m.
Proof. intros H st. rewrite H. reflexivity. Qed.

Lemma keeps_bind {A B} (m : M A) (k : A -> M B) :
  keeps_store m -> (forall a, keeps_store (k a)) -> keeps_store (mbind m k).
Proof.
  intros Hm Hk st. unfold mbind. specialize (Hm st).
  destruct (m st) as [[a|e] st']; simpl in *; [|exact Hm].
  rewrite Hk. exact Hm.
Qed.

Lemma keeps_mmap {A B} (f : A -> M B) (xs : list A) :
  (forall x, keeps_store (f x)) -> keeps_store (mmap f xs).
Proof.
  intros Hf. induction xs as [|x xs IH]; simpl; [apply reads_keeps, reads_ret|].
  apply keeps_bind; [apply Hf|]. intros y. apply keeps_bind; [exact IH|].
  intros ys. apply reads_keeps, reads_ret.
Qed.

Lemma keeps_mfor {A} (f : A -> M unit) (xs : list A) :
  (forall x, keeps_store (f x)) -> keeps_store (mfor f xs).
Proof.
  intros Hf. induction xs as [|x xs IH]; simpl; [apply reads_keeps, reads_ret|].
  apply keeps_bind; [apply Hf|]. intros _. exact IH.
Qed.

Lemma reads_deref (a : nat) : reads (deref a).
Proof. intros st. unfold deref. destruct (nth_error (heap st) a); reflexivity. Qed.

Lemma reads_meta_of (cls : string) : reads (meta_of cls).
Proof. intros st. unfold meta_of. destruct (lookup cls (metas st)); reflexivity. Qed.

(** Closing the connection without [commit]: [execute] leaves the
    whole state as it was. *)
Lemma reads_execute (s : stmt) : reads (execute s).
Proof. intros st. reflexivity. Qed.

Lemma keeps_alloc (f : Field) : keeps_store (alloc f).
Proof. intros st. reflexivity. Qed.

Lemma keeps_set_meta (cls : string) (m : ModelMeta) : keeps_store (set_meta cls m).
Proof. intros st. reflexivity. Qed.

Lemma keeps_assign_value (a : nat) (v : value) : keeps_store (assign_value a v).
Proof.
  unfold assign_value. apply keeps_bind; [apply reads_keeps, reads_deref|].
  intros f st. reflexivity.
Qed.

Ltac keeps :=
  repeat first
    [ apply reads_keeps, reads_ret | apply reads_keeps, reads_raise
    | apply reads_keeps, reads_lift | apply reads_keeps, reads_deref
    | apply reads_keeps, reads_meta_of | apply reads_keeps, reads_execute
    | apply keeps_alloc | apply keeps_set_meta | apply keeps_assign_value
    | apply keeps_bind; [|intro]
    | apply keeps_mmap; intro
    | apply keeps_mfor; intro
    | match goal with |- keeps_store (match ?x with _ => _ end) => destruct x end
    | match goal with |- keeps_store (if ?x then _ else _) => destruct x end ].

Lemma keeps_meta_table (cls : string) : keeps_store (meta_table cls).
Proof. unfold meta_table. keeps. Qed.

Lemma keeps_meta_id_column (cls : string) : keeps_store (meta_id_column cls).
Proof. unfold meta_id_column. keeps. Qed.

Lemma keeps_get_id (self : Model) : keeps_store (get_id self).
Proof. unfold get_id, meta_id_field. keeps. Qed.

Lemma keeps_getattr (self : Model) (n : string) : keeps_store (getattr self n).
Proof. unfold getattr. keeps. Qed.

Lemma keeps_setattr (self : Model) (n : string) (v : value) :
  keeps_store (setattr self n v).
Proof. unfold setattr. keeps. Qed.

Lemma keeps_check (self : Model) : keeps_store (_check self).
Proof. unfold _check. keeps. Qed.

Lemma keeps_equals_expr (self : Model) (n : string) :
  keeps_store (model_equals_expr self n).
Proof. unfold model_equals_expr. keeps. Qed.

(** [Model.bulk_delete], [Model.delete] and [Model.update] write nothing
    that lasts. *)
Lemma keeps_bulk_delete (cls : string) (objs : list Model) :
  keeps_store (bulk_delete cls objs).
Proof.
  unfold bulk_delete.
  apply keeps_bind; [apply keeps_meta_table|]. intros tbl.
  apply keeps_bind; [apply keeps_meta_id_column|]. intros idc.
  apply keeps_bind; [apply keeps_mmap; intros o; apply keeps_get_id|]. intros ids.
  keeps.
Qed.

Lemma keeps_delete (self : Model) : keeps_store (delete self).
Proof.
  unfold delete. apply keeps_bind; [apply keeps_get_id|]. intros id.
  destruct (is_none id); [keeps|].
  apply keeps_bind; [apply keeps_meta_table|]. intros tbl.
  apply keeps_bind; [apply keeps_meta_id_column|]. intros idc.
  apply keeps_bind; [apply keeps_equals_expr|]. intros w. keeps.
Qed.

Lemma keeps_update (self : Model) : keeps_store (update self).
Proof.
  unfold update. apply keeps_bind; [apply keeps_get_id|]. intros id.
  destruct (is_none id); [keeps|].
  apply keeps_bind; [apply keeps_check|]. intros _.
  apply keeps_bind.
  { destruct (_fields self); [keeps|].
    apply keeps_bind; [apply keeps_meta_id_column|]. intros idc.
    apply keeps_mmap. intros n. apply keeps_equals_expr. }
  intros _. apply keeps_bind; [apply keeps_meta_table|]. intros _.
  apply keeps_bind; [apply keeps_meta_id_column|]. intros idc.
  apply keeps_bind; [apply keeps_equals_expr|]. intros _. keeps.
Qed.

Section Engine.

Variable isoparse : string -> option string.

Lemma keeps_init (cls : string) (kwargs : list (string * value)) :
  keeps_store (init isoparse cls kwargs).
Proof.
  unfold init. apply keeps_bind; [keeps|]. intros m.
  apply keeps_bind; [keeps|]. intros fields.
  apply keeps_bind; [apply keeps_meta_id_column|]. intros idc.
  destruct (lookup idc fields); keeps.
Qed.

Lemma keeps_list (cls : string) (conds : list (string * cond_arg)) :
  keeps_store (list_ isoparse cls conds).
Proof.
  unfold list_. apply keeps_bind; [keeps|]. intros m.
  apply keeps_bind; [keeps|]. intros db_conds.
  apply keeps_bind; [apply keeps_meta_table|]. intros tbl.
  apply keeps_bind; [keeps|]. intros tuples.
  apply keeps_mmap. intros tuple. apply keeps_init.
Qed.

Lemma keeps_get (cls : string) (id : value) : keeps_store (get isoparse cls id).
Proof.
  unfold get. apply keeps_bind; [keeps|]. intros m.
  apply keeps_bind; [apply keeps_meta_table|]. intros tbl.
  apply keeps_bind; [apply keeps_meta_id_column|]. intros idc.
  apply keeps_bind; [unfold meta_id_field; keeps|]. intros ida.
  apply keeps_bind; [keeps|]. intros idf.
  apply keeps_bind; [keeps|]. intros fr.
  apply keeps_bind; [keeps|]. intros tuples.
  destruct tuples; [keeps | apply keeps_init].
Qed.

(** The cascades of [models.py]. *)
Lemma keeps_Track_bulk_delete (objs : list Model) :
  keeps_store (Models.Track_bulk_delete isoparse objs).
Proof.
  unfold Models.Track_bulk_delete, Models.ids_of.
  apply keeps_bind; [apply keeps_mmap; intros o; apply keeps_getattr|]. intros ids.
  apply keeps_bind; [apply keeps_bulk_delete|]. intros _.
  apply keeps_bind; [apply keeps_list|]. intros cues.
  apply keeps_bind; [apply keeps_bulk_delete|]. intros _.
  apply keeps_bind; [apply keeps_list|]. intros pl. apply keeps_bulk_delete.
Qed.

Lemma keeps_TrackLocation_bulk_delete (objs : list Model) :
  keeps_store (Models.TrackLocation_bulk_delete isoparse objs).
Proof.
  unfold Models.TrackLocation_bulk_delete, Models.ids_of.
  apply keeps_bind; [apply keeps_mmap; intros o; apply keeps_getattr|]. intros ids.
  apply keeps_bind; [apply keeps_bulk_delete|]. intros _.
  apply keeps_bind; [apply keeps_list|]. intros analyses.
  apply keeps_bind; [apply keeps_bulk_delete|]. intros _.
  apply keeps_bind; [apply keeps_list|]. intros tracks.
  apply keeps_Track_bulk_delete.
Qed.

Lemma keeps_TrackLocation_delete (self : Model) :
  keeps_store (Models.TrackLocation_delete isoparse self).
Proof.
  unfold Models.TrackLocation_delete.
  apply keeps_bind; [apply keeps_delete|]. intros _.
  apply keeps_bind; [apply keeps_getattr|]. intros id.
  apply keeps_bind; [apply keeps_list|]. intros tracks.
  apply keeps_Track_bulk_delete.
Qed.

Lemma keeps_bulk_delete_of (cls : string) (objs : list Model) :
  keeps_store (Models.bulk_delete_of isoparse cls objs).
Proof.
  unfold Models.bulk_delete_of.
  destruct (String.eqb cls "TrackLocation"); [apply keeps_TrackLocation_bulk_delete|].
  destruct (String.eqb cls "Track");
    [apply keeps_Track_bulk_delete | apply keeps_bulk_delete].
Qed.

Lemma keeps_delete_of (self : Model) :
  keeps_store (Models.delete_of isoparse self).
Proof.
  unfold Models.delete_of.
  destruct (String.eqb (class_of self) "TrackLocation");
    [apply keeps_TrackLocation_delete | apply keeps_delete].
Qed.

End Engine.

(** *** [schemas.py]: every operation leaves the storage file as it was *)

Lemma reads_before_cursor {A} (m : Schemas.DB A) :
  reads m -> reads (Schemas.before_cursor m).
Proof.
  intros H db. unfold Schemas.before_cursor. specialize (H db).
  destruct (m db) as [[a|e] db']; simpl in *; exact H.
Qed.

Ltac reads :=
  repeat first
    [ apply reads_ret | apply reads_raise | apply reads_lift
    | (intros ?db; reflexivity)
    | apply reads_before_cursor
    | apply reads_bind; [|intro]
    | apply reads_mmap; intro
    | apply reads_mfor; intro
    | match goal with |- reads (match ?x with _ => _ end) => destruct x end
    | match goal with |- reads (if ?x then _ else _) => destruct x end ].

Lemma reads_schema_execute (s : stmt) : reads (Schemas.execute s).
Proof. intros db. reflexivity. Qed.

Lemma reads_schema_update (self : Schemas.obj) : reads (Schemas.update self).
Proof.
  unfold Schemas.update. destruct (Schemas.id_column (Schemas.cls self)); [|apply reads_raise].
  apply reads_bind; [apply reads_mmap; intros c; reads|]. intros updates.
  apply reads_bind; [apply reads_lift|]. intros id.
  apply reads_bind; [apply reads_schema_execute|]. intros _. apply reads_ret.
Qed.

Lemma reads_schema_delete (self : Schemas.obj) : reads (Schemas.delete self).
Proof.
  unfold Schemas.delete. destruct (Schemas.id_column (Schemas.cls self)); [|apply reads_raise].
  apply reads_bind; [apply reads_lift|]. intros id.
  apply reads_bind; [apply reads_schema_execute|]. intros _. apply reads_ret.
Qed.

Lemma reads_schema_bulk_delete (c : Schemas.schema) (objs : list Schemas.obj) :
  reads (Schemas.bulk_delete c objs).
Proof.
  unfold Schemas.bulk_delete. destruct (Schemas.id_column c); [|apply reads_raise].
  apply reads_bind; [apply reads_mmap; intros o; apply reads_lift|]. intros ids.
  apply reads_bind; [apply reads_schema_execute|]. intros _. apply reads_ret.
Qed.

Lemma reads_delete_by_track_id (c : Schemas.schema) (ids : list value) :
  reads (Schemas.delete_by_track_id c ids).
Proof.
  unfold Schemas.delete_by_track_id.
  apply reads_bind; [apply reads_schema_execute|]. intros _. apply reads_ret.
Qed.

Lemma reads_list_by_locations (locations : list Schemas.obj) :
  reads (Schemas.list_by_locations locations).
Proof.
  unfold Schemas.list_by_locations. apply reads_bind.
  - apply reads_before_cursor. apply reads_bind.
    + apply reads_mmap. intros l. apply reads_lift.
    + intros ids. apply reads_schema_execute.
  - intros lst. destruct lst; [apply reads_ret | apply reads_raise].
Qed.

Lemma reads_schema_Track_bulk_delete (objs : list Schemas.obj) :
  reads (Schemas.Track_bulk_delete objs).
Proof.
  unfold Schemas.Track_bulk_delete.
  apply reads_bind; [apply reads_mmap; intros o; apply reads_lift|]. intros ids.
  repeat (apply reads_bind; [apply reads_delete_by_track_id|]; intros _).
  apply reads_schema_bulk_delete.
Qed.

Lemma reads_schema_TrackLocation_bulk_delete (objs : list Schemas.obj) :
  reads (Schemas.TrackLocation_bulk_delete objs).
Proof.
  unfold Schemas.TrackLocation_bulk_delete.
  apply reads_bind; [apply reads_list_by_locations|]. intros tracks.
  apply reads_bind; [apply reads_schema_Track_bulk_delete|]. intros _.
  apply reads_schema_bulk_delete.
Qed.

Lemma reads_schema_bulk_delete_of (c : Schemas.schema) (objs : list Schemas.obj) :
  reads (Schemas.bulk_delete_of c objs).
Proof.
  unfold Schemas.bulk_delete_of.
  destruct (String.eqb (Schemas.name c) "TrackLocation");
    [apply reads_schema_TrackLocation_bulk_delete|].
  destruct (String.eqb (Schemas.name c) "Track");
    [apply reads_schema_Track_bulk_delete | apply reads_schema_bulk_delete].
Qed.

End StoreFacts.

(** ** Row instances of [db.py] *)

Module ModelFacts.
Import Py Sql Db Examples StoreFacts.

(** C9: two row instances of one schema do share state.  Building a
    second [TrackLocation] changes what [get_id] answers for the first
    (2 instead of its own 1, which attribute access still reads); and
    [delete] on a fetched row, which sends its statement and returns
    when nothing was built in between, raises the precondition error
    once an instance without identity was built. *)
Theorem get_id_follows_last_instance :
  fst (run (two_instances [("id", VInt 2)]) small) = Ok (VInt 1, VInt 2, VInt 1)
  /\ run (fetch_and_delete (ret tt)) small = (Ok tt, small)
  /\ run (fetch_and_delete build_blank) small
     = (Raise (ValueError (IdIsNone "delete")), small).
Proof. repeat split; vm_compute; reflexivity. Qed.

(** A computation that ends by raising never returns. *)
Lemma bind_never_returns {A B} (m : M A) (k : A -> M B) (st : state) :
  (forall a st', exists e, fst (k a st') = Raise e) ->
  exists e, fst (mbind m k st) = Raise e.
Proof.
  intros Hk. unfold mbind. destruct (m st) as [[a|e] st'].
  - apply Hk.
  - exists e. reflexivity.
Qed.

(** C5: [Model.update] never writes a row and never returns: whatever
    the row and the state, the call raises and the storage file is as
    before.  A fetched row whose file name was changed gets past the
    precondition and the check, and then the statement cannot be
    formatted; the precondition error itself follows the instance built
    last, not the row ([a.id] is 1 in the third line, unset in the
    fourth).  [BaseSchema.update] sends its statement and returns, and
    the row is as before as well. *)
Theorem update_never_writes :
  (forall (self : Model) (st : state),
      (exists e, fst (update self st) = Raise e)
      /\ store (snd (update self st)) = store st)
  /\ run (rename_and_update (ret tt)) small = (Raise format_error, small)
  /\ run (rename_and_update build_blank) small
     = (Raise (ValueError (IdIsNone "update")), small)
  /\ run update_without_id small
     = (Raise (ValueError (IllegalValue "TrackLocation" "id" VNone)), small)
  /\ (forall (self : Schemas.obj) (db : catalog), snd (Schemas.update self db) = db)
  /\ Schemas.update (Schemas.setattr location_1 "filename" (VStr "b.mp3")) small
     = (Ok tt, small).
Proof.
  split; [|repeat split; try (vm_compute; reflexivity)].
  - intros self st. split; [|apply keeps_update].
    unfold update. apply bind_never_returns. intros id st1.
    destruct (is_none id); [eexists; reflexivity|].
    apply bind_never_returns. intros _ st2.
    apply bind_never_returns. intros _ st3.
    apply bind_never_returns. intros _ st4.
    apply bind_never_returns. intros idc st5.
    apply bind_never_returns. intros _ st6.
    eexists. reflexivity.
  - intros self db. apply reads_schema_update.
Qed.

End ModelFacts.

(** ** Cascades *)

Module CascadeFacts.
Import Py Sql Db Examples StoreFacts.

(** C1: no row is purged.  Whatever the rows given, the cascades of
    both engines leave the storage file as it was, since no connection
    is committed before it is closed.  On the small catalog, deleting
    location 1 in bulk through [models.py] returns, and the track of
    that location, its cue, its crate membership and its analysis are
    all still there; [Track.bulk_delete] of [schemas.py] returns with
    the same outcome, and [TrackLocation.bulk_delete] of [schemas.py]
    raises in [Track.list_by_locations], on the first fetched tuple. *)
Theorem bulk_delete_purges_nothing :
  (forall isoparse objs st,
      store (snd (Models.TrackLocation_bulk_delete isoparse objs st)) = store st)
  /\ (forall isoparse objs st,
         store (snd (Models.Track_bulk_delete isoparse objs st)) = store st)
  /\ (forall objs db, snd (Schemas.TrackLocation_bulk_delete objs db) = db)
  /\ (forall objs db, snd (Schemas.Track_bulk_delete objs db) = db)
  /\ run purge_locations small = (Ok tt, small)
  /\ left_behind small small [1%Z]
     = [ ("library", track_row 10 1); ("cues", cue_row 7 10);
         ("crate_tracks", crate_row 5 10); ("track_analysis", analysis_row 3 10) ]
  /\ Schemas.Track_bulk_delete [track_10] small = (Ok tt, small)
  /\ Schemas.TrackLocation_bulk_delete [location_1] small
     = (Raise (TypeError "argument after ** must be a mapping, not tuple"), small).
Proof.
  split; [intros; apply keeps_TrackLocation_bulk_delete|].
  split; [intros; apply keeps_Track_bulk_delete|].
  split; [intros; apply reads_schema_TrackLocation_bulk_delete|].
  split; [intros; apply reads_schema_Track_bulk_delete|].
  repeat split; vm_compute; reflexivity.
Qed.

(** C3: [delete] removes no row and purges no dependent.  Whatever the
    row, [BaseSchema.delete] and the [delete] of every class of
    [models.py] leave the storage file as it was.  On the small catalog
    each of them sends its statement and returns: location 1, track 10
    and the rows that depend on them are still there. *)
Theorem delete_removes_nothing :
  (forall self db, snd (Schemas.delete self db) = db)
  /\ (forall isoparse self st,
         store (snd (Models.delete_of isoparse self st)) = store st)
  /\ Schemas.delete location_1 small = (Ok tt, small)
  /\ run delete_track small = (Ok tt, small)
  /\ run delete_location small = (Ok tt, small)
  /\ left_behind small small [1%Z]
     = [ ("library", track_row 10 1); ("cues", cue_row 7 10);
         ("crate_tracks", crate_row 5 10); ("track_analysis", analysis_row 3 10) ].
Proof.
  split; [intros; apply reads_schema_delete|].
  split; [intros; apply keeps_delete_of|].
  repeat split; vm_compute; reflexivity.
Qed.

End CascadeFacts.

(** ** [bulk_delete] of nothing *)

Module EmptyBulkDelete.
Import Py Sql SqlFacts SchemaFacts.

Lemma start_store (db : catalog) :
  Models.start db
  = Db.mkState (Db.heap (Models.start [])) (Db.metas (Models.start [])) db.
Proof. vm_compute. reflexivity. Qed.

Lemma db_bulk_delete_nil (st : Db.state) (cls tbl idc : string) (m : Db.ModelMeta)
    (t : Sql.table) :
  lookup cls (Db.metas st) = Some m ->
  Db.table m = Some tbl -> Db.id_column m = Some idc ->
  lookup tbl (Db.store st) = Some t -> has_column t idc = true ->
  Db.bulk_delete cls [] st = (Ok tt, st).
Proof.
  intros Hm Ht Hi Hl Hc. destruct st as [h ms db]. simpl in *.
  unfold Db.bulk_delete, Db.meta_table, Db.meta_id_column, Db.meta_of, mbind.
  unfold ret, raise, Db.execute.
  repeat (cbn -[exec]; rewrite ?Hm, ?Ht, ?Hi).
  rewrite (exec_delete_in_nil db tbl idc t Hl Hc). reflexivity.
Qed.

Lemma model_bulk_delete_nil (db : catalog) (cls : string) (c : Schemas.schema) :
  Schemas.mixxx_file db = true -> In (cls, c) Schemas.keyed_models ->
  Db.bulk_delete cls [] (Models.start db) = (Ok tt, Models.start db).
Proof.
  intros H Hin.
  assert (Hc : Schemas.has_table db c = true).
  { apply mixxx_file_has; [exact H|].
    unfold Schemas.keyed_models in Hin. simpl in Hin.
    destruct Hin as [E|[E|[E|[E|[E|[]]]]]]; inversion E; simpl; tauto. }
  destruct (has_table_inv db c Hc) as (t & Ht & Hcols).
  assert (Hid : has_column t "id" = true).
  { apply (has_column_in t (Schemas.columns c)); [exact Hcols|].
    unfold Schemas.keyed_models in Hin. simpl in Hin.
    destruct Hin as [E|[E|[E|[E|[E|[]]]]]]; inversion E; simpl; tauto. }
  rewrite start_store.
  unfold Schemas.keyed_models in Hin. simpl in Hin.
  destruct Hin as [E|[E|[E|[E|[E|[]]]]]]; inversion E; subst cls c;
    (eapply db_bulk_delete_nil;
     [ vm_compute; reflexivity | reflexivity | reflexivity | exact Ht | exact Hid ]).
Qed.

(** C4, as the code has it: on a storage file with the Mixxx tables,
    [bulk_delete] of no rows returns and changes nothing for every
    entity type of [schemas.py] that declares an identity column, as
    the class resolves it (with the overrides of [Track] and
    [TrackLocation]), and for the entity types of [models.py] that
    declare an identity column and inherit [Model.bulk_delete]; for
    [CrateTrack] of [schemas.py], which declares none, the guard of
    [BaseSchema.bulk_delete] raises and nothing is changed. *)
Theorem bulk_delete_nothing (isoparse : string -> option string) (db : catalog)
    (c : Schemas.schema) :
  Schemas.mixxx_file db = true ->
  In c Schemas.entity_types ->
  match Schemas.id_column c with
  | Some _ =>
      Schemas.bulk_delete_of c [] db = (Ok tt, db)
      /\ forall cls, In (cls, c) Schemas.inheriting_models ->
           Models.bulk_delete_of isoparse cls [] (Models.start db)
           = (Ok tt, Models.start db)
  | None =>
      Schemas.bulk_delete_of c [] db
      = (Raise (ValueError (IdColumnIsNone "delete")), db)
  end.
Proof.
  intros H Hin.
  assert (Hbase : forall idc, Schemas.id_column c = Some idc ->
                              In idc (Schemas.columns c) ->
                              Schemas.bulk_delete c [] db = (Ok tt, db)).
  { intros idc Hid Hcol. apply bulk_delete_nil with (idc := idc); auto.
    apply mixxx_file_has; assumption. }
  assert (Hmodel : forall cls, In (cls, c) Schemas.inheriting_models ->
                     Models.bulk_delete_of isoparse cls [] (Models.start db)
                     = (Ok tt, Models.start db)).
  { intros cls Hcls.
    assert (Hk : In (cls, c) Schemas.keyed_models).
    { simpl in Hcls. simpl. tauto. }
    assert (E : Models.bulk_delete_of isoparse cls [] = Db.bulk_delete cls []).
    { simpl in Hcls. destruct Hcls as [E|[E|[E|[]]]]; inversion E; reflexivity. }
    rewrite E. apply (model_bulk_delete_nil db cls c H Hk). }
  simpl in Hin.
  destruct Hin as [E|[E|[E|[E|[E|[E|[]]]]]]]; subst c; simpl;
    try reflexivity; (split; [|exact Hmodel]).
  - apply TrackLocation_bulk_delete_nil; exact H.
  - apply Track_bulk_delete_nil; exact H.
  - apply (Hbase "id"); [reflexivity | simpl; tauto].
  - apply (Hbase "id"); [reflexivity | simpl; tauto].
  - apply (Hbase "id"); [reflexivity | simpl; tauto].
Qed.

Lemma bulk_delete_nothing_witness :
  Schemas.bulk_delete_of Schemas.Cue [] Examples.small = (Ok tt, Examples.small)
  /\ forall cls, In (cls, Schemas.Cue) Schemas.inheriting_models ->
       Models.bulk_delete_of Examples.isoparse cls [] (Models.start Examples.small)
       = (Ok tt, Models.start Examples.small).
Proof.
  apply (bulk_delete_nothing Examples.isoparse Examples.small Schemas.Cue).
  - vm_compute. reflexivity.
  - simpl. tauto.
Defined.

(** C4 as stated fails for the entity type without identity column:
    [CrateTrack.bulk_delete] of no rows raises. *)
Lemma bulk_delete_nothing_raises :
  Schemas.bulk_delete_of Schemas.CrateTrack [] Examples.small
  = (Raise (ValueError (IdColumnIsNone "delete")), Examples.small)
  /\ fst (Schemas.bulk_delete_of Schemas.CrateTrack [] Examples.small) <> Ok tt.
Proof. split; [reflexivity | discriminate]. Qed.

End EmptyBulkDelete.

(** ** The directory scan *)

Module OsFacts.
Import Py Sql Os SqlFacts.

Lemma distinct_in (x : string) (xs : list string) : In x (distinct xs) <-> In x xs.
Proof.
  induction xs as [|y xs IH]; simpl; [tauto|].
  rewrite filter_In, IH. destruct (String.eqb_spec x y) as [E|N].
  - subst. tauto.
  - split.
    + intros [H|[H _]]; auto.
    + intros [H|H]; [auto|]. right. split; [exact H|]. reflexivity.
Qed.

Lemma NoDup_filter {A} (f : A -> bool) (l : list A) : NoDup l -> NoDup (filter f l).
Proof.
  induction 1 as [|x l Hx Hl IH]; simpl; [constructor|].
  destruct (f x); [|exact IH]. constructor; [|exact IH].
  rewrite filter_In. tauto.
Qed.

Lemma path_eqb_eq (p q : path) : path_eqb p q = true <-> p = q.
Proof.
  destruct p as [a|a], q as [b|b]; simpl; try (split; [discriminate | discriminate]);
    rewrite String.eqb_eq; split; intros H; [subst | inversion H | subst | inversion H];
    reflexivity.
Qed.

Lemma path_eqb_refl (p : path) : path_eqb p p = true.
Proof. apply path_eqb_eq. reflexivity. Qed.

Lemma distinct_paths_in (x : path) (xs : list path) :
  In x (distinct_paths xs) <-> In x xs.
Proof.
  induction xs as [|y xs IH]; simpl; [tauto|].
  rewrite filter_In, IH. destruct (path_eqb x y) eqn:E.
  - apply path_eqb_eq in E. subst. tauto.
  - split.
    + intros [H|[H _]]; auto.
    + intros [H|H]; [auto|]. right. split; [exact H|]. reflexivity.
Qed.

(** Every directory is kept once. *)
Lemma distinct_paths_NoDup (xs : list path) : NoDup (distinct_paths xs).
Proof.
  induction xs as [|x xs IH]; simpl; constructor.
  - rewrite filter_In. intros [_ H]. rewrite path_eqb_refl in H. discriminate.
  - apply NoDup_filter. exact IH.
Qed.

(** When no listing fails, the dictionary has one entry for each
    directory asked for, in the order of the calls. *)
Lemma list_dirs_ok (listdir : string -> listing) (ds : list path) :
  (forall d, In d ds -> fails (listdir (chars d)) = false) ->
  list_dirs listdir ds = Ok (map (fun d => (d, entries (listdir (chars d)))) ds).
Proof.
  induction ds as [|d ds IH]; intros H; simpl; [reflexivity|].
  rewrite IH by (intros d' Hd; apply H; right; exact Hd).
  specialize (H d (or_introl eq_refl)).
  destruct (listdir (chars d)); simpl in *; try reflexivity. discriminate.
Qed.

Lemma listed_map (f : path -> list string) (ds : list path) (d : path) :
  In d ds -> listed d (map (fun d => (d, f d)) ds) = Some (f d).
Proof.
  unfold listed. induction ds as [|d' ds IH]; simpl; [tauto|]. intros H.
  destruct (path_eqb d' d) eqn:E.
  - apply path_eqb_eq in E. subst. reflexivity.
  - destruct H as [H|H]; [subst; rewrite path_eqb_refl in E; discriminate|].
    apply IH. exact H.
Qed.

Lemma keep_orphans_filter {A} (location : A -> path) (filename : A -> value)
    (dirs : list (path * list string)) (f : path -> list string)
    (locations : list A) :
  (forall l, In l locations ->
             listed (parent (location l)) dirs = Some (f (parent (location l)))) ->
  keep_orphans location filename dirs locations
  = Ok (filter (fun l => absent_in (parent (location l)) (filename l)
                           (f (parent (location l)))) locations).
Proof.
  induction locations as [|l ls IH]; intros H; simpl; [reflexivity|].
  rewrite (H l (or_introl eq_refl)).
  rewrite IH by (intros l' Hl; apply H; right; exact Hl).
  simpl.
  destruct (absent_in (parent (location l)) (filename l) (f (parent (location l))));
    reflexivity.
Qed.

(** The scan keeps exactly the rows whose file name is not listed in
    their directory, where a missing directory lists nothing; and the
    directories it lists are the parent directories of the rows, each
    one once. *)
Lemma scan_filter {A} (listdir : string -> listing)
    (location : A -> path) (filename : A -> value) (locations : list A) :
  (forall l, In l locations ->
             fails (listdir (chars (parent (location l)))) = false) ->
  scan listdir location filename locations
  = Ok (filter (fun l => absent_in (parent (location l)) (filename l)
                           (entries (listdir (chars (parent (location l))))))
               locations,
        distinct_paths (map (fun l => parent (location l)) locations)).
Proof.
  intros H. unfold scan.
  rewrite list_dirs_ok.
  - simpl.
    rewrite (keep_orphans_filter location filename _
               (fun d => entries (listdir (chars d)))).
    + simpl. rewrite map_map. simpl. rewrite map_id. reflexivity.
    + intros l Hl. apply (listed_map (fun d => entries (listdir (chars d)))).
      apply (proj2 (distinct_paths_in _ _)). apply (proj2 (in_map_iff _ _ _)).
      exists l. split; [reflexivity | exact Hl].
  - intros d Hd. apply (proj1 (distinct_paths_in _ _)) in Hd.
    apply (proj1 (in_map_iff _ _ _)) in Hd.
    destruct Hd as (l & <- & Hl). apply H. exact Hl.
Qed.

End OsFacts.

(** ** The catalog-side orphan scan *)

Module OrphanFacts.
Import Py Sql Schemas SqlFacts SchemaFacts OsFacts.

Lemma mmap_ok {S A B} (f : A -> ST S B) (g : A -> B) (xs : list A) (st : S) :
  (forall x, In x xs -> f x st = (Ok (g x), st)) ->
  mmap f xs st = (Ok (map g xs), st).
Proof.
  induction xs as [|x xs IH]; intros H; simpl; [reflexivity|].
  unfold mbind. rewrite (H x (or_introl eq_refl)).
  rewrite IH by (intros y Hy; apply H; right; exact Hy). reflexivity.
Qed.

(** [list] builds one object for each stored row. *)
Lemma list_fetches (db : catalog) (c : schema) :
  has_table db c = true -> columns c <> [] ->
  list_ c db = (Ok (map (fetched c) (rows_of db (table c))), db).
Proof.
  intros Hc Hne. destruct (has_table_inv db c Hc) as (t & Ht & Hcols).
  unfold list_, db_fetchall, before_cursor, mbind, execute.
  rewrite (exec_select_all db (table c) (columns c) t Ht Hne Hcols).
  unfold ret, rows_of. rewrite Ht. rewrite !map_map. reflexivity.
Qed.

Lemma fetched_location (r : row) :
  getattr (fetched TrackLocation r) "location" = Ok (cell r "location").
Proof. reflexivity. Qed.

Lemma fetched_filename (r : row) :
  filename_of (fetched TrackLocation r) = cell r "filename".
Proof. reflexivity. Qed.

Lemma filter_map_fst {A B C} (f : A -> B) (g : A -> C) (P : B * C -> bool)
    (Q : A -> bool) (l : list A) :
  (forall x, In x l -> P (f x, g x) = Q x) ->
  map fst (filter P (map (fun x => (f x, g x)) l)) = map f (filter Q l).
Proof.
  induction l as [|x l IH]; intros H; simpl; [reflexivity|].
  rewrite (H x (or_introl eq_refl)).
  assert (IH' := IH (fun y Hy => H y (or_intror Hy))).
  destruct (Q x); simpl; rewrite IH'; reflexivity.
Qed.

Lemma scanned_dirs_paths (rows : list row) :
  (forall r, In r rows -> exists p, cell r "location" = VStr p) ->
  scanned_dirs rows = Os.distinct (map (fun r => dirname (path_at r)) rows).
Proof.
  intros H. unfold scanned_dirs. f_equal.
  induction rows as [|r rows IH]; simpl; [reflexivity|].
  rewrite IH by (intros r' Hr'; apply H; right; exact Hr').
  destruct (H r (or_introl eq_refl)) as (p & Hp).
  unfold path_at. rewrite Hp. reflexivity.
Qed.

Lemma orphaned_path (listdir : string -> Os.listing) (r : row) (p : string) :
  cell r "location" = VStr p ->
  orphaned listdir r
  = Os.absent (cell r "filename") (Os.entries (listdir (dirname (path_at r)))).
Proof. intros H. unfold orphaned, path_at. rewrite H. reflexivity. Qed.

Lemma locate_fetched (db : catalog) (r : row) (p : string) :
  cell r "location" = VStr p ->
  (v <- lift (getattr (fetched TrackLocation r) "location") ;;
   path <- lift (Os.as_path v) ;;
   ret (fetched TrackLocation r, path)) db
  = (Ok (fetched TrackLocation r, Os.Text (path_at r)), db).
Proof.
  intros H. unfold mbind, lift, ret. rewrite fetched_location, H.
  unfold path_at. rewrite H. reflexivity.
Qed.

(** The scan on a table whose rows all record a text path, when no
    listing fails: the orphans, and the directories listed. *)
Lemma scan_orphans_run (listdir : string -> Os.listing) (db : catalog) :
  has_table db TrackLocation = true ->
  (forall r, In r (rows_of db "track_locations") ->
             exists p, cell r "location" = VStr p) ->
  (forall r, In r (rows_of db "track_locations") ->
             Os.fails (listdir (dirname (path_at r))) = false) ->
  scan_orphans listdir db
  = (Ok (map (fetched TrackLocation)
             (filter (orphaned listdir) (rows_of db "track_locations")),
         Os.distinct_paths
           (map (fun r => Os.Text (dirname (path_at r)))
                (rows_of db "track_locations"))), db).
Proof.
  intros Hc Hloc Hdirs.
  set (rows := rows_of db "track_locations") in *.
  unfold scan_orphans. unfold mbind at 1.
  rewrite (list_fetches db TrackLocation Hc) by discriminate.
  change (rows_of db (table TrackLocation)) with rows.
  unfold mbind at 1.
  rewrite (mmap_ok _ (fun l => (l, match getattr l "location" with
                                   | Ok (VStr p) => Os.Text p
                                   | _ => Os.Text ""
                                   end))).
  2:{ intros l Hl. apply (proj1 (in_map_iff _ _ _)) in Hl.
      destruct Hl as (r & <- & Hr). destruct (Hloc r Hr) as (p & Hp).
      rewrite (locate_fetched db r p Hp). rewrite fetched_location.
      unfold path_at. rewrite Hp. reflexivity. }
  rewrite map_map.
  rewrite (map_ext_in _ (fun r => (fetched TrackLocation r, Os.Text (path_at r)))).
  2:{ intros r Hr. rewrite fetched_location. destruct (Hloc r Hr) as (p & Hp).
      unfold path_at. rewrite Hp. reflexivity. }
  unfold mbind, lift. rewrite scan_filter.
  2:{ intros l Hl. apply (proj1 (in_map_iff _ _ _)) in Hl.
      destruct Hl as (r & <- & Hr). simpl. apply Hdirs. exact Hr. }
  unfold ret. cbn [fst snd]. rewrite map_map. cbn [snd Os.parent].
  f_equal. f_equal. f_equal.
  apply (filter_map_fst (fetched TrackLocation) (fun r => Os.Text (path_at r))).
  intros r Hr. destruct (Hloc r Hr) as (p & Hp). simpl.
  rewrite fetched_filename. symmetry. apply (orphaned_path listdir r p Hp).
Qed.

Lemma list_orphans_run (listdir : string -> Os.listing) (db : catalog) :
  has_table db TrackLocation = true ->
  (forall r, In r (rows_of db "track_locations") ->
             exists p, cell r "location" = VStr p) ->
  (forall r, In r (rows_of db "track_locations") ->
             Os.fails (listdir (dirname (path_at r))) = false) ->
  list_orphans listdir db
  = (Ok (map (fetched TrackLocation)
             (filter (orphaned listdir) (rows_of db "track_locations"))), db).
Proof.
  intros Hc Hloc Hdirs. unfold list_orphans, mbind.
  rewrite (scan_orphans_run listdir db Hc Hloc Hdirs). reflexivity.
Qed.

(** C7: the scan of [schemas.py] does not get as far as returning when
    a row records no path.  On a table whose rows all record a text
    path, and with no directory failing to list for a reason other than
    not existing, it returns exactly the rows whose recorded file name
    is absent from the listing of the parent directory of the recorded
    path, it lists the parent directories of the rows and no other,
    each one once, and it returns every row of a directory that does
    not exist (first part, and the shelf as an instance).  With one row
    whose location is null the whole scan raises, where the scan of
    [models.py] leaves that row out and reports the others. *)
Theorem list_orphans_null_location :
  (forall (listdir : string -> Os.listing) (db : catalog),
      has_table db TrackLocation = true ->
      (forall r, In r (rows_of db "track_locations") ->
                 exists p, cell r "location" = VStr p) ->
      (forall r, In r (rows_of db "track_locations") ->
                 Os.fails (listdir (dirname (path_at r))) = false) ->
      exists dirs,
        scan_orphans listdir db
        = (Ok (map (fetched TrackLocation)
                   (filter (orphaned listdir) (rows_of db "track_locations")),
               dirs), db)
        /\ list_orphans listdir db
           = (Ok (map (fetched TrackLocation)
                      (filter (orphaned listdir) (rows_of db "track_locations"))), db)
        /\ NoDup dirs
        /\ (forall d, In d dirs <->
                      exists r p, In r (rows_of db "track_locations")
                                  /\ cell r "location" = VStr p
                                  /\ d = Os.Text (dirname p))
        /\ (forall r p, In r (rows_of db "track_locations") ->
                        cell r "location" = VStr p ->
                        listdir (dirname p) = Os.FileNotFound ->
                        orphaned listdir r = true))
  /\ list_orphans Examples.music_only Examples.shelf
     = (Ok [ fetched TrackLocation
               (Examples.location_row 2 "/music/c.mp3" "/music" "c.mp3");
             fetched TrackLocation
               (Examples.location_row 3 "/gone/d.mp3" "/gone" "d.mp3") ],
        Examples.shelf)
  /\ list_orphans Examples.music_only Examples.shelf_with_null
     = (Raise (TypeError "expected str, bytes or os.PathLike object"),
        Examples.shelf_with_null)
  /\ Examples.run Examples.models_orphans Examples.shelf_with_null
     = (Ok [VStr "/music/c.mp3"; VStr "/gone/d.mp3"], Examples.shelf_with_null).
Proof.
  split; [|repeat split; vm_compute; reflexivity].
  intros listdir db Hc Hloc Hdirs.
  set (rows := rows_of db "track_locations") in *.
  exists (Os.distinct_paths (map (fun r => Os.Text (dirname (path_at r))) rows)).
  split; [apply (scan_orphans_run listdir db Hc Hloc Hdirs)|].
  split; [apply (list_orphans_run listdir db Hc Hloc Hdirs)|].
  split; [apply distinct_paths_NoDup|]. split.
  - intros d. rewrite distinct_paths_in, in_map_iff. split.
    + intros (r & <- & Hr). destruct (Hloc r Hr) as (p & Hp).
      exists r, p. split; [exact Hr|]. split; [exact Hp|].
      unfold path_at. rewrite Hp. reflexivity.
    + intros (r & p & Hr & Hp & ->). exists r. split; [|exact Hr].
      unfold path_at. rewrite Hp. reflexivity.
  - intros r p Hr Hp Hmissing. unfold orphaned. rewrite Hp, Hmissing. simpl.
    destruct (cell r "filename"); reflexivity.
Qed.

End OrphanFacts.

(** ** The command line tools *)

Module ToolFacts.
Import Py Sql Mixxxdb SqlFacts SchemaFacts OrphanFacts.

Section Tools.

Variable resolve : string -> string.
Variable read_only : string -> bool.
Variable glob : string -> string -> list string.
Variable guess_type : string -> option string.

Lemma list_locations (db : catalog) :
  Schemas.has_table db Schemas.TrackLocation = true ->
  Schemas.list_ Schemas.TrackLocation db
  = (Ok (map (Schemas.fetched Schemas.TrackLocation) (rows_of db "track_locations")), db).
Proof. intros H. apply (list_fetches db Schemas.TrackLocation H). discriminate. Qed.

Lemma scan_fold (fs : list (string * node)) (db : catalog) (locations : list value)
    (paths : list string) (lines : list line) :
  fold_left
    (fun w' path =>
       if is_file resolve (nodes w') path then
         if looks_like_audio guess_type path then
           if negb (val_in (VStr (resolve path)) locations)
           then say (Orphan path) w' else w'
         else w'
       else w')
    paths (mkWorld fs db lines)
  = mkWorld fs db
      (lines ++ map Orphan
         (filter (fun path => is_file resolve fs path
                              && looks_like_audio guess_type path
                              && negb (val_in (VStr (resolve path)) locations))
                 paths)).
Proof.
  revert lines. induction paths as [|p paths IH]; intros lines; simpl.
  - rewrite app_nil_r. reflexivity.
  - destruct (is_file resolve fs p); simpl; [|apply IH].
    destruct (looks_like_audio guess_type p); simpl; [|apply IH].
    destruct (val_in (VStr (resolve p)) locations); simpl; [apply IH|].
    unfold say. simpl. rewrite IH. rewrite <- app_assoc. reflexivity.
Qed.

(** C8, as the code has it: the filesystem-side scan writes, in the
    order of the walk (recursive exactly when the flag is set), the
    regular files whose guessed type is audio and whose resolved path
    is not literally one of the recorded locations; the recorded
    locations are compared as stored.  Nothing else is changed. *)
Theorem list_orphan_files_reports (source : string) (recursive : bool) (w : world) :
  Schemas.has_table (db w) Schemas.TrackLocation = true ->
  list_orphan_files resolve glob guess_type source recursive w
  = (Ok tt,
     mkWorld (nodes w) (db w)
       (written w
        ++ map Orphan (unrecorded_audio resolve glob guess_type source recursive w))).
Proof.
  intros H. unfold list_orphan_files. rewrite (list_locations (db w) H).
  rewrite map_map.
  rewrite (map_ext _ (fun r => cell r "location")) by reflexivity.
  destruct w as [fs d lines]. simpl nodes. simpl db. simpl written.
  f_equal. unfold unrecorded_audio, pattern, recorded. simpl nodes. simpl db.
  destruct recursive; apply scan_fold.
Qed.


End Tools.

Lemma list_orphan_files_reports_witness :
  list_orphan_files Examples.plain Examples.walk Examples.by_suffix "/music" false
    (mkWorld Examples.tree Examples.linked [])
  = (Ok tt, mkWorld Examples.tree Examples.linked [Orphan "/music/a.mp3"]).
Proof.
  refine (list_orphan_files_reports Examples.plain Examples.walk Examples.by_suffix
            "/music" false (mkWorld Examples.tree Examples.linked []) _).
  vm_compute. reflexivity.
Defined.

(** C8 as stated fails: the catalog records [/link/a.mp3], which
    resolves to the scanned file [/music/a.mp3]; the file is reported
    all the same, while the scan that resolves the recorded locations
    reports nothing. *)
Lemma list_orphan_files_misses_links :
  written (snd (list_orphan_files Examples.through_link Examples.walk Examples.by_suffix
                  "/music" false (mkWorld Examples.tree Examples.linked [])))
  = [Orphan "/music/a.mp3"]
  /\ spec_unrecorded_audio Examples.through_link Examples.walk Examples.by_suffix
       "/music" false (mkWorld Examples.tree Examples.linked [])
     = []
  /\ Examples.through_link "/link/a.mp3" = "/music/a.mp3".
Proof. repeat split; vm_compute; reflexivity. Qed.


End ToolFacts.

(** ** Moving files *)

Module MoveFacts.
Import Py Sql Mixxxdb Examples StoreFacts.

Section Moves.

Variable resolve : string -> string.
Variable read_only : string -> bool.

(** [update_db] leaves the storage file as it was, whatever the rows
    it rewrites in memory. *)
Lemma update_db_keeps (src dest : string) (locations : list Schemas.obj)
    (d : catalog) (flag : bool) :
  snd (update_db src dest locations d flag) = d.
Proof.
  revert d flag. induction locations as [|l ls IH]; intros d flag; simpl; [reflexivity|].
  destruct (located_at l src).
  - pose proof (reads_schema_update (retarget l dest) d) as Hu.
    destruct (Schemas.update (retarget l dest) d) as [[u|e] d']; simpl in Hu; subst d'.
    + specialize (IH d true).
      destruct (update_db src dest ls d true) as [[r rest'] d'']. exact IH.
    + reflexivity.
  - specialize (IH d flag).
    destruct (update_db src dest ls d flag) as [[r rest'] d'']. exact IH.
Qed.

Lemma move_one_keeps (destdir source : string) (locations : list Schemas.obj)
    (w : world) :
  db (snd (move_one resolve read_only destdir source locations w)) = db w.
Proof.
  unfold move_one. destruct (is_file resolve (nodes w) source); [|reflexivity].
  destruct (rename resolve read_only source _ (nodes w)) as [fs'|e]; [|reflexivity].
  pose proof (update_db_keeps (resolve source)
                (joinpath destdir (path_name source)) locations (db w) false) as Hk.
  destruct (update_db (resolve source) _ locations (db w) false) as [[[u|e] ls'] d'];
    simpl in Hk; subst d'; [reflexivity|].
  simpl. destruct (rename resolve read_only _ source fs'); reflexivity.
Qed.

Lemma move_each_keeps (destdir : string) (sources : list string)
    (locations : list Schemas.obj) (w : world) :
  db (snd (move_each resolve read_only destdir sources locations w)) = db w.
Proof.
  revert locations w. induction sources as [|s ss IH]; intros locations w; simpl;
    [reflexivity|].
  pose proof (move_one_keeps destdir s locations w) as Hk.
  destruct (move_one resolve read_only destdir s locations w) as [[[u|e] ls'] w'];
    simpl in Hk; [|exact Hk].
  rewrite IH. exact Hk.
Qed.

Lemma move_files_keeps (sources : list string) (destination : string) (w : world) :
  db (snd (move_files resolve read_only sources destination w)) = db w.
Proof.
  unfold move_files.
  destruct (Schemas.list_ Schemas.TrackLocation (db w)) as [[ls|e] d]; [|reflexivity].
  destruct (negb (is_dir resolve (nodes w) (resolve destination))); [reflexivity|].
  apply move_each_keeps.
Qed.

End Moves.

(** C2: a move never updates the row.  Whatever the sources, the
    destination and the file tree, [move_files] leaves the storage file
    as it was: the statement [BaseSchema.update] sends is not committed.
    Moving [/music/a.mp3] to [/dest] puts the file there and writes
    that the catalog was updated, and the row still records
    [/music/a.mp3], where no file is any more. *)
Theorem move_files_never_updates :
  (forall (resolve : string -> string) (read_only : string -> bool)
          (sources : list string) (destination : string) (w : world),
      db (snd (move_files resolve read_only sources destination w)) = db w)
  /\ move_files plain unlocked ["/music/a.mp3"] "/dest" (mkWorld tree small [])
     = (Ok tt, mkWorld moved small [MovedUpdated "/music/a.mp3" "/dest/a.mp3"])
  /\ is_file plain moved "/dest/a.mp3" = true
  /\ is_file plain moved "/music/a.mp3" = false
  /\ recorded small = [VStr "/music/a.mp3"].
Proof.
  split; [intros; apply move_files_keeps|].
  repeat split; vm_compute; reflexivity.
Qed.

End MoveFacts.

(** ** Paths *)

Module PathFacts.
Import Py.

Example dirname_file : dirname "/music/a/b.mp3" = "/music/a".
Proof. reflexivity. Qed.

Example dirname_root : dirname "/b.mp3" = "/".
Proof. reflexivity. Qed.

Example dirname_relative : dirname "b.mp3" = "".
Proof. reflexivity. Qed.

Example dirname_doubled_slash : dirname "/music//b.mp3" = "/music".
Proof. reflexivity. Qed.

Example basename_file : basename "/music/a/b.mp3" = "b.mp3".
Proof. reflexivity. Qed.

Example joinpath_root : Mixxxdb.joinpath "/" "a.mp3" = "/a.mp3".
Proof. reflexivity. Qed.

Example joinpath_dir : Mixxxdb.joinpath "/dest" "a.mp3" = "/dest/a.mp3".
Proof. reflexivity. Qed.

End PathFacts.

(* ================================================================== *)
(** * Further properties of the package *)

(** ** The engine of [db.py] *)

Module EngineFacts.
Import Py Sql Db SqlFacts SchemaFacts.

Section Engine.

Variable isoparse : string -> option string.

Lemma mbind_ext {S A B} (m : ST S A) (k1 k2 : A -> ST S B) (st : S) :
  (forall a st', m st = (Ok a, st') -> k1 a st' = k2 a st') ->
  mbind m k1 st = mbind m k2 st.
Proof.
  intros H. unfold mbind. destruct (m st) as [[a|e] st']; [|reflexivity].
  apply H. reflexivity.
Qed.

Lemma meta_of_inv (cls : string) (st st' : state) (m : ModelMeta) :
  meta_of cls st = (Ok m, st') -> lookup cls (metas st) = Some m /\ st' = st.
Proof.
  unfold meta_of. destruct (lookup cls (metas st)); intros H; inversion H; auto.
Qed.

(** Conditions on names that are not columns of the class are dropped
    by [Model.list]: the call fetches what it fetches without them. *)
Theorem list_ignores_unknown (cls : string)
    (conds extra conds' : list (string * cond_arg)) (st : state) :
  (forall m kv, lookup cls (metas st) = Some m -> In kv extra ->
                str_in (fst kv) (map fst (base_fields m)) = false) ->
  list_ isoparse cls (conds ++ extra ++ conds') st
  = list_ isoparse cls (conds ++ conds') st.
Proof.
  intros H. unfold list_. apply mbind_ext. intros m st' Hm.
  apply meta_of_inv in Hm. destruct Hm as [Hm ->].
  rewrite !filter_app.
  rewrite (filter_none_in _ extra); [reflexivity|].
  intros kv Hkv. apply (H m kv Hm Hkv).
Qed.

(** A condition with an empty sequence of values makes [Model.list]
    send [WHERE ()], which the storage rejects. *)
Lemma list_empty_sequence (cls k tbl : string) (st : state) (m : ModelMeta)
    (a : nat) (f : Field) (t : Sql.table) :
  lookup cls (metas st) = Some m ->
  lookup k (base_fields m) = Some a ->
  nth_error (heap st) a = Some f ->
  Db.table m = Some tbl ->
  lookup tbl (store st) = Some t ->
  list_ isoparse cls [(k, Many [])] st = (Raise malformed, st).
Proof.
  intros Hm Hk Ha Ht Hl.
  assert (Hin : str_in k (map fst (base_fields m)) = true).
  { unfold lookup in Hk. destruct (find _ (base_fields m)) as [kv|] eqn:Hf; [|discriminate].
    apply find_some in Hf. destruct Hf as [Hin Heq].
    unfold str_in. apply existsb_exists. exists (fst kv). split.
    - apply in_map. exact Hin.
    - rewrite String.eqb_sym. exact Heq. }
  unfold list_. unfold mbind at 1. unfold meta_of at 1. rewrite Hm.
  cbn [filter fst snd]. rewrite Hin.
  unfold mbind at 1. cbn [mmap]. unfold mbind at 1. cbn [fst snd]. rewrite Hk.
  unfold mbind at 1. unfold deref at 1. rewrite Ha.
  cbn [as_sequence mmap]. unfold ret at 1. unfold mbind at 1.
  unfold ret at 1. unfold ret at 1.
  unfold mbind at 1. unfold meta_table, mbind, meta_of. rewrite Hm, Ht.
  unfold ret, execute, exec. rewrite Hl. reflexivity.
Qed.


(** [Model.get] of an identity no row has. *)
Lemma get_not_found (cls tbl idc : string) (st : state) (m : ModelMeta) (a : nat)
    (f : Field) (t : Sql.table) (z : Z) :
  lookup cls (metas st) = Some m ->
  Db.table m = Some tbl -> Db.id_column m = Some idc -> id_field m = Some a ->
  nth_error (heap st) a = Some f -> f_kind f = IntegerField ->
  lookup tbl (store st) = Some t ->
  base_fields m <> [] ->
  forallb (has_column t) (map fst (base_fields m)) = true ->
  has_column t idc = true ->
  (forall r, In r (t_rows t) -> exists z', cell r idc = VInt z' /\ z' <> z) ->
  get isoparse cls (VInt z) st
  = (Raise (ValueError (DoesNotExist cls (VInt z))), st).
Proof.
  intros Hm Ht Hi Hf Ha Hk Hl Hne Hcols Hidc Hrows.
  destruct st as [h ms sto]. destruct m as [bf tb ic idf]. simpl in *. subst tb ic idf.
  destruct f as [k n v d]. simpl in Hk. subst k.
  unfold get, meta_table, meta_id_column, meta_id_field, meta_of, deref, mbind,
    ret, raise, lift, execute.
  cbn -[exec from_tuple].
  repeat (first [rewrite Hm | rewrite Ha]; cbn -[exec from_tuple]).
  unfold exec. rewrite Hl. cbn [where_parses where_columns frag_ok is_bare negb orb].
  assert (Hlen : Nat.eqb (List.length (map fst bf)) 0 = false)
    by (destruct bf; [congruence | reflexivity]).
  rewrite Hlen, forallb_app, Hcols. cbn [forallb andb negb]. rewrite Hidc.
  cbn [andb negb].
  rewrite filter_none_in; [reflexivity|].
  intros r Hr. destruct (Hrows r Hr) as (z' & Hz & Hne').
  unfold matches, holds, frag_holds. cbn [fst snd]. rewrite Hz. cbn [lit_eq].
  apply Z.eqb_neq. exact Hne'.
Qed.

End Engine.

Lemma list_ignores_unknown_witness :
  list_ Examples.isoparse "TrackLocation"
    ([] ++ [("colour", One (VInt 1))] ++ []) (Models.start Examples.small)
  = list_ Examples.isoparse "TrackLocation" ([] ++ []) (Models.start Examples.small).
Proof.
  apply (list_ignores_unknown Examples.isoparse "TrackLocation" []
           [("colour", One (VInt 1))] [] (Models.start Examples.small)).
  intros m kv Hm [<-|[]]. vm_compute in Hm. inversion Hm. reflexivity.
Defined.


End EngineFacts.

(** ** The classes of [models.py] on a storage file *)

Module ModelEngineFacts.
Import Py Sql Db SqlFacts SchemaFacts EmptyBulkDelete EngineFacts.

Lemma has_columns_subset (t : Sql.table) (cols names : list string) :
  forallb (has_column t) cols = true ->
  forallb (fun n => str_in n cols) names = true ->
  forallb (has_column t) names = true.
Proof.
  intros Hc Hn. apply forallb_forall. intros n Hin.
  rewrite forallb_forall in Hn. specialize (Hn n Hin).
  unfold str_in in Hn. apply existsb_exists in Hn. destruct Hn as (c & Hc' & E).
  apply String.eqb_eq in E. subst c. apply (has_column_in t cols n Hc Hc').
Qed.

Section OnFile.

Variable isoparse : string -> option string.
Variable db : catalog.
Hypothesis mixxx : Schemas.mixxx_file db = true.

Lemma table_of (c : Schemas.schema) :
  In c Schemas.entity_types ->
  exists t, lookup (Schemas.table c) db = Some t
            /\ forallb (has_column t) (Schemas.columns c) = true.
Proof. intros Hin. apply has_table_inv. apply mixxx_file_has; assumption. Qed.

Lemma list_cues_of_nothing :
  list_ isoparse "Cue" [("track_id", Many [])] (Models.start db)
  = (Raise malformed, Models.start db).
Proof.
  destruct (table_of Schemas.Cue) as (t & Ht & _); [simpl; tauto|].
  rewrite start_store.
  eapply list_empty_sequence;
    [ vm_compute; reflexivity | vm_compute; reflexivity | vm_compute; reflexivity
    | reflexivity | exact Ht ].
Qed.

Lemma list_analyses_of_nothing :
  list_ isoparse "TrackAnalysis" [("track_id", Many [])] (Models.start db)
  = (Raise malformed, Models.start db).
Proof.
  destruct (table_of Schemas.TrackAnalysis) as (t & Ht & _); [simpl; tauto|].
  rewrite start_store.
  eapply list_empty_sequence;
    [ vm_compute; reflexivity | vm_compute; reflexivity | vm_compute; reflexivity
    | reflexivity | exact Ht ].
Qed.

(** In [models.py], [Track.bulk_delete] and [TrackLocation.bulk_delete]
    of no rows raise: the first statement deletes nothing, and the
    cascade then lists the dependents of an empty sequence of ids, which
    the storage rejects.  Nothing is changed. *)
Theorem models_bulk_delete_nothing_raises :
  Models.Track_bulk_delete isoparse [] (Models.start db)
  = (Raise malformed, Models.start db)
  /\ Models.TrackLocation_bulk_delete isoparse [] (Models.start db)
     = (Raise malformed, Models.start db).
Proof.
  split.
  - unfold Models.Track_bulk_delete, Models.ids_of. cbn [mmap].
    unfold mbind at 1. unfold ret at 1. unfold mbind at 1.
    rewrite (model_bulk_delete_nil db "Track" Schemas.Track mixxx)
      by (simpl; tauto).
    unfold mbind at 1. rewrite list_cues_of_nothing. reflexivity.
  - unfold Models.TrackLocation_bulk_delete, Models.ids_of. cbn [mmap].
    unfold mbind at 1. unfold ret at 1. unfold mbind at 1.
    rewrite (model_bulk_delete_nil db "TrackLocation" Schemas.TrackLocation mixxx)
      by (simpl; tauto).
    unfold mbind at 1. rewrite list_analyses_of_nothing. reflexivity.
Qed.

(** [Model.get] raises the not-found error, and changes nothing, when
    every row of the table has an integer identity other than the one
    asked for. *)
Theorem get_missing (cls : string) (c : Schemas.schema) (z : Z) :
  In (cls, c) Schemas.keyed_models ->
  (forall r, In r (rows_of db (Schemas.table c)) ->
             exists z', cell r "id" = VInt z' /\ z' <> z) ->
  get isoparse cls (VInt z) (Models.start db)
  = (Raise (ValueError (DoesNotExist cls (VInt z))), Models.start db).
Proof.
  intros Hin Hrows.
  assert (Hc : In c Schemas.entity_types).
  { unfold Schemas.keyed_models in Hin. simpl in Hin.
    destruct Hin as [E|[E|[E|[E|[E|[]]]]]]; inversion E; simpl; tauto. }
  destruct (table_of c Hc) as (t & Ht & Hcols).
  unfold rows_of in Hrows. rewrite Ht in Hrows.
  rewrite start_store.
  unfold Schemas.keyed_models in Hin. simpl in Hin.
  destruct Hin as [E|[E|[E|[E|[E|[]]]]]]; inversion E; subst cls c;
    (eapply get_not_found;
     [ vm_compute; reflexivity | reflexivity | reflexivity | reflexivity
     | vm_compute; reflexivity | reflexivity | exact Ht | discriminate
     | apply (has_columns_subset t _ _ Hcols); vm_compute; reflexivity
     | apply (has_column_in t _ "id" Hcols); simpl; tauto
     | exact Hrows ]).
Qed.

End OnFile.

Lemma models_bulk_delete_nothing_raises_witness :
  Models.Track_bulk_delete Examples.isoparse [] (Models.start Examples.small)
  = (Raise malformed, Models.start Examples.small)
  /\ Models.TrackLocation_bulk_delete Examples.isoparse [] (Models.start Examples.small)
     = (Raise malformed, Models.start Examples.small).
Proof.
  apply (models_bulk_delete_nothing_raises Examples.isoparse Examples.small).
  vm_compute. reflexivity.
Defined.

Lemma get_missing_witness :
  get Examples.isoparse "Cue" (VInt 8) (Models.start Examples.small)
  = (Raise (ValueError (DoesNotExist "Cue" (VInt 8))), Models.start Examples.small).
Proof.
  apply (get_missing Examples.isoparse Examples.small) with (c := Schemas.Cue).
  - vm_compute. reflexivity.
  - simpl. tauto.
  - simpl. intros r [<-|[]]. exists 7%Z. split; [reflexivity | discriminate].
Defined.

End ModelEngineFacts.

(** ** The orphan command *)

Module OrphanCommandFacts.
Import Py Sql Schemas Mixxxdb SqlFacts SchemaFacts OsFacts OrphanFacts.

Lemma list_orphans_scanned (listdir : string -> Os.listing) (db : catalog) :
  has_table db TrackLocation = true ->
  (forall r, In r (rows_of db "track_locations") ->
             exists p, cell r "location" = VStr p) ->
  (forall d, In d (scanned_dirs (rows_of db "track_locations")) ->
             Os.fails (listdir d) = false) ->
  list_orphans listdir db
  = (Ok (map (fetched TrackLocation)
             (filter (orphaned listdir) (rows_of db "track_locations"))), db).
Proof.
  intros Hc Hloc Hdirs. apply (list_orphans_run listdir db Hc Hloc).
  intros r Hr. apply Hdirs.
  rewrite (scanned_dirs_paths _ Hloc).
  apply (proj2 (distinct_in _ _)). apply (proj2 (in_map_iff _ _ _)).
  exists r. split; [reflexivity | exact Hr].
Qed.

Lemma print_each (rs : list row) (fs : list (string * node)) (d : catalog)
    (lines : list line) :
  (forall r, In r rs -> exists p, cell r "location" = VStr p) ->
  print_locations (map (fetched TrackLocation) rs) (mkWorld fs d lines)
  = (Ok tt, mkWorld fs d (lines ++ map (fun r => Orphan (path_at r)) rs)).
Proof.
  revert lines. induction rs as [|r rs IH]; intros lines H; simpl.
  - rewrite app_nil_r. reflexivity.
  - destruct (H r (or_introl eq_refl)) as (p & Hp).
    change (getattr (fetched TrackLocation r) "location") with (Ok (cell r "location")).
    unfold path_at at 1. rewrite Hp. unfold say. simpl.
    rewrite IH by (intros r' Hr'; apply H; right; exact Hr').
    rewrite <- app_assoc. reflexivity.
Qed.

(** [list_orphan_locations] writes the recorded path of every orphaned
    row, in the order of the table, and changes nothing else. *)
Theorem list_orphan_locations_prints (listdir : string -> Os.listing) (w : world) :
  has_table (db w) TrackLocation = true ->
  (forall r, In r (rows_of (db w) "track_locations") ->
             exists p, cell r "location" = VStr p) ->
  (forall d, In d (scanned_dirs (rows_of (db w) "track_locations")) ->
             Os.fails (listdir d) = false) ->
  list_orphan_locations listdir w
  = (Ok tt,
     mkWorld (nodes w) (db w)
       (written w
        ++ map (fun r => Orphan (path_at r))
               (filter (orphaned listdir) (rows_of (db w) "track_locations")))).
Proof.
  intros Hc Hloc Hdirs. unfold list_orphan_locations.
  rewrite (list_orphans_scanned listdir (db w) Hc Hloc Hdirs).
  destruct w as [fs d lines]. simpl nodes. simpl db. simpl written.
  rewrite print_each; [reflexivity|].
  intros r Hr. apply filter_In in Hr. apply Hloc. tauto.
Qed.

Lemma list_orphan_locations_prints_witness :
  list_orphan_locations Examples.music_only (mkWorld [] Examples.shelf [])
  = (Ok tt, mkWorld [] Examples.shelf [Orphan "/music/c.mp3"; Orphan "/gone/d.mp3"]).
Proof.
  refine (list_orphan_locations_prints Examples.music_only
            (mkWorld [] Examples.shelf []) _ _ _).
  - vm_compute. reflexivity.
  - simpl. intros r [<-|[<-|[<-|[]]]]; eexists; reflexivity.
  - simpl. intros d [<-|[<-|[]]]; reflexivity.
Defined.

End OrphanCommandFacts.

(** ** Reading through [schemas.py] *)

Module SchemaReadFacts.
Import Py Sql Schemas SqlFacts SchemaFacts OsFacts OrphanFacts.

Lemma lookup_combine {A} (f : string -> A) (cols : list string) (col : string) :
  In col cols -> lookup col (combine cols (map f cols)) = Some (f col).
Proof.
  induction cols as [|c cols IH]; simpl; [tauto|]. intros H.
  rewrite lookup_cons. destruct (String.eqb_spec c col) as [E|N].
  - subst. reflexivity.
  - destruct H as [H|H]; [congruence|]. apply IH. exact H.
Qed.

(** [BaseSchema.list] builds one object for each row of the table, in
    the order of the table; each object answers a declared column with
    the stored value; the storage file is not changed. *)
Theorem list_reads_rows (c : schema) (db : catalog) :
  has_table db c = true -> columns c <> [] ->
  list_ c db = (Ok (map (fetched c) (rows_of db (table c))), db)
  /\ (forall r col, In col (columns c) -> getattr (fetched c r) col = Ok (cell r col)).
Proof.
  intros Hc Hne. split; [apply list_fetches; assumption|].
  intros r col Hin. unfold getattr, fetched, init. simpl.
  rewrite (lookup_combine (cell r) (columns c) col Hin). reflexivity.
Qed.


(** An integer in an [IN] list of integers. *)
Lemma in_list_matches (a : affinity) (z : Z) (ids : list Z) :
  existsb (lit_eq a (VInt z)) (map LInt ids) = existsb (Z.eqb z) ids.
Proof. induction ids as [|i ids IH]; simpl; [reflexivity|]. rewrite IH. reflexivity. Qed.

Lemma null_matches_nothing (a : affinity) (ls : list lit) :
  existsb (lit_eq a VNone) ls = false.
Proof. induction ls as [|l ls IH]; simpl; [reflexivity|]. exact IH. Qed.

Lemma integers_parse (ids : list Z) :
  forallb (fun l => negb (is_bare l)) (map LInt ids) = true.
Proof. induction ids as [|i ids IH]; simpl; [reflexivity | exact IH]. Qed.

Lemma pasted_integers (ids : list Z) : map Db.pasted (map VInt ids) = map LInt ids.
Proof. rewrite map_map. reflexivity. Qed.

Lemma plain_spared (a : affinity) (col : string) (ids : list Z) (r : row) :
  Examples.plain_key col r = true ->
  Examples.refers col ids r = false ->
  existsb (lit_eq a (cell r col)) (map LInt ids) = false.
Proof.
  unfold Examples.plain_key, Examples.refers.
  destruct (cell r col); try discriminate; intros _ H.
  - apply null_matches_nothing.
  - rewrite in_list_matches. exact H.
Qed.

Lemma referring_matches (a : affinity) (col : string) (ids : list Z) (r : row) :
  Examples.refers col ids r = true ->
  existsb (lit_eq a (cell r col)) (map LInt ids) = true.
Proof.
  unfold Examples.refers. destruct (cell r col); try discriminate.
  rewrite in_list_matches. tauto.
Qed.

Lemma ids_of_objects (objs : list obj) (idc : string) (ids : list Z) (db : catalog) :
  Forall2 (fun o z => getattr o idc = Ok (VInt z)) objs ids ->
  mmap (fun o => lift (getattr o idc)) objs db = (Ok (map VInt ids), db).
Proof.
  induction 1 as [|o z objs ids Ho _ IH]; simpl; [reflexivity|].
  unfold mbind, lift. rewrite Ho. unfold lift in IH. rewrite IH. reflexivity.
Qed.

Lemma exec_select_in (db : catalog) (tbl col : string) (cols : list string)
    (ids : list Z) (t : Sql.table) :
  lookup tbl db = Some t -> cols <> [] ->
  forallb (has_column t) cols = true -> has_column t col = true ->
  exec (Select cols tbl (WIn col (map LInt ids))) db
  = Ok (map (fun r => map (cell r) cols)
            (filter (fun r => existsb (lit_eq (affinity_of t col) (cell r col))
                                      (map LInt ids)) (t_rows t))).
Proof.
  intros Ht Hne Hcols Hc.
  assert (Hlen : Nat.eqb (List.length cols) 0 = false)
    by (destruct cols; [congruence | reflexivity]).
  unfold exec.
  cbn [where_parses]. rewrite integers_parse, Hlen. cbn [negb orb].
  rewrite Ht, forallb_app, Hcols, (in_columns_found t col _ Hc). reflexivity.
Qed.

(** [BaseSchema.bulk_delete] of rows with integer identities sends a
    statement that the storage accepts. *)
Lemma bulk_delete_accepted (c : schema) (idc : string) (objs : list obj)
    (ids : list Z) (db : catalog) :
  has_table db c = true -> id_column c = Some idc -> In idc (columns c) ->
  Forall2 (fun o z => getattr o idc = Ok (VInt z)) objs ids ->
  bulk_delete c objs db = (Ok tt, db).
Proof.
  intros Hc Hid Hin Hobjs. destruct (has_table_inv db c Hc) as (t & Ht & Hcols).
  unfold bulk_delete. rewrite Hid. unfold mbind at 1.
  rewrite (ids_of_objects objs idc ids db Hobjs).
  unfold mbind, execute, exec. rewrite pasted_integers.
  cbn [where_parses]. rewrite integers_parse. cbn [negb]. rewrite Ht.
  rewrite (in_columns_found t idc _ (has_column_in t (columns c) idc Hcols Hin)).
  reflexivity.
Qed.

(** [TrackLocation.bulk_delete] of [schemas.py], on rows with integer
    identities: when a library row refers to one of the locations,
    [Track.list_by_locations] raises [TypeError] on the fetched tuple;
    when none does, the three steps go through and the call returns.
    The storage file is as before in both cases. *)
Theorem TrackLocation_bulk_delete_cases (objs : list obj) (ids : list Z)
    (db : catalog) :
  mixxx_file db = true ->
  Forall2 (fun o z => getattr o "id" = Ok (VInt z)) objs ids ->
  (forall r, In r (rows_of db "library") -> Examples.plain_key "location" r = true) ->
  TrackLocation_bulk_delete objs db
  = (if existsb (Examples.refers "location" ids) (rows_of db "library")
     then Raise (TypeError "argument after ** must be a mapping, not tuple")
     else Ok tt,
     db).
Proof.
  intros Hm Hobjs Hplain.
  destruct (has_table_inv db Track (mixxx_file_has db Track Hm ltac:(simpl; tauto)))
    as (t & Ht & Hcols).
  assert (Hloc : has_column t "location" = true)
    by (apply (has_column_in t (columns Track)); [exact Hcols | simpl; tauto]).
  assert (Hrows : rows_of db "library" = t_rows t).
  { unfold rows_of. simpl in Ht. rewrite Ht. reflexivity. }
  assert (Hlist : list_by_locations objs db
                  = match filter (fun r => existsb (lit_eq (affinity_of t "location")
                                                           (cell r "location"))
                                                   (map LInt ids)) (t_rows t) with
                    | [] => (Ok [], db)
                    | _ :: _ =>
                        (Raise (TypeError "argument after ** must be a mapping, not tuple"), db)
                    end).
  { unfold list_by_locations, before_cursor. unfold mbind at 1. unfold mbind at 1.
    rewrite (ids_of_objects objs "id" ids db Hobjs).
    unfold execute. rewrite pasted_integers.
    rewrite (exec_select_in db (table Track) "location" (columns Track) ids t Ht)
      by (discriminate || assumption).
    destruct (filter _ (t_rows t)); reflexivity. }
  destruct (existsb (Examples.refers "location" ids) (rows_of db "library")) eqn:Hex.
  - apply existsb_exists in Hex. destruct Hex as (r & Hr & Href).
    unfold TrackLocation_bulk_delete. unfold mbind at 1. rewrite Hlist.
    rewrite Hrows in Hr.
    assert (Hin : In r (filter (fun r => existsb (lit_eq (affinity_of t "location")
                                                         (cell r "location"))
                                                 (map LInt ids)) (t_rows t))).
    { apply filter_In. split; [exact Hr | apply referring_matches; exact Href]. }
    destruct (filter _ (t_rows t)); [destruct Hin | reflexivity].
  - assert (Hnone : filter (fun r => existsb (lit_eq (affinity_of t "location")
                                                     (cell r "location"))
                                             (map LInt ids)) (t_rows t) = []).
    { apply filter_none_in. intros r Hr. rewrite <- Hrows in Hr.
      apply plain_spared; [apply Hplain; exact Hr|].
      destruct (Examples.refers "location" ids r) eqn:E; [|reflexivity].
      assert (existsb (Examples.refers "location" ids) (rows_of db "library") = true)
        by (apply existsb_exists; exists r; split; assumption).
      congruence. }
    unfold TrackLocation_bulk_delete. unfold mbind at 1. rewrite Hlist, Hnone.
    unfold mbind at 1. rewrite (Track_bulk_delete_nil db Hm).
    apply (bulk_delete_accepted TrackLocation "id" objs ids db);
      [apply mixxx_file_has; [exact Hm | simpl; tauto] | reflexivity | simpl; tauto
      | exact Hobjs ].
Qed.

Lemma list_reads_rows_witness :
  list_ Cue Examples.small
  = (Ok (map (fetched Cue) (rows_of Examples.small (table Cue))), Examples.small)
  /\ (forall r col, In col (columns Cue) -> getattr (fetched Cue r) col = Ok (cell r col)).
Proof.
  apply (list_reads_rows Cue Examples.small).
  - vm_compute. reflexivity.
  - discriminate.
Defined.


Lemma TrackLocation_bulk_delete_cases_witness :
  TrackLocation_bulk_delete
    [ fetched TrackLocation (Examples.location_row 1 "/music/a.mp3" "/music" "a.mp3");
      fetched TrackLocation (Examples.location_row 3 "/gone/d.mp3" "/gone" "d.mp3") ]
    Examples.shelf
  = (Ok tt, Examples.shelf).
Proof.
  refine (TrackLocation_bulk_delete_cases _ [1%Z; 3%Z] Examples.shelf _ _ _).
  - vm_compute. reflexivity.
  - repeat constructor.
  - simpl. intros r [].
Defined.

End SchemaReadFacts.

(** ** Building instances *)

Module InitFacts.
Import Py Sql Db SqlFacts EngineFacts.
Local Open Scope list_scope.

Section Init.
Variable isoparse : string -> option string.

Lemma copy_fields (bf : list (string * nat)) (templ : list Field) :
  forall st,
    Forall2 (fun na f => nth_error (heap st) (snd na) = Some f) bf templ ->
    mmap (fun na => f <- deref (snd na) ;; a <- alloc f ;; ret (fst na, a)) bf st
    = (Ok (combine (map fst bf) (seq (List.length (heap st)) (List.length bf))),
       mkState (heap st ++ templ) (metas st) (store st)).
Proof.
  revert templ. induction bf as [|[n a] bf IH]; intros templ st H.
  - inversion H. subst. simpl. rewrite app_nil_r. destruct st; reflexivity.
  - inversion H as [|x f xs templ' Hf Hrest]. subst. simpl in Hf.
    cbn [mmap]. unfold mbind at 1. unfold mbind at 1. unfold deref at 1.
    cbn [snd fst]. rewrite Hf. unfold mbind at 1. unfold alloc at 1. unfold ret at 1.
    unfold mbind at 1.
    rewrite (IH templ' (mkState (heap st ++ [f]) (metas st) (store st))).
    + unfold ret. cbn [heap metas store]. rewrite length_app. simpl.
      rewrite Nat.add_1_r. rewrite <- app_assoc. reflexivity.
    + cbn [heap]. eapply Forall2_impl; [|exact Hrest].
      intros [n' a'] f' Hn. simpl in *. rewrite nth_error_app1; [exact Hn|].
      apply nth_error_Some. congruence.
Qed.

Lemma set_nth_middle {A} (h done : list A) (y x : A) (todo : list A) :
  set_nth (List.length h + List.length done) x (h ++ done ++ y :: todo)
  = h ++ done ++ x :: todo.
Proof.
  induction h as [|a h IH]; simpl.
  - induction done as [|d done IHd]; simpl; [reflexivity|]. rewrite IHd. reflexivity.
  - rewrite IH. reflexivity.
Qed.

Lemma nth_middle_cell {A} (h done : list A) (y : A) (todo : list A) :
  nth_error (h ++ done ++ y :: todo) (List.length h + List.length done) = Some y.
Proof.
  rewrite nth_error_app2 by lia.
  replace (List.length h + List.length done - List.length h) with (List.length done) by lia.
  rewrite nth_error_app2 by lia. rewrite Nat.sub_diag. reflexivity.
Qed.

(** The loop of [__init__] over the copied descriptors. *)
Lemma bind_fields (kwargs : list (string * value)) (ms : list (string * ModelMeta))
    (sto : catalog) (h : list Field) :
  forall (names : list string) (todo vals : list Field) (done : list Field),
    List.length names = List.length todo ->
    Forall2 (fun nf f' => exists v, bound isoparse kwargs (fst nf) (f_kind (snd nf)) = Ok v
                                    /\ f' = set_value (snd nf) v)
            (combine names todo) vals ->
    mfor (fun na =>
            f <- deref (snd na) ;;
            match lookup (fst na) kwargs with
            | Some v =>
                v' <- lift (to_python isoparse (f_kind f) v) ;;
                assign_value (snd na) v'
            | None => assign_value (snd na) VNone
            end)
         (combine names (seq (List.length h + List.length done) (List.length todo)))
         (mkState (h ++ done ++ todo) ms sto)
    = (Ok tt, mkState (h ++ done ++ vals) ms sto).
Proof.
  induction names as [|n names IH]; intros todo vals done Hlen Hvals.
  - destruct todo; [|discriminate]. simpl in Hvals. inversion Hvals. reflexivity.
  - destruct todo as [|y todo]; [discriminate|]. simpl in Hlen. injection Hlen as Hlen.
    simpl in Hvals. inversion Hvals as [|x f' xs vals' (v & Hv & Hf') Hrest]. subst.
    cbn [List.length seq combine mfor]. unfold mbind at 1. unfold mbind at 1.
    unfold deref at 1. cbn [snd fst heap].
    rewrite nth_middle_cell. unfold bound in Hv. cbn [fst snd] in Hv.
    assert (Hstep :
      (match lookup n kwargs with
       | Some v0 => v' <- lift (to_python isoparse (f_kind y) v0) ;;
                    assign_value (List.length h + List.length done) v'
       | None => assign_value (List.length h + List.length done) VNone
       end) (mkState (h ++ done ++ y :: todo) ms sto)
      = (Ok tt, mkState (h ++ done ++ set_value y v :: todo) ms sto)).
    { assert (Hassign : forall u,
        assign_value (List.length h + List.length done) u
          (mkState (h ++ done ++ y :: todo) ms sto)
        = (Ok tt, mkState (h ++ done ++ set_value y u :: todo) ms sto)).
      { intros u. unfold assign_value, mbind, deref. cbn [heap].
        rewrite nth_middle_cell. cbn [heap metas store].
        rewrite set_nth_middle. reflexivity. }
      destruct (lookup n kwargs) as [v0|].
      - unfold mbind, lift. rewrite Hv. apply Hassign.
      - inversion Hv. subst v. apply Hassign. }
    rewrite Hstep.
    specialize (IH todo vals' (done ++ [set_value y v]) Hlen Hrest).
    rewrite length_app in IH. simpl in IH.
    replace (List.length h + (List.length done + 1))
      with (S (List.length h + List.length done)) in IH by lia.
    rewrite <- !app_assoc in IH. simpl in IH. exact IH.
Qed.

Lemma init_effect (cls : string) (kwargs : list (string * value)) (st : state)
    (m : ModelMeta) (templ vals : list Field) (idc : string) (ida : nat) :
  lookup cls (metas st) = Some m ->
  Forall2 (fun na f => nth_error (heap st) (snd na) = Some f) (base_fields m) templ ->
  Db.id_column m = Some idc ->
  lookup idc (combine (map fst (base_fields m))
                      (seq (List.length (heap st)) (List.length (base_fields m))))
  = Some ida ->
  Forall2 (fun nf f' => exists v, bound isoparse kwargs (fst nf) (f_kind (snd nf)) = Ok v
                                  /\ f' = set_value (snd nf) v)
          (combine (map fst (base_fields m)) templ) vals ->
  init isoparse cls kwargs st
  = (Ok (mkModel cls (combine (map fst (base_fields m))
                              (seq (List.length (heap st)) (List.length (base_fields m))))),
     mkState (heap st ++ vals)
             (replace cls (mkMeta (base_fields m) (Db.table m) (Db.id_column m) (Some ida))
                      (metas st))
             (store st)).
Proof.
  intros Hm Htempl Hidc Hida Hvals.
  assert (Hlen : List.length (base_fields m) = List.length templ)
    by (apply (Forall2_length Htempl)).
  assert (Hcol : forall st', metas st' = metas st ->
                             meta_id_column cls st' = (Ok idc, st')).
  { intros st' E. unfold meta_id_column, mbind, meta_of. rewrite E, Hm, Hidc.
    reflexivity. }
  unfold init. unfold mbind at 1. unfold meta_of at 1. rewrite Hm.
  unfold mbind at 1. rewrite (copy_fields (base_fields m) templ st Htempl).
  unfold mbind at 1. rewrite Hcol by reflexivity. rewrite Hida.
  unfold mbind at 1. unfold set_meta at 1. cbn [heap metas store].
  pose proof (bind_fields kwargs
                (replace cls (mkMeta (base_fields m) (Db.table m) (Db.id_column m) (Some ida))
                         (metas st))
                (store st) (heap st) (map fst (base_fields m)) templ vals []) as Hb.
  simpl in Hb. rewrite Nat.add_0_r in Hb. rewrite <- Hlen in Hb.
  unfold mbind at 1.
  rewrite Hb; [reflexivity | apply length_map | exact Hvals].
Qed.

End Init.

Section Built.
Variable isoparse : string -> option string.

Lemma templates_exist (heap : list Field) (bf : list (string * nat)) :
  (forall n a, In (n, a) bf -> exists f, nth_error heap a = Some f) ->
  exists templ, Forall2 (fun na f => nth_error heap (snd na) = Some f) bf templ.
Proof.
  induction bf as [|[n a] bf IH]; intros H.
  - exists []. constructor.
  - destruct (H n a (or_introl eq_refl)) as (f & Hf).
    destruct IH as (templ & Ht); [intros n' a' Hin; apply (H n' a'); right; exact Hin|].
    exists (f :: templ). constructor; assumption.
Qed.

Lemma values_exist (kwargs : list (string * value)) (nfs : list (string * Field)) :
  (forall n f, In (n, f) nfs -> exists v, bound isoparse kwargs n (f_kind f) = Ok v) ->
  exists vals,
    Forall2 (fun nf f' => exists v, bound isoparse kwargs (fst nf) (f_kind (snd nf)) = Ok v
                                    /\ f' = set_value (snd nf) v) nfs vals.
Proof.
  induction nfs as [|[n f] nfs IH]; intros H.
  - exists []. constructor.
  - destruct (H n f (or_introl eq_refl)) as (v & Hv).
    destruct IH as (vals & Hvs); [intros n' f' Hin; apply (H n' f'); right; exact Hin|].
    exists (set_value f v :: vals). constructor; [|exact Hvs].
    exists v. split; [exact Hv | reflexivity].
Qed.

Lemma zipped_templates (heap : list Field) (bf : list (string * nat)) (templ : list Field) :
  Forall2 (fun na f => nth_error heap (snd na) = Some f) bf templ ->
  forall n f, In (n, f) (combine (map fst bf) templ) ->
              exists a, In (n, a) bf /\ nth_error heap a = Some f.
Proof.
  induction 1 as [|[n0 a0] f0 bf templ Hf _ IH]; simpl; [tauto|].
  intros n f [E|Hin].
  - inversion E. subst. exists a0. split; [left; reflexivity | exact Hf].
  - destruct (IH n f Hin) as (a & Ha & Hn). exists a. split; [right; exact Ha | exact Hn].
Qed.

Lemma lookup_in {A} (k : string) (v : A) (m : list (string * A)) :
  lookup k m = Some v -> In (k, v) m.
Proof.
  unfold lookup. destruct (find _ m) as [[k' v']|] eqn:Hf; [|discriminate].
  apply find_some in Hf. destruct Hf as [Hin E]. simpl in E.
  apply String.eqb_eq in E. subst k'. intros H. inversion H. subst. exact Hin.
Qed.

(** Where the descriptor of a column of the new instance lives, and
    what it holds. *)
Lemma new_cell (kwargs : list (string * value)) (heap : list Field)
    (bf : list (string * nat)) (templ vals : list Field) :
  Forall2 (fun na f => nth_error heap (snd na) = Some f) bf templ ->
  Forall2 (fun nf f' => exists v, bound isoparse kwargs (fst nf) (f_kind (snd nf)) = Ok v
                                  /\ f' = set_value (snd nf) v)
          (combine (map fst bf) templ) vals ->
  forall (s : nat) (n : string) (a : nat) (f : Field),
    lookup n bf = Some a -> nth_error heap a = Some f ->
    exists i v,
      lookup n (combine (map fst bf) (seq s (List.length bf))) = Some (s + i)
      /\ nth_error vals i = Some (set_value f v)
      /\ bound isoparse kwargs n (f_kind f) = Ok v.
Proof.
  intros Ht. revert vals. induction Ht as [|[n0 a0] f0 bf templ Hf _ IH];
    intros vals Hv s n a f Hl Ha.
  - discriminate.
  - simpl in Hv. inversion Hv as [|x f' xs vals' (v & Hb & Hf') Hrest]. subst.
    simpl in Hb, Hf. rewrite lookup_cons in Hl. cbn [map fst List.length seq combine].
    rewrite lookup_cons. destruct (String.eqb_spec n0 n) as [E|N].
    + subst n0. inversion Hl. subst a0. assert (f0 = f) by congruence. subst f0.
      exists 0, v. rewrite Nat.add_0_r. split; [reflexivity|]. split; [reflexivity | exact Hb].
    + destruct (IH vals' Hrest (S s) n a f Hl Ha) as (i & v' & H1 & H2 & H3).
      exists (S i), v'. rewrite Nat.add_succ_r. split; [exact H1|]. split; assumption.
Qed.

Lemma lookup_names (names : list string) (n : string) :
  In n names ->
  forall s, exists i, lookup n (combine names (seq s (List.length names))) = Some (s + i).
Proof.
  induction names as [|n0 names IH]; simpl; [tauto|]. intros H s.
  rewrite lookup_cons. destruct (String.eqb_spec n0 n) as [E|N].
  - exists 0. rewrite Nat.add_0_r. reflexivity.
  - destruct H as [H|H]; [congruence|].
    destruct (IH H (S s)) as (i & Hi). exists (S i). rewrite Nat.add_succ_r. exact Hi.
Qed.

Lemma init_runs (cls : string) (kwargs : list (string * value)) (st : state)
    (m : ModelMeta) (idc : string) :
  lookup cls (metas st) = Some m ->
  Db.id_column m = Some idc -> In idc (map fst (base_fields m)) ->
  (forall n a, In (n, a) (base_fields m) ->
               exists f v, nth_error (heap st) a = Some f
                           /\ bound isoparse kwargs n (f_kind f) = Ok v) ->
  exists templ vals ida,
    Forall2 (fun na f => nth_error (heap st) (snd na) = Some f) (base_fields m) templ
    /\ Forall2 (fun nf f' => exists v, bound isoparse kwargs (fst nf) (f_kind (snd nf)) = Ok v
                                       /\ f' = set_value (snd nf) v)
               (combine (map fst (base_fields m)) templ) vals
    /\ lookup idc (combine (map fst (base_fields m))
                           (seq (List.length (heap st)) (List.length (base_fields m))))
       = Some ida
    /\ init isoparse cls kwargs st
       = (Ok (mkModel cls (combine (map fst (base_fields m))
                                   (seq (List.length (heap st))
                                        (List.length (base_fields m))))),
          mkState (heap st ++ vals)
                  (replace cls (mkMeta (base_fields m) (Db.table m) (Db.id_column m)
                                       (Some ida)) (metas st))
                  (store st)).
Proof.
  intros Hm Hidc Hin Hall.
  destruct (templates_exist (heap st) (base_fields m)) as (templ & Ht).
  { intros n a Hna. destruct (Hall n a Hna) as (f & _ & Hf & _). exists f. exact Hf. }
  destruct (values_exist kwargs (combine (map fst (base_fields m)) templ)) as (vals & Hv).
  { intros n f Hnf. destruct (zipped_templates _ _ _ Ht n f Hnf) as (a & Ha & Hf).
    destruct (Hall n a Ha) as (f' & v & Hf' & Hb). exists v. congruence. }
  destruct (lookup_names (map fst (base_fields m)) idc Hin (List.length (heap st)))
    as (i0 & Hida).
  rewrite length_map in Hida.
  exists templ, vals, (List.length (heap st) + i0). split; [exact Ht|]. split; [exact Hv|].
  split; [exact Hida|].
  apply (init_effect isoparse cls kwargs st m templ vals idc _ Hm Ht Hidc Hida Hv).
Qed.

(** [Model.__init__] on a declared class returns an instance that
    answers every column of the class with the keyword argument given
    under its name, converted by the column's [to_python], or with
    [None]; the storage file is not touched. *)
Theorem init_binds (cls : string) (kwargs : list (string * value)) (st : state)
    (m : ModelMeta) (idc : string) :
  lookup cls (metas st) = Some m ->
  Db.id_column m = Some idc -> In idc (map fst (base_fields m)) ->
  (forall n a, In (n, a) (base_fields m) ->
               exists f v, nth_error (heap st) a = Some f
                           /\ bound isoparse kwargs n (f_kind f) = Ok v) ->
  exists self st',
    init isoparse cls kwargs st = (Ok self, st')
    /\ class_of self = cls
    /\ store st' = store st
    /\ (forall n a f, lookup n (base_fields m) = Some a ->
                      nth_error (heap st) a = Some f ->
                      exists v, bound isoparse kwargs n (f_kind f) = Ok v
                                /\ getattr self n st' = (Ok v, st')).
Proof.
  intros Hm Hidc Hin Hall.
  destruct (init_runs cls kwargs st m idc Hm Hidc Hin Hall)
    as (templ & vals & ida & Ht & Hv & _ & Hrun).
  eexists. eexists. split; [exact Hrun|].
  split; [reflexivity|]. split; [reflexivity|].
  intros n a f Hl Ha.
  destruct (new_cell kwargs (heap st) (base_fields m) templ vals Ht Hv
              (List.length (heap st)) n a f Hl Ha) as (i & v & H1 & H2 & H3).
  exists v. split; [exact H3|].
  unfold getattr. cbn [_fields]. rewrite H1. unfold mbind, deref. cbn [heap].
  rewrite nth_error_app2 by lia.
  replace (List.length (heap st) + i - List.length (heap st)) with i by lia.
  rewrite H2. reflexivity.
Qed.

Lemma lookup_range (names : list string) (n : string) :
  forall s a, lookup n (combine names (seq s (List.length names))) = Some a ->
              s <= a < s + List.length names.
Proof.
  induction names as [|n0 names IH]; intros s a; simpl; [discriminate|].
  rewrite lookup_cons. destruct (String.eqb n0 n).
  - intros H. inversion H. lia.
  - intros H. apply IH in H. lia.
Qed.

Lemma nth_error_set_nth_other {A} (l : list A) (i j : nat) (x : A) :
  i <> j -> nth_error (set_nth j x l) i = nth_error l i.
Proof.
  revert i j. induction l as [|y l IH]; intros i j Hne; simpl.
  - destruct j; reflexivity.
  - destruct j, i; simpl; try reflexivity; [congruence|]. apply IH. lia.
Qed.

Lemma getattr_same_cells (b : Model) (n : string) (st st' : state) :
  (forall k a, In (k, a) (_fields b) -> nth_error (heap st') a = nth_error (heap st) a) ->
  fst (getattr b n st') = fst (getattr b n st).
Proof.
  intros H. unfold getattr. destruct (lookup n (_fields b)) as [a|] eqn:Hl; [|reflexivity].
  unfold mbind, deref. rewrite (H n a (lookup_in _ _ _ Hl)).
  destruct (nth_error (heap st) a); reflexivity.
Qed.

(** Instances do not share column values: building another instance,
    and assigning to any attribute of that instance, changes no value
    an earlier instance answers. *)
Theorem earlier_instance_keeps_values (cls : string) (kwargs : list (string * value))
    (st : state) (m : ModelMeta) (idc : string) (b : Model) :
  lookup cls (metas st) = Some m ->
  Db.id_column m = Some idc -> In idc (map fst (base_fields m)) ->
  (forall n a, In (n, a) (base_fields m) ->
               exists f v, nth_error (heap st) a = Some f
                           /\ bound isoparse kwargs n (f_kind f) = Ok v) ->
  owned b st ->
  exists self st',
    init isoparse cls kwargs st = (Ok self, st')
    /\ (forall n, fst (getattr b n st') = fst (getattr b n st))
    /\ (forall name v,
          exists st'', setattr self name v st' = (Ok tt, st'')
                       /\ forall n, fst (getattr b n st'') = fst (getattr b n st)).
Proof.
  intros Hm Hidc Hin Hall Hb.
  destruct (init_runs cls kwargs st m idc Hm Hidc Hin Hall)
    as (templ & vals & ida & Ht & Hv & _ & Hrun).
  assert (Hlen : List.length vals = List.length (base_fields m)).
  { rewrite <- (Forall2_length Hv). rewrite length_combine, length_map.
    rewrite <- (Forall2_length Ht). apply Nat.min_id. }
  eexists. eexists. split; [exact Hrun|]. split.
  - intros n. apply getattr_same_cells. intros k a Hk. cbn [heap].
    apply nth_error_app1. apply (Hb k a Hk).
  - intros name v. unfold setattr. cbn [_fields].
    destruct (lookup name _) as [a|] eqn:Hl.
    + assert (Hr : List.length (heap st) <= a
                   < List.length (heap st) + List.length (map fst (base_fields m))).
      { apply (lookup_range _ name). rewrite length_map. exact Hl. }
      rewrite length_map in Hr.
      assert (Hvalid : exists f, nth_error (heap st ++ vals) a = Some f).
      { destruct (nth_error (heap st ++ vals) a) eqn:E; [eexists; reflexivity|].
        apply nth_error_None in E. rewrite length_app in E. lia. }
      destruct Hvalid as (f & Hf).
      eexists. split.
      * unfold assign_value, mbind, deref. cbn [heap]. rewrite Hf. reflexivity.
      * intros n. apply getattr_same_cells. intros k a' Hk. cbn [heap].
        rewrite nth_error_set_nth_other by (specialize (Hb k a' Hk); lia).
        apply nth_error_app1. apply (Hb k a' Hk).
    + eexists. split; [reflexivity|].
      intros n. apply getattr_same_cells. intros k a Hk. cbn [heap].
      apply nth_error_app1. apply (Hb k a Hk).
Qed.

End Built.

(** ** [Model.list] *)

Section Fetch.
Variable isoparse : string -> option string.

(** The keyword arguments built from a fetched tuple. *)
Lemma bound_from_tuple (names : list string) (r : row) (n : string) (k : kind) :
  In n names ->
  bound isoparse (combine names (map (cell r) names)) n k
  = to_python isoparse k (cell r n).
Proof.
  intros Hin. unfold bound.
  assert (H : lookup n (combine names (map (cell r) names)) = Some (cell r n)).
  { induction names as [|c names IH]; simpl in *; [tauto|].
    rewrite lookup_cons. destruct (String.eqb_spec c n) as [E|N].
    - subst. reflexivity.
    - destruct Hin as [E|Hin]; [congruence|]. apply IH. exact Hin. }
  rewrite H. reflexivity.
Qed.

Lemma getattr_extend (o : Model) (n : string) (v : value) (st st' : state)
    (ext : list Field) :
  owned o st -> heap st' = heap st ++ ext ->
  getattr o n st = (Ok v, st) -> getattr o n st' = (Ok v, st').
Proof.
  intros Ho Hext. unfold getattr.
  destruct (lookup n (_fields o)) as [a|] eqn:Hl; [|discriminate].
  unfold mbind, deref. rewrite Hext.
  rewrite nth_error_app1 by (apply (Ho n a); apply lookup_in; exact Hl).
  destruct (nth_error (heap st) a); [|discriminate].
  unfold ret. intros H. inversion H. reflexivity.
Qed.

Lemma owned_extend (o : Model) (st st' : state) (ext : list Field) :
  owned o st -> heap st' = heap st ++ ext -> owned o st'.
Proof.
  intros Ho Hext n a Hin. rewrite Hext, length_app. specialize (Ho n a Hin). lia.
Qed.

(** What one more instance, built from the row [r], adds. *)
Lemma init_step (cls : string) (m : ModelMeta) (idc : string) (st0 st : state)
    (ext : list Field) (r : row) :
  Db.id_column m = Some idc -> In idc (map fst (base_fields m)) ->
  same_class cls m st -> heap st = heap st0 ++ ext ->
  (forall n a, In (n, a) (base_fields m) ->
               exists f v, nth_error (heap st0) a = Some f
                           /\ to_python isoparse (f_kind f) (cell r n) = Ok v) ->
  exists self vals ida,
    from_tuple isoparse cls (map fst (base_fields m))
      (map (cell r) (map fst (base_fields m))) st
    = (Ok self,
       mkState (heap st ++ vals)
               (replace cls (mkMeta (base_fields m) (Db.table m) (Db.id_column m) (Some ida))
                        (metas st))
               (store st))
    /\ class_of self = cls
    /\ owned self (mkState (heap st ++ vals) (metas st) (store st))
    /\ lookup idc (_fields self) = Some ida
    /\ (forall n a f, lookup n (base_fields m) = Some a ->
                      nth_error (heap st0) a = Some f ->
                      exists v, to_python isoparse (f_kind f) (cell r n) = Ok v
                                /\ forall ms sto,
                                     getattr self n (mkState (heap st ++ vals) ms sto)
                                     = (Ok v, mkState (heap st ++ vals) ms sto)).
Proof.
  intros Hidc Hin (idf & Hm) Hext Hall.
  assert (Hnames : forall n a, In (n, a) (base_fields m) ->
                               In n (map fst (base_fields m))).
  { intros n a Hna. apply in_map_iff. exists (n, a). split; [reflexivity | exact Hna]. }
  assert (Hvalid : forall n a,
             In (n, a) (base_fields (mkMeta (base_fields m) (Db.table m)
                                            (Db.id_column m) idf)) ->
             exists f v, nth_error (heap st) a = Some f
                         /\ bound isoparse
                              (combine (map fst (base_fields m))
                                       (map (cell r) (map fst (base_fields m))))
                              n (f_kind f) = Ok v).
  { intros n a Hna. cbn [base_fields] in Hna.
    destruct (Hall n a Hna) as (f & v & Hf & Hv).
    exists f, v. split.
    - rewrite Hext. rewrite nth_error_app1; [exact Hf|].
      apply nth_error_Some. congruence.
    - rewrite bound_from_tuple; [exact Hv | apply (Hnames n a Hna)]. }
  destruct (init_runs isoparse cls _ st _ idc Hm Hidc Hin Hvalid)
    as (templ & vals & ida & Ht & Hv & Hida & Hrun).
  cbn [base_fields Db.table Db.id_column] in Ht, Hv, Hida, Hrun.
  assert (Hlen : List.length vals = List.length (base_fields m)).
  { rewrite <- (Forall2_length Hv). rewrite length_combine, length_map.
    rewrite <- (Forall2_length Ht). apply Nat.min_id. }
  eexists. exists vals, ida. split; [exact Hrun|]. split; [reflexivity|].
  split; [|split; [exact Hida|]].
  - intros n a Hna. cbn [_fields heap] in *. apply in_combine_r in Hna.
    apply in_seq in Hna. rewrite length_app. lia.
  - intros n a f Hl Ha.
    assert (Ha' : nth_error (heap st) a = Some f).
    { rewrite Hext. rewrite nth_error_app1; [exact Ha|].
      apply nth_error_Some. congruence. }
    destruct (new_cell isoparse _ (heap st) (base_fields m) templ vals Ht Hv
                (List.length (heap st)) n a f Hl Ha') as (i & v & H1 & H2 & H3).
    exists v. split.
    + rewrite bound_from_tuple in H3; [exact H3|].
      apply (Hnames n a). apply lookup_in. exact Hl.
    + intros ms sto. unfold getattr. cbn [_fields]. rewrite H1.
      unfold mbind, deref. cbn [heap].
      rewrite nth_error_app2 by lia.
      replace (List.length (heap st) + i - List.length (heap st)) with i by lia.
      rewrite H2. reflexivity.
Qed.


(** One instance for each fetched row, built in order. *)
Lemma build_all (cls : string) (m : ModelMeta) (idc : string) (st0 : state) :
  Db.id_column m = Some idc -> In idc (map fst (base_fields m)) ->
  forall (rs : list row) (st : state) (ext : list Field),
    same_class cls m st -> heap st = heap st0 ++ ext ->
    (forall r, In r rs ->
       forall n a, In (n, a) (base_fields m) ->
                   exists f v, nth_error (heap st0) a = Some f
                               /\ to_python isoparse (f_kind f) (cell r n) = Ok v) ->
    exists objs st',
      mmap (from_tuple isoparse cls (map fst (base_fields m)))
           (map (fun r => map (cell r) (map fst (base_fields m))) rs) st
      = (Ok objs, st')
      /\ store st' = store st
      /\ (exists ext', heap st' = heap st ++ ext')
      /\ same_class cls m st'
      /\ Forall2 (fun r o =>
                    class_of o = cls /\ owned o st'
                    /\ forall n a f,
                         lookup n (base_fields m) = Some a ->
                         nth_error (heap st0) a = Some f ->
                         exists v, to_python isoparse (f_kind f) (cell r n) = Ok v
                                   /\ getattr o n st' = (Ok v, st')) rs objs
      /\ (rs <> [] ->
          exists ida, lookup cls (metas st')
                      = Some (mkMeta (base_fields m) (Db.table m) (Db.id_column m)
                                     (Some ida))
                      /\ forall d, lookup idc (_fields (last objs d)) = Some ida).
Proof.
  intros Hidc Hin rs. induction rs as [|r rs IH]; intros st ext Hm Hext Hall.
  - exists [], st. simpl. split; [reflexivity|]. split; [reflexivity|].
    split; [exists []; rewrite app_nil_r; reflexivity|]. split; [exact Hm|].
    split; [constructor|]. intros H. contradiction H. reflexivity.
  - destruct (init_step cls m idc st0 st ext r Hidc Hin Hm Hext
                (Hall r (or_introl eq_refl)))
      as (self & vals & ida & Hrun & Hcls & Hown & Hida & Hget).
    set (st1 := mkState (heap st ++ vals)
                  (replace cls (mkMeta (base_fields m) (Db.table m) (Db.id_column m)
                                       (Some ida)) (metas st))
                  (store st)) in *.
    assert (Hm1 : same_class cls m st1).
    { destruct Hm as (idf & Hm). exists (Some ida). unfold st1. cbn [metas].
      apply (lookup_replace_same cls _ _ _ Hm). }
    assert (Hext1 : heap st1 = heap st0 ++ (ext ++ vals)).
    { unfold st1. cbn [heap]. rewrite Hext, app_assoc. reflexivity. }
    destruct (IH st1 (ext ++ vals) Hm1 Hext1
                (fun r' Hr' => Hall r' (or_intror Hr')))
      as (objs & st' & Hmap & Hsto & (ext' & Hheap) & Hm' & Hall' & Hlast).
    exists (self :: objs), st'.
    split.
    { cbn [map mmap]. unfold mbind at 1. rewrite Hrun. fold st1.
      unfold mbind at 1. rewrite Hmap. reflexivity. }
    split; [rewrite Hsto; reflexivity|].
    split; [exists (vals ++ ext'); rewrite Hheap; unfold st1; cbn [heap];
            rewrite app_assoc; reflexivity|].
    split; [exact Hm'|].
    assert (Hheap' : heap st' = heap (mkState (heap st ++ vals) (metas st) (store st))
                                ++ ext').
    { rewrite Hheap. reflexivity. }
    split.
    + constructor; [|exact Hall'].
      split; [exact Hcls|]. split.
      * apply (owned_extend self _ st' ext' Hown). rewrite Hheap. reflexivity.
      * intros n a f Hl Ha. destruct (Hget n a f Hl Ha) as (v & Hv & Hg).
        exists v. split; [exact Hv|].
        apply (getattr_extend self n v _ st' ext' Hown Hheap'
                 (Hg (metas st) (store st))).
    + intros _. destruct rs as [|r' rs'].
      * simpl in Hmap. inversion Hmap. subst objs st'. exists ida. split.
        -- unfold st1. cbn [metas]. destruct Hm as (idf & Hm).
           apply (lookup_replace_same cls _ _ _ Hm).
        -- intros d. exact Hida.
      * destruct Hlast as (ida' & Hmeta & Hl); [discriminate|].
        exists ida'. split; [exact Hmeta|]. intros d.
        inversion Hall' as [|? o ? objs' ? ? Heq]. subst objs.
        change (last (self :: o :: objs') d) with (last (o :: objs') d).
        apply Hl.
Qed.


(** [Model.list] with no condition returns one instance for each row
    of the table, in the order of the rows; every attribute of an
    instance reads the stored cell of its row, converted by the field;
    the storage file is unchanged.  And the identity that [get_id]
    reports is, for every returned instance, the identity of the last
    one: the class keeps one [id_field], that of the instance built
    last. *)
Theorem list_builds_rows (cls : string) (m : ModelMeta) (tbl idc : string)
    (t : Sql.table) (st : state) :
  lookup cls (metas st) = Some m ->
  Db.table m = Some tbl -> Db.id_column m = Some idc ->
  In idc (map fst (base_fields m)) ->
  lookup tbl (store st) = Some t ->
  forallb (has_column t) (map fst (base_fields m)) = true ->
  (forall r, In r (t_rows t) ->
     forall n a, In (n, a) (base_fields m) ->
                 exists f v, nth_error (heap st) a = Some f
                             /\ to_python isoparse (f_kind f) (cell r n) = Ok v) ->
  exists objs st',
    list_ isoparse cls [] st = (Ok objs, st')
    /\ store st' = store st
    /\ Forall2 (fun r o =>
                  forall n a f,
                    lookup n (base_fields m) = Some a ->
                    nth_error (heap st) a = Some f ->
                    exists v, to_python isoparse (f_kind f) (cell r n) = Ok v
                              /\ getattr o n st' = (Ok v, st')) (t_rows t) objs
    /\ forall o d, In o objs -> get_id o st' = getattr (last objs d) idc st'.
Proof.
  intros Hm Htbl Hidc Hin Ht Hcols Hall.
  assert (Hne : map fst (base_fields m) <> []).
  { intros E. rewrite E in Hin. exact Hin. }
  assert (Hsame : same_class cls m st).
  { exists (id_field m). rewrite Hm. destruct m. reflexivity. }
  destruct (build_all cls m idc st Hidc Hin (t_rows t) st [] Hsame
              (eq_sym (app_nil_r _)) Hall)
    as (objs & st' & Hmap & Hsto & _ & _ & Hrows & Hlast).
  exists objs, st'. split.
  { unfold list_, meta_table. unfold mbind at 1. unfold meta_of at 1. rewrite Hm.
    cbn [filter mmap]. unfold mbind at 1, ret at 1.
    unfold mbind at 1. unfold mbind at 1. unfold meta_of at 1. rewrite Hm, Htbl.
    unfold ret at 1. unfold mbind at 1, execute.
    rewrite (exec_select_all (store st) tbl _ t Ht Hne Hcols).
    destruct st as [h ms sto]. cbn [heap metas store] in *. exact Hmap. }
  split; [exact Hsto|]. split.
  { revert Hrows. apply Forall2_impl. intros r o (_ & _ & H). exact H. }
  intros o d Ho.
  assert (Hcls : class_of o = cls).
  { revert Ho. clear - Hrows.
    induction Hrows as [|r o' rs os H _ IH]; intros Ho; [destruct Ho|].
    destruct Ho as [E|Ho]; [subst; exact (proj1 H) | apply IH; exact Ho]. }
  destruct Hlast as (ida & Hmeta & Hl).
  { intros E. rewrite E in Hrows. inversion Hrows. subst objs. destruct Ho. }
  unfold get_id, meta_id_field, getattr. rewrite Hcls, (Hl d).
  unfold mbind at 1. unfold mbind at 1. unfold meta_of. rewrite Hmeta.
  cbn [id_field]. reflexivity.
Qed.

(** [Model.get] of an identity that rows of the table have returns an
    instance built from the first of them: every attribute reads the
    stored cell of that row, converted by the field, [get_id] reads the
    instance's own identity, and the storage file is unchanged. *)
Theorem get_returns_row (cls tbl idc : string) (st : state) (m : ModelMeta) (a : nat)
    (f : Field) (t : Sql.table) (z : Z) (pre post : list row) (r : row) :
  lookup cls (metas st) = Some m ->
  Db.table m = Some tbl -> Db.id_column m = Some idc -> id_field m = Some a ->
  nth_error (heap st) a = Some f -> f_kind f = IntegerField ->
  lookup tbl (store st) = Some t ->
  In idc (map fst (base_fields m)) ->
  forallb (has_column t) (map fst (base_fields m)) = true ->
  t_rows t = pre ++ r :: post ->
  (forall r', In r' pre -> exists z', cell r' idc = VInt z' /\ z' <> z) ->
  cell r idc = VInt z ->
  (forall n a, In (n, a) (base_fields m) ->
               exists f v, nth_error (heap st) a = Some f
                           /\ to_python isoparse (f_kind f) (cell r n) = Ok v) ->
  exists self st',
    get isoparse cls (VInt z) st = (Ok self, st')
    /\ store st' = store st
    /\ (forall n a f,
          lookup n (base_fields m) = Some a ->
          nth_error (heap st) a = Some f ->
          exists v, to_python isoparse (f_kind f) (cell r n) = Ok v
                    /\ getattr self n st' = (Ok v, st'))
    /\ get_id self st' = getattr self idc st'.
Proof.
  intros Hm Ht Hi Hf Ha Hk Hl Hin Hcols Hrows Hpre Hz Hall.
  assert (Hsame : same_class cls m st).
  { exists (id_field m). rewrite Hm. destruct m. reflexivity. }
  destruct (init_step cls m idc st st [] r Hi Hin Hsame
              (eq_sym (app_nil_r _)) Hall)
    as (self & vals & ida & Hrun & Hcls & Hown & Hida & Hget).
  assert (Hidc : has_column t idc = true).
  { rewrite forallb_forall in Hcols. apply Hcols. exact Hin. }
  exists self, (mkState (heap st ++ vals)
                  (replace cls (mkMeta (base_fields m) (Db.table m) (Db.id_column m)
                                       (Some ida)) (metas st))
                  (store st)).
  split.
  { destruct st as [h ms sto]. destruct m as [bf tb ic idf]. simpl in *. subst tb ic idf.
    destruct f as [k n v d]. simpl in Hk. subst k.
    unfold get, meta_table, meta_id_column, meta_id_field, meta_of, deref, mbind,
      ret, raise, lift, execute.
    cbn -[exec from_tuple].
    repeat (first [rewrite Hm | rewrite Ha]; cbn -[exec from_tuple]).
    unfold exec. rewrite Hl. cbn [where_parses where_columns frag_ok is_bare negb orb].
    assert (Hlen : Nat.eqb (List.length (map fst bf)) 0 = false)
      by (destruct bf; [destruct Hin | reflexivity]).
    rewrite Hlen, forallb_app, Hcols. cbn [forallb andb negb]. rewrite Hidc.
    cbn [andb negb].
    rewrite Hrows, filter_app. rewrite filter_none_in.
    2:{ intros r' Hr. destruct (Hpre r' Hr) as (z' & Hz' & Hne').
        unfold matches, holds, frag_holds. cbn [fst snd]. rewrite Hz'. cbn [lit_eq].
        apply Z.eqb_neq. exact Hne'. }
    cbn [app filter].
    assert (Hmatch : matches t (WFrag idc (FEq (LInt z))) r = true).
    { unfold matches, holds, frag_holds. cbn [fst snd]. rewrite Hz. cbn [lit_eq].
      apply Z.eqb_refl. }
    rewrite Hmatch. cbn [map]. exact Hrun. }
  split; [reflexivity|]. split.
  { intros n a' f' Hl' Ha'. destruct (Hget n a' f' Hl' Ha') as (v & Hv & Hg).
    exists v. split; [exact Hv | apply Hg]. }
  unfold get_id, meta_id_field, getattr. rewrite Hcls, Hida.
  unfold mbind at 1. unfold mbind at 1. unfold meta_of. cbn [metas].
  destruct Hsame as (idf & Hs).
  rewrite (lookup_replace_same cls _ _ _ Hs). reflexivity.
Qed.

End Fetch.

Ltac each_field H :=
  vm_compute in H;
  repeat (destruct H as [H|H];
          [inversion H; subst; eexists; eexists; split; cbv; reflexivity|]);
  destruct H.

Lemma init_binds_witness :
  exists self st',
    init Examples.isoparse "TrackLocation" [("fs_deleted", VInt 1)]
      (Models.start Examples.small) = (Ok self, st')
    /\ class_of self = "TrackLocation"
    /\ store st' = store (Models.start Examples.small)
    /\ (forall n a f,
          lookup n (base_fields (Examples.meta_in (Models.start Examples.small)
                                   "TrackLocation")) = Some a ->
          nth_error (heap (Models.start Examples.small)) a = Some f ->
          exists v, bound Examples.isoparse [("fs_deleted", VInt 1)] n (f_kind f) = Ok v
                    /\ getattr self n st' = (Ok v, st')).
Proof.
  apply (init_binds Examples.isoparse "TrackLocation" [("fs_deleted", VInt 1)]
           (Models.start Examples.small)
           (Examples.meta_in (Models.start Examples.small) "TrackLocation") "id").
  - vm_compute. reflexivity.
  - reflexivity.
  - vm_compute. tauto.
  - intros n a H. each_field H.
Defined.

Lemma earlier_instance_keeps_values_witness :
  exists self st',
    init Examples.isoparse "TrackLocation" [("id", VInt 2)] (snd Examples.first_built)
    = (Ok self, st')
    /\ (forall n, fst (getattr Examples.first_self n st')
                  = fst (getattr Examples.first_self n (snd Examples.first_built)))
    /\ (forall name v,
          exists st'', setattr self name v st' = (Ok tt, st'')
                       /\ forall n, fst (getattr Examples.first_self n st'')
                                    = fst (getattr Examples.first_self n
                                             (snd Examples.first_built))).
Proof.
  apply (earlier_instance_keeps_values Examples.isoparse "TrackLocation"
           [("id", VInt 2)] (snd Examples.first_built)
           (Examples.meta_in (snd Examples.first_built) "TrackLocation") "id"
           Examples.first_self).
  - vm_compute. reflexivity.
  - reflexivity.
  - vm_compute. tauto.
  - intros n a H. each_field H.
  - intros n a H. vm_compute in H.
    repeat (destruct H as [H|H];
            [inversion H; subst; apply Nat.ltb_lt; vm_compute; reflexivity|]).
    destruct H.
Defined.

Lemma list_builds_rows_witness :
  exists objs st',
    list_ Examples.isoparse "TrackLocation" [] (Models.start Examples.shelf)
    = (Ok objs, st')
    /\ store st' = store (Models.start Examples.shelf)
    /\ Forall2 (fun r o =>
                  forall n a f,
                    lookup n (base_fields (Examples.meta_in (Models.start Examples.shelf)
                                             "TrackLocation")) = Some a ->
                    nth_error (heap (Models.start Examples.shelf)) a = Some f ->
                    exists v, to_python Examples.isoparse (f_kind f) (cell r n) = Ok v
                              /\ getattr o n st' = (Ok v, st'))
               (rows_of Examples.shelf "track_locations") objs
    /\ forall o d, In o objs -> get_id o st' = getattr (last objs d) "id" st'.
Proof.
  apply (list_builds_rows Examples.isoparse "TrackLocation"
           (Examples.meta_in (Models.start Examples.shelf) "TrackLocation")
           "track_locations" "id"
           (Models.table_for Models.TrackLocation_body
              (rows_of Examples.shelf "track_locations"))
           (Models.start Examples.shelf)).
  - vm_compute; reflexivity.
  - reflexivity.
  - reflexivity.
  - vm_compute; tauto.
  - vm_compute; reflexivity.
  - vm_compute; reflexivity.
  - intros r Hr n a H. vm_compute in Hr.
    repeat (destruct Hr as [Hr|Hr]; [subst r; each_field H|]). destruct Hr.
Defined.

Lemma get_returns_row_witness :
  exists self st',
    get Examples.isoparse "TrackLocation" (VInt 2) (Models.start Examples.shelf)
    = (Ok self, st')
    /\ store st' = store (Models.start Examples.shelf)
    /\ (forall n a f,
          lookup n (base_fields (Examples.meta_in (Models.start Examples.shelf)
                                   "TrackLocation")) = Some a ->
          nth_error (heap (Models.start Examples.shelf)) a = Some f ->
          exists v, to_python Examples.isoparse (f_kind f)
                      (cell (Examples.location_row 2 "/music/c.mp3" "/music" "c.mp3") n)
                    = Ok v
                    /\ getattr self n st' = (Ok v, st'))
    /\ get_id self st' = getattr self "id" st'.
Proof.
  eapply (get_returns_row Examples.isoparse "TrackLocation" "track_locations" "id"
            (Models.start Examples.shelf)
            (Examples.meta_in (Models.start Examples.shelf) "TrackLocation")
            _ _
            (Models.table_for Models.TrackLocation_body
               (rows_of Examples.shelf "track_locations"))
            2
            [Examples.location_row 1 "/music/a.mp3" "/music" "a.mp3"]
            [Examples.location_row 3 "/gone/d.mp3" "/gone" "d.mp3"]).
  - vm_compute; reflexivity.
  - reflexivity.
  - reflexivity.
  - cbv; reflexivity.
  - cbv; reflexivity.
  - reflexivity.
  - vm_compute; reflexivity.
  - vm_compute; tauto.
  - vm_compute; reflexivity.
  - reflexivity.
  - intros r' [<-|[]]. exists 1%Z. split; [reflexivity | discriminate].
  - reflexivity.
  - intros n a H. each_field H.
Defined.

End InitFacts.
